(** * OS21Tx: Oregon Scientific v2.1 frame encoder and transmitter

    A shallow embedding of [OS21Tx.h], [DHTWrapper.h] and the scheduler
    loop of [sensor.ino], together with the properties of the frame
    encoder, the checksum engine, the bit-level transmitter and the
    duty-cycle loop.

    Conventions.
    - [uint8_t], [uint16_t], [uint64_t] and [int] values are integers in
      [Z]; every implicit conversion to an unsigned type is written out as
      a reduction modulo a power of two.
    - [float] is IEEE 754 binary32 with round-to-nearest-even, built on the
      parameterised operations of [SpecFloat] (precision 24, emax 128).
    - Array reads and writes are bounds-checked: an access outside the
      array is undefined behaviour in C++ and is reported as
      [OutOfBounds idx].
    - Stateful code runs in a state-and-error monad over the
      microcontroller state. *)

From Stdlib Require Import ZArith List Bool Lia.
From Stdlib Require Floats.SpecFloat.
From stdpp Require Import base list.
Import ListNotations.

Local Open Scope Z_scope.

(** ** Fixed-width integers *)

Definition u8 (z : Z) : Z := z mod 2 ^ 8.
Definition u16 (z : Z) : Z := z mod 2 ^ 16.

(** The loop [for (int i = 0; i < n; ++i)] visits [upto n]; the loop
    [for (int j = n - 1; j >= 0; --j)] visits [downfrom n]. *)
Definition upto (n : nat) : list Z := map Z.of_nat (seq 0 n).
Definition downfrom (n : nat) : list Z := rev (upto n).

(** ** Results of code that may read outside an array *)

Inductive result (A : Type) : Type :=
| Ok (a : A)
| OutOfBounds (idx : Z).
Arguments Ok {A} a.
Arguments OutOfBounds {A} idx.

Definition rbind {A B} (r : result A) (k : A -> result B) : result B :=
  match r with
  | Ok a => k a
  | OutOfBounds i => OutOfBounds i
  end.

Declare Scope result_scope.
Delimit Scope result_scope with result.
Notation "x ← y ; z" := (rbind y (fun x => z))
  (at level 20, y at level 100, z at level 200, only parsing) : result_scope.

(** [data[i]] on an array of known length. *)
Definition index (data : list Z) (i : Z) : result Z :=
  if i <? 0 then OutOfBounds i
  else match data !! Z.to_nat i with
       | Some b => Ok b
       | None => OutOfBounds i
       end.

(** A loop whose body threads an accumulator and may fail. *)
Fixpoint for_each {S : Type} (idxs : list Z) (body : Z -> S -> result S) (s : S)
  : result S :=
  match idxs with
  | [] => Ok s
  | i :: rest => rbind (body i s) (for_each rest body)
  end.

(** ** binary32 floating point *)

Module Float32.
Definition prec : Z := 24.
Definition emax : Z := 128.

Definition float : Type := SpecFloat.spec_float.

(** Conversion of an [int] to [float]. *)
Definition of_int (n : Z) : float := SpecFloat.binary_normalize prec emax n 0 false.

Definition mul : float -> float -> float := SpecFloat.SFmul prec emax.
Definition add : float -> float -> float := SpecFloat.SFadd prec emax.
Definition div : float -> float -> float := SpecFloat.SFdiv prec emax.
Definition ltb : float -> float -> bool := SpecFloat.SFltb.
Definition eqb : float -> float -> bool := SpecFloat.SFeqb.

(** The cast [(int)x]: truncation toward zero.  The cast is undefined in
    C++ for NaN, infinities and values outside the range of [int]; the
    value 0 stands for the first two. *)
Definition to_int (x : float) : Z :=
  match x with
  | SpecFloat.S754_finite s m e =>
      let mag := if 0 <=? e then Z.pos m * 2 ^ e else Z.pos m / 2 ^ (- e) in
      if s then - mag else mag
  | _ => 0
  end.

(** The decimal literal [m]e-[d], i.e. the binary32 value nearest to
    [m / 10^d].  Both [m] and [10^d] must be exactly representable
    (below [2^24] in magnitude), which makes the correctly rounded
    quotient the nearest binary32 value. *)
Definition decimal (m : Z) (d : nat) : float :=
  div (of_int m) (of_int (10 ^ Z.of_nat d)).
End Float32.

(** ** Constants of [OS21Tx.h] *)

Definition SUM_MASK : Z := 0xfffe0.
Definition CRC_MASK : Z := 0xff3e0.
Definition CRC_IV : Z := 0x42.
Definition CRC_POLY : Z := 0x7.
Definition DATA_LEN : Z := 12.

(** ** Checksum engine (static member functions) *)

Section Checksums.
Local Open Scope result_scope.

(** Body of the loop of [checksumSimple], on the running sum [s]. *)
Definition checksumSimple_body (data : list Z) (mask : Z) (i s : Z) : result Z :=
  if Z.land (Z.shiftr mask i) 0x1 =? 0 then Ok s (* continue *)
  else
    b ← index data (Z.quot i 2);
    let s := u16 (s + Z.land (Z.shiftr b (Z.rem i 2 * 4)) 0xf) in
    let s := u16 (s + Z.land (Z.shiftr s 8) 0x1) in
    let s := Z.land s 0xff in
    Ok s.

Definition checksumSimple (data : list Z) (mask : Z) : result Z :=
  s ← for_each (upto 64) (checksumSimple_body data mask) 0x0000;
  Ok (u8 s).

(** Body of the inner loop of [checksumCRC]: shift bit [j] of the
    nibble into the register [s]. *)
Definition crc_shift_in (nibble : Z) (s : Z) (j : Z) : Z :=
  let bit := u8 (Z.land (Z.shiftr nibble j) 0x1) in
  let s := u16 (Z.shiftl s 1) in
  let s := Z.lor s bit in
  if Z.land s 0x100 =? 0 then s else Z.lxor s CRC_POLY.

(** Body of the first loop of [checksumCRC]. *)
Definition checksumCRC_body (data : list Z) (mask : Z) (i s : Z) : result Z :=
  if Z.land (Z.shiftr mask i) 0x1 =? 0 then Ok s (* continue *)
  else
    b ← index data (Z.quot i 2);
    let nibble := u8 (Z.land (Z.shiftr b (Z.rem i 2 * 4)) 0xf) in
    Ok (fold_left (crc_shift_in nibble) (downfrom 4) s).

(** Body of the second loop of [checksumCRC]: flush one zero bit. *)
Definition crc_flush (s : Z) (i : Z) : Z :=
  let s := u16 (Z.shiftl s 1) in
  if Z.land s 0x100 =? 0 then s else Z.lxor s CRC_POLY.

Definition checksumCRC (data : list Z) (mask : Z) (iv : Z) : result Z :=
  s ← for_each (upto 64) (checksumCRC_body data mask) iv;
  let s := fold_left crc_flush (upto 8) s in
  Ok (u8 s).
End Checksums.

(** ** The microcontroller and the objects living on it *)

(** Memory-mapped registers the firmware touches. *)
Inductive reg := TCCR0A | TCCR0B | OCR0A | TIMSK | WDTCR | ADCSRA | ADMUX.

Definition reg_eqb (a b : reg) : bool :=
  match a, b with
  | TCCR0A, TCCR0A | TCCR0B, TCCR0B | OCR0A, OCR0A | TIMSK, TIMSK
  | WDTCR, WDTCR | ADCSRA, ADCSRA | ADMUX, ADMUX => true
  | _, _ => false
  end.

(** Bit positions and modes declared by [<avr/io.h>] and [<avr/sleep.h>],
    which are not part of the sources: the development is parametric in
    them. *)
Class AvrIo := {
  WGM01 : Z; CS02 : Z; CS01 : Z; CS00 : Z; OCIE0A : Z;
  WDIE : Z; WDCE : Z; WDE : Z; WDP3 : Z; WDP2 : Z; WDP1 : Z; WDP0 : Z;
  ADEN : Z; ADSC : Z; MUX3 : Z; MUX2 : Z
}.

Inductive sleep_mode_t := SLEEP_MODE_IDLE | SLEEP_MODE_PWR_DOWN.
Inductive pin_mode_t := INPUT | OUTPUT | INPUT_PULLUP.

(** Pin levels: [digitalWrite] takes the level as a 0/1 value. *)
Definition LOW : bool := false.
Definition HIGH : bool := true.

(** Observable actions, in the order they happen. *)
Inductive event :=
| EvPinMode (pin : Z) (mode : pin_mode_t)
| EvDigitalWrite (pin : Z) (val : bool)
| EvSleepCpu
| EvDelay (ms : Z)
| EvWdtReset
| EvWdtDisable
| EvDhtRead.

Record state := mkState {
  (* hardware *)
  regs : reg -> Z;
  irq : bool;                       (* global interrupt enable: sei() / cli() *)
  sleep_mode : sleep_mode_t;
  sleep_enabled : bool;
  trace : list event;               (* oldest first *)
  (* OS21Tx tx *)
  pin : Z;
  old_TCCR0A : Z;
  old_TCCR0B : Z;
  old_OCR0A : Z;
  old_TIMSK : Z;
  data : list Z;
  (* DHTWrapper dht *)
  dataPin : Z;
  powerPin : Z
}.

Definition with_regs (f : (reg -> Z) -> reg -> Z) (st : state) : state :=
  mkState (f (regs st)) (irq st) (sleep_mode st) (sleep_enabled st) (trace st)
    (pin st) (old_TCCR0A st) (old_TCCR0B st) (old_OCR0A st) (old_TIMSK st)
    (data st) (dataPin st) (powerPin st).
Definition with_irq (b : bool) (st : state) : state :=
  mkState (regs st) b (sleep_mode st) (sleep_enabled st) (trace st)
    (pin st) (old_TCCR0A st) (old_TCCR0B st) (old_OCR0A st) (old_TIMSK st)
    (data st) (dataPin st) (powerPin st).
Definition with_sleep_mode (m : sleep_mode_t) (st : state) : state :=
  mkState (regs st) (irq st) m (sleep_enabled st) (trace st)
    (pin st) (old_TCCR0A st) (old_TCCR0B st) (old_OCR0A st) (old_TIMSK st)
    (data st) (dataPin st) (powerPin st).
Definition with_sleep_enabled (b : bool) (st : state) : state :=
  mkState (regs st) (irq st) (sleep_mode st) b (trace st)
    (pin st) (old_TCCR0A st) (old_TCCR0B st) (old_OCR0A st) (old_TIMSK st)
    (data st) (dataPin st) (powerPin st).
Definition with_trace (t : list event) (st : state) : state :=
  mkState (regs st) (irq st) (sleep_mode st) (sleep_enabled st) t
    (pin st) (old_TCCR0A st) (old_TCCR0B st) (old_OCR0A st) (old_TIMSK st)
    (data st) (dataPin st) (powerPin st).
Definition with_old (a b c d : Z) (st : state) : state :=
  mkState (regs st) (irq st) (sleep_mode st) (sleep_enabled st) (trace st)
    (pin st) a b c d (data st) (dataPin st) (powerPin st).
Definition with_data (d : list Z) (st : state) : state :=
  mkState (regs st) (irq st) (sleep_mode st) (sleep_enabled st) (trace st)
    (pin st) (old_TCCR0A st) (old_TCCR0B st) (old_OCR0A st) (old_TIMSK st)
    d (dataPin st) (powerPin st).

(** ** The state-and-error monad *)

Definition M (A : Type) : Type := state -> result (A * state).

Definition ret {A} (a : A) : M A := fun st => Ok (a, st).
Definition bind {A B} (c : M A) (k : A -> M B) : M B :=
  fun st => match c st with
            | Ok (a, st') => k a st'
            | OutOfBounds i => OutOfBounds i
            end.
Definition lift {A} (r : result A) : M A :=
  fun st => match r with
            | Ok a => Ok (a, st)
            | OutOfBounds i => OutOfBounds i
            end.
Definition gets {A} (f : state -> A) : M A := fun st => Ok (f st, st).
Definition modify (f : state -> state) : M unit := fun st => Ok (tt, f st).

Declare Scope prog_scope.
Delimit Scope prog_scope with prog.
Bind Scope prog_scope with M.
Notation "x ← y ; z" := (bind y (fun x => z))
  (at level 20, y at level 100, z at level 200, only parsing) : prog_scope.
Notation "x ;; z" := (bind x (fun _ => z))
  (at level 100, z at level 200, only parsing, right associativity) : prog_scope.

(** A loop whose body acts on the machine state. *)
Fixpoint for_loop (idxs : list Z) (body : Z -> M unit) : M unit :=
  match idxs with
  | [] => ret tt
  | i :: rest => bind (body i) (fun _ => for_loop rest body)
  end.

Definition emit (e : event) : M unit :=
  modify (fun st => with_trace (trace st ++ [e]) st).

Definition read_reg (r : reg) : M Z := gets (fun st => regs st r).
Definition write_reg (r : reg) (v : Z) : M unit :=
  modify (with_regs (fun rs r' => if reg_eqb r r' then u8 v else rs r')).

Definition cli : M unit := modify (with_irq false).
Definition sei : M unit := modify (with_irq true).
Definition set_sleep_mode (m : sleep_mode_t) : M unit := modify (with_sleep_mode m).
Definition sleep_enable : M unit := modify (with_sleep_enabled true).
Definition sleep_disable : M unit := modify (with_sleep_enabled false).
Definition sleep_cpu : M unit := emit EvSleepCpu.
Definition delay (ms : Z) : M unit := emit (EvDelay ms).
Definition pinMode (p : Z) (m : pin_mode_t) : M unit := emit (EvPinMode p m).
Definition digitalWrite (p : Z) (val : bool) : M unit := emit (EvDigitalWrite p val).

(** [data[i]] as an rvalue and [data[i] = v] on the frame of the
    transmitter object. *)
Definition data_get (i : Z) : M Z :=
  fun st => lift (index (data st) i) st.
Definition data_set (i : Z) (v : Z) : M unit :=
  fun st => match index (data st) i with
            | Ok _ => Ok (tt, with_data (<[Z.to_nat i := u8 v]> (data st)) st)
            | OutOfBounds j => OutOfBounds j
            end.
(** [data[i] &= m] and [data[i] |= v]. *)
Definition data_and (i m : Z) : M unit :=
  (b ← data_get i; data_set i (Z.land b m))%prog.
Definition data_or (i v : Z) : M unit :=
  (b ← data_get i; data_set i (Z.lor b v))%prog.

(** A C++ integer used as a condition. *)
Definition truthy (z : Z) : bool := negb (z =? 0).

(** ** [class OS21Tx] *)

(** The frame as initialised by the class: the parts that never change. *)
Definition initial_data : list Z :=
  [0xff; 0xff; 0x1a; 0x2d; 0x00; 0x00; 0x08; 0x00; 0x00; 0x80; 0x00; 0x00].

Section OS21Tx.
Context `{AvrIo}.
Local Open Scope prog_scope.

Definition setRollingId (rollingId : Z) : M unit :=
  data_and 5 0x00 ;; data_or 5 (Z.land rollingId 0xff).

Definition setChannel (channel : Z) : M unit :=
  let channelCode := u8 (Z.shiftl 1 (channel - 1)) in (* 1=0x1, 2=0x2, 3=0x4 *)
  data_and 4 0x0f ;; data_or 4 (Z.land (Z.shiftl channelCode 4) 0xf0).

(** [(int)(t * (t_sign ? -10 : 10))], the expression shared by the four
    digit computations of [setTemperature]. *)
Definition scaled_magnitude (t : Float32.float) (t_sign : Z) : Z :=
  Float32.to_int (Float32.mul t (Float32.of_int (if truthy t_sign then -10 else 10))).

Definition setTemperature (t : Float32.float) : M unit :=
  let t_sign := u8 (Z.b2z (Float32.ltb t (Float32.of_int 0))) in
  let t_deci := u8 (Z.rem (Z.quot (scaled_magnitude t t_sign) 1) 10) in
  let t_ones := u8 (Z.rem (Z.quot (scaled_magnitude t t_sign) 10) 10) in
  let t_tens := u8 (Z.rem (Z.quot (scaled_magnitude t t_sign) 100) 10) in
  let t_huns := u8 (Z.rem (Z.quot (scaled_magnitude t t_sign) 1000) 10) in
  data_and 6 0x0f ;; data_or 6 (Z.land (Z.shiftl t_deci 4) 0xf0) ;;
  data_and 7 0xf0 ;; data_or 7 (Z.land (Z.shiftl t_ones 0) 0x0f) ;;
  data_and 7 0x0f ;; data_or 7 (Z.land (Z.shiftl t_tens 4) 0xf0) ;;
  data_and 8 0xfc ;; data_or 8 (Z.land (Z.shiftl t_huns 0) 0x03) ;;
  data_and 8 0xf3 ;; data_or 8 (Z.land (Z.shiftl t_sign 3) 0x0c).

Definition setHumidity (h : Float32.float) : M unit :=
  let h := Float32.add h (Float32.decimal 5 1) in (* h += 0.5 *)
  let h_ones := u8 (Z.rem (Z.quot (Float32.to_int (Float32.mul h (Float32.of_int 10))) 10) 10) in
  let h_tens := u8 (Z.rem (Z.quot (Float32.to_int (Float32.mul h (Float32.of_int 10))) 100) 10) in
  data_and 8 0x0f ;; data_or 8 (Z.land (Z.shiftl h_ones 4) 0xf0) ;;
  data_and 9 0xf0 ;; data_or 9 (Z.land (Z.shiftl h_tens 0) 0x0f).

Definition setLowBattery (b : bool) : M unit :=
  data_and 6 0xf8 ;; data_or 6 (if b then 0x4 else 0x0).

Definition setChecksum : M unit :=
  d ← gets data;
  c ← lift (checksumSimple d SUM_MASK);
  data_and 10 0x00 ;; data_or 10 (Z.land c 0xff).

Definition setCRC : M unit :=
  d ← gets data;
  c ← lift (checksumCRC d CRC_MASK CRC_IV);
  data_and 11 0x00 ;; data_or 11 (Z.land c 0xff).

Definition writeSyncBit (val : bool) : M unit :=
  sleep_cpu ;;
  p ← gets pin;
  digitalWrite p val.

Definition sendZero : M unit :=
  writeSyncBit LOW ;;
  writeSyncBit HIGH.

Definition sendOne : M unit :=
  writeSyncBit HIGH ;;
  writeSyncBit LOW.

Definition sendBit (val : bool) : M unit :=
  if val then
    sendZero ;; (* each bit is sent twice, inverted first *)
    sendOne
  else
    sendOne ;;
    sendZero.

Definition configureTimer : M unit :=
  a ← read_reg TCCR0A;
  b ← read_reg TCCR0B;
  c ← read_reg OCR0A;
  d ← read_reg TIMSK;
  modify (with_old a b c d) ;;
  cli ;;
  write_reg TCCR0A (Z.shiftl 1 WGM01) ;;
  write_reg TCCR0B (Z.lor (Z.lor (Z.shiftl 1 CS02) (Z.shiftl 1 CS01)) (Z.shiftl 1 CS00)) ;;
  write_reg OCR0A 0xf ;;
  write_reg TIMSK (Z.shiftl 1 OCIE0A) ;;
  sei ;;
  set_sleep_mode SLEEP_MODE_IDLE ;;
  sleep_enable.

Definition restoreTimer : M unit :=
  sleep_disable ;;
  cli ;;
  (a ← gets old_TCCR0A; write_reg TCCR0A a) ;;
  (b ← gets old_TCCR0B; write_reg TCCR0B b) ;;
  (c ← gets old_OCR0A; write_reg OCR0A c) ;;
  (d ← gets old_TIMSK; write_reg TIMSK d) ;;
  sei.

(** Body of the loop of [sendData]: bits are transmitted LSB-first. *)
Definition sendData_body (i : Z) : M unit :=
  b ← data_get (Z.quot i 8);
  sendBit (truthy (Z.land (Z.shiftr b (Z.rem i 8)) 0x1)).

Definition sendData : M unit :=
  configureTimer ;;
  for_loop (upto (Z.to_nat (DATA_LEN * 8))) sendData_body ;;
  writeSyncBit LOW ;; (* Don't leave the transmitter on! *)
  restoreTimer.

Definition begin (channel rollingId : Z) : M unit :=
  (p ← gets pin; pinMode p OUTPUT) ;;
  setRollingId rollingId ;;
  setChannel channel.

Definition transmit (temperature humidity : Float32.float) (lowBattery : bool) : M unit :=
  setTemperature temperature ;;
  setHumidity humidity ;;
  setLowBattery lowBattery ;;
  setChecksum ;;
  setCRC ;;
  sendData ;;
  delay 55 ;;
  sendData.

(** ** [class DHTWrapper] *)

Definition powerOn : M unit :=
  p ← gets powerPin; digitalWrite p HIGH.

Definition powerOff : M unit :=
  (p ← gets powerPin; digitalWrite p LOW) ;;
  (p ← gets dataPin; pinMode p OUTPUT) ;;
  (p ← gets dataPin; digitalWrite p LOW).

(** [DHTWrapper::read]: the values come from the external DHT driver;
    they are an input of the model. *)
Definition read (sample : Float32.float * Float32.float)
  : M (Float32.float * Float32.float) :=
  emit EvDhtRead ;; ret sample.

Definition irrationalReading (t h : Float32.float) : bool :=
  (Float32.eqb t (Float32.decimal 0 1) && Float32.eqb h (Float32.decimal 0 1))
  || (Float32.eqb t (Float32.decimal 1500 1) && Float32.eqb h (Float32.decimal 1000 1))
  || (Float32.eqb t (Float32.decimal 500 1) && Float32.eqb h (Float32.decimal 0 1)).

(** ** [sensor.ino] *)

Definition T0_XO_POWER_PIN : Z := 1.
Definition TX_PIN : Z := 0.
Definition DHT_DATA_PIN : Z := 4.
Definition DHT_POWER_PIN : Z := 3.
Definition LOW_BATTERY : Z := 2000.

(** [getVcc]: [adcl] and [adch] are the contents of the ADC data
    registers once the hardware has cleared [ADSC] (the busy-wait of the
    source); [ADCSRA] is restored right after.  The division is undefined
    in C++ when the conversion result is 0. *)
Definition getVcc (adcl adch : Z) : M Z :=
  saved ← read_reg ADCSRA;
  write_reg ADCSRA (Z.shiftl 1 ADEN) ;;
  write_reg ADMUX (Z.lor (Z.shiftl 1 MUX3) (Z.shiftl 1 MUX2)) ;;
  delay 2 ;;
  (v ← read_reg ADCSRA; write_reg ADCSRA (Z.lor v (Z.shiftl 1 ADSC))) ;;
  let result := u16 (Z.lor (Z.shiftl (u8 adch) 8) (Z.shiftl (u8 adcl) 0)) in
  write_reg ADCSRA saved ;;
  ret (Z.quot 1125300 result).

(** One call of [loop()].  The sample delivered by the sensor and the
    ADC data registers are the inputs of the iteration; [wdt_reset()] and
    [wdt_disable()] of [<avr/wdt.h>] are recorded as events. *)
Definition loop (sample : Float32.float * Float32.float) (adcl adch : Z) : M unit :=
  digitalWrite T0_XO_POWER_PIN HIGH ;;
  powerOn ;;
  set_sleep_mode SLEEP_MODE_PWR_DOWN ;;
  sleep_enable ;;
  write_reg WDTCR (Z.lor (Z.lor (Z.lor (Z.lor (Z.lor (Z.shiftl 1 WDIE) (Z.shiftl 1 WDCE))
                     (Z.shiftl 1 WDE)) (Z.shiftl 1 WDP2)) (Z.shiftl 1 WDP1)) (Z.shiftl 1 WDP0)) ;;
  emit EvWdtReset ;;
  sleep_cpu ;;
  sleep_disable ;;
  r ← read sample;
  let '(t, h) := r in
  if irrationalReading t h then
    ret tt (* return: try again if we get a known bad reading *)
  else
    powerOff ;;
    (vcc ← getVcc adcl adch; transmit t h (vcc <? LOW_BATTERY)) ;;
    digitalWrite T0_XO_POWER_PIN LOW ;;
    set_sleep_mode SLEEP_MODE_PWR_DOWN ;;
    sleep_enable ;;
    emit EvWdtDisable ;;
    write_reg WDTCR (Z.lor (Z.lor (Z.lor (Z.shiftl 1 WDIE) (Z.shiftl 1 WDCE))
                       (Z.shiftl 1 WDP3)) (Z.shiftl 1 WDP0)) ;;
    emit EvWdtReset ;;
    sleep_cpu ;;
    sleep_cpu ;;
    sleep_cpu ;;
    sleep_cpu ;;
    sleep_cpu ;;
    sleep_disable.
End OS21Tx.

(** The ATtiny85 values of the [<avr/io.h>] bit positions (datasheet,
    register descriptions of TCCR0A, TCCR0B, TIMSK, WDTCR, ADCSRA, ADMUX). *)
Definition attiny85 : AvrIo :=
  {| WGM01 := 1; CS02 := 2; CS01 := 1; CS00 := 0; OCIE0A := 4;
     WDIE := 6; WDCE := 4; WDE := 3; WDP3 := 5; WDP2 := 2; WDP1 := 1; WDP0 := 0;
     ADEN := 7; ADSC := 6; MUX3 := 3; MUX2 := 2 |}.

(** The machine right after the global constructors of [sensor.ino] have
    run: [tx = OS21Tx(TX_PIN)] and [dht = DHTWrapper(DHT_DATA_PIN,
    DHT_POWER_PIN)], with the given register contents. *)
Definition boot_state (rs : reg -> Z) : state :=
  {| regs := rs; irq := true; sleep_mode := SLEEP_MODE_IDLE; sleep_enabled := false;
     trace := [];
     pin := TX_PIN;
     old_TCCR0A := 0; old_TCCR0B := 0; old_OCR0A := 0; old_TIMSK := 0;
     data := initial_data;
     dataPin := DHT_DATA_PIN; powerPin := DHT_POWER_PIN |}.

(** ** Observations on runs *)

(** The level an event writes to pin [p], if it is a write to [p]. *)
Definition write_on (p : Z) (e : event) : list bool :=
  match e with
  | EvDigitalWrite q v => if q =? p then [v] else []
  | _ => []
  end.

(** The levels written to pin [p], in order. *)
Definition writes_on (p : Z) (tr : list event) : list bool :=
  flat_map (write_on p) tr.

(** The frame left in the transmitter object by a computation. *)
Definition frame_after {A} (c : M A) (st : state) : result (list Z) :=
  match c st with
  | Ok (_, st') => Ok (data st')
  | OutOfBounds i => OutOfBounds i
  end.

(** The levels a computation writes to the transmitter pin when started
    with an empty trace. *)
Definition emitted {A} (c : M A) (st : state) : result (list bool) :=
  match c (with_trace [] st) with
  | Ok (_, st') => Ok (writes_on (pin st) (trace st'))
  | OutOfBounds i => OutOfBounds i
  end.

(** [sendBit] applied to each bit of a sequence in turn, as the loop of
    [sendData] does with the bits of the frame. *)
Fixpoint send_bits (bits : list bool) : M unit :=
  match bits with
  | [] => ret tt
  | b :: rest => bind (sendBit b) (fun _ => send_bits rest)
  end.

(** The events of a sequence of [writeSyncBit] calls on pin [p]: a sleep
    until the timer interrupt before every pin write. *)
Definition sync_events (p : Z) (levels : list bool) : list event :=
  flat_map (fun v => [EvSleepCpu; EvDigitalWrite p v]) levels.

(** The state invariants the firmware relies on: the frame has
    [DATA_LEN] bytes and the 8-bit registers hold 8-bit values. *)
Definition wf_state (st : state) : Prop :=
  Z.of_nat (length (data st)) = DATA_LEN /\ forall r, 0 <= regs st r < 2 ^ 8.

(** ** Reference definitions, in the words of the specification *)

Module Spec.
Local Open Scope result_scope.

(** The documented example frame. *)
Definition reference_frame : list Z :=
  [0xff; 0xff; 0x1a; 0x2d; 0x20; 0xbb; 0x7c; 0x22; 0x00; 0x83; 0x4a; 0x55].

(** Nibble [i] is bits [4*(i mod 2) .. 4*(i mod 2)+3] of byte [i/2]. *)
Definition nibble_at (data : list Z) (i : Z) : result Z :=
  b ← index data (i / 2);
  Ok ((b / 2 ^ (4 * (i mod 2))) mod 16).

(** Nibble positions 0-63 whose mask bit is set. *)
Definition selected (mask : Z) : list Z :=
  List.filter (fun i => Z.testbit mask i) (upto 64).

(** Add a nibble, fold the overflow bit (bit 8) back in, keep 8 bits. *)
Definition add_fold (sum nib : Z) : Z :=
  let t := sum + nib in
  (t + Z.b2z (Z.testbit t 8)) mod 256.

Fixpoint sum_nibbles (data : list Z) (positions : list Z) (sum : Z) : result Z :=
  match positions with
  | [] => Ok sum
  | p :: rest => n ← nibble_at data p; sum_nibbles data rest (add_fold sum n)
  end.

Definition masked_nibble_sum (data : list Z) (mask : Z) : result Z :=
  sum_nibbles data (selected mask) 0.

(** One step of a CRC-8 register: shift [bit] in, and XOR the
    polynomial when the bit shifted out of the 8-bit register is 1. *)
Definition crc8_step (poly : Z) (reg : Z) (bit : bool) : Z :=
  let shifted := (2 * reg + Z.b2z bit) mod 256 in
  if Z.testbit reg 7 then Z.lxor shifted poly else shifted.

(** The 4 bits of a nibble, most significant first. *)
Definition nibble_bits (n : Z) : list bool :=
  [Z.testbit n 3; Z.testbit n 2; Z.testbit n 1; Z.testbit n 0].

Fixpoint crc_nibbles (poly : Z) (data : list Z) (positions : list Z) (reg : Z)
  : result Z :=
  match positions with
  | [] => Ok reg
  | p :: rest =>
      n ← nibble_at data p;
      crc_nibbles poly data rest (fold_left (crc8_step poly) (nibble_bits n) reg)
  end.

Definition masked_crc8 (data : list Z) (mask : Z) (iv : Z) : result Z :=
  reg ← crc_nibbles 7 data (selected mask) iv;
  Ok (fold_left (crc8_step 7) (repeat false 8) reg).

(** The half-bit pair of one Manchester symbol. *)
Definition pair_of (b : bool) : list bool :=
  if b then [HIGH; LOW] else [LOW; HIGH].

(** The bits of the frame in transmission order: bytes in array order,
    least significant bit first. *)
Definition byte_bits (b : Z) : list bool := map (Z.testbit b) (upto 8).
Definition frame_bits (data : list Z) : list bool := flat_map byte_bits data.

(** The four half-bit writes of one frame bit: the pair of the
    inverted bit, then the pair of the bit. *)
Definition quad_of (b : bool) : list bool := pair_of (negb b) ++ pair_of b.

(** The pin writes of one frame emission: the four writes of every
    frame bit and a final LOW. *)
Definition frame_wave (data : list Z) : list bool :=
  flat_map quad_of (frame_bits data) ++ [LOW].

(** Bit [i] of the frame in transmission order. *)
Definition bit_at (data : list Z) (i : Z) : bool :=
  match index data (i / 8) with
  | Ok b => Z.testbit b (i mod 8)
  | OutOfBounds _ => false
  end.

(** The decimal digits packed in a frame (byte layout of the wire
    format). *)
Record digits := mkDigits {
  t_negative : bool;
  t_tenths : Z; t_ones : Z; t_tens : Z;
  h_ones : Z; h_tens : Z
}.

Definition decode (data : list Z) : result digits :=
  b6 ← index data 6;
  b7 ← index data 7;
  b8 ← index data 8;
  b9 ← index data 9;
  Ok {| t_negative := Z.testbit b8 3;
        t_tenths := b6 / 16;
        t_ones := b7 mod 16;
        t_tens := b7 / 16;
        h_ones := b8 / 16;
        h_tens := b9 mod 16 |}.

(** The decimal digits of the temperature [k/10] and the humidity [h]. *)
Definition digits_of (k h : Z) : digits :=
  {| t_negative := k <? 0;
     t_tenths := Z.abs k mod 10;
     t_ones := (Z.abs k / 10) mod 10;
     t_tens := (Z.abs k / 100) mod 10;
     h_ones := h mod 10;
     h_tens := (h / 10) mod 10 |}.
End Spec.

(** Agreement of a run of the CRC loop with its specification: the same
    failure, or registers equal on their low 8 bits. *)
Definition crc_agree (code spec : result Z) : Prop :=
  match code, spec with
  | Ok s, Ok r => u8 s = u8 r
  | OutOfBounds i, OutOfBounds j => i = j
  | _, _ => False
  end.

(** The byte left by [data[i] &= keep; data[i] |= v] in a byte [b]. *)
Definition field (b keep v : Z) : Z := u8 (Z.lor (u8 (Z.land b keep)) v).

(** What one call of [sendData] does to the machine. *)
Definition sendData_post (st st' : state) : Prop :=
  trace st' = trace st ++ sync_events (pin st) (Spec.frame_wave (data st))
  /\ data st' = data st
  /\ pin st' = pin st
  /\ dataPin st' = dataPin st
  /\ powerPin st' = powerPin st
  /\ forall r, regs st' r = match r with
                            | TCCR0A | TCCR0B | OCR0A | TIMSK => u8 (regs st r)
                            | _ => regs st r
                            end.

(** A computation that succeeds on every well-sized frame and changes
    nothing but the frame, keeping its size. *)
Definition frame_step (c : M unit) : Prop :=
  forall st, Z.of_nat (length (data st)) = DATA_LEN ->
    exists d', c st = Ok (tt, with_data d' st) /\ Z.of_nat (length d') = DATA_LEN.

(** ** Further definitions for the properties below *)

(** The nibbles at the given positions, in order. *)
Fixpoint nibbles_at (data : list Z) (positions : list Z) : result (list Z) :=
  match positions with
  | [] => Ok []
  | p :: rest =>
      rbind (Spec.nibble_at data p) (fun n =>
      rbind (nibbles_at data rest) (fun ns => Ok (n :: ns)))
  end.

(** The sum of a list of integers. *)
Definition Zsum (l : list Z) : Z := fold_right Z.add 0 l.

(** The parts of the frame the source calls "the parts that never
    change": the preamble, the sync nibble and sensor ID (with the low
    nibble of byte 4), bit 3 of byte 6 and the high nibble of byte 9. *)
Definition fixed_parts (d : list Z) : Prop :=
  exists b4 b5 b6 b7 b8 b9 b10 b11,
    d = [0xff; 0xff; 0x1a; 0x2d; b4; b5; b6; b7; b8; b9; b10; b11]
    /\ Z.land b4 0x0f = 0 /\ Z.testbit b6 3 = true /\ Z.land b9 0xf0 = 0x80.

(** A receiver's reading of a waveform: of every four writes the second
    one carries the bit; eight bits, least significant first, make a
    byte. *)
Fixpoint wave_bits (w : list bool) : list bool :=
  match w with
  | _ :: v :: _ :: _ :: rest => v :: wave_bits rest
  | _ => []
  end.

Fixpoint bits_value (bits : list bool) : Z :=
  match bits with
  | [] => 0
  | b :: rest => Z.b2z b + 2 * bits_value rest
  end.

Fixpoint bytes_of_bits (bits : list bool) : list Z :=
  match bits with
  | b0 :: b1 :: b2 :: b3 :: b4 :: b5 :: b6 :: b7 :: rest =>
      bits_value [b0; b1; b2; b3; b4; b5; b6; b7] :: bytes_of_bits rest
  | _ => []
  end.

(** No three consecutive writes of the same level. *)
Fixpoint no_triple (w : list bool) : bool :=
  match w with
  | a :: rest =>
      match rest with
      | b :: c :: _ => negb (Bool.eqb a b && Bool.eqb b c)
      | _ => true
      end && no_triple rest
  | [] => true
  end.

(** Positive or negative zero, the values that compare equal to [0.0]. *)
Definition is_zero (x : Float32.float) : bool :=
  match x with
  | SpecFloat.S754_zero _ => true
  | _ => false
  end.

(** ** [setup()] of [sensor.ino] *)

Definition u32 (z : Z) : Z := z mod 2 ^ 32.

Definition RESET_PIN : Z := 5.

(** What [setup] leaves outside the objects of the sketch: the reset
    status register MCUSR and the [uint32_t] reset counter stored at
    EEPROM address [RESET_COUNT_ADDR]. *)
Record nvram := mkNvram { MCUSR : Z; eeprom_resetCount : Z }.

Section Setup.
Local Open Scope prog_scope.

(** Not part of the sources: the position of the external-reset flag in
    MCUSR ([<avr/io.h>]), [DHT::begin] of the sensor library, and the
    value [random(256)] returns after [randomSeed(seed)] (Arduino core). *)
Variable EXTRF : Z.
Variable dht_begin : M unit.
Variable random256 : Z -> Z.

(** [DHTWrapper::begin]. *)
Definition DHTWrapper_begin : M unit :=
  (p ← gets powerPin; pinMode p OUTPUT) ;;
  dht_begin ;; (* must call this to set the initial pulltime value *)
  (p ← gets dataPin; pinMode p OUTPUT) ;;
  (p ← gets dataPin; digitalWrite p LOW).

(** [resetCount] after the [if] of [setup]: incremented if an external
    reset was triggered. *)
Definition setup_resetCount (_MCUSR stored : Z) : Z :=
  let resetCount := u32 stored in
  if truthy (Z.land _MCUSR (Z.shiftl 1 EXTRF)) then u32 (resetCount + 1) else resetCount.

(** [setup]: [mcusr] and [stored] are the contents of MCUSR and of the
    EEPROM counter on entry; the result holds their contents on exit. *)
Definition setup (mcusr stored : Z) : M nvram :=
  cli ;;
  let _MCUSR := u8 mcusr in
  (* MCUSR = 0 *)
  emit EvWdtDisable ;;
  sei ;;
  write_reg ADCSRA 0 ;; (* disable Analog to Digital Converter *)
  pinMode RESET_PIN INPUT_PULLUP ;;
  pinMode T0_XO_POWER_PIN OUTPUT ;;
  let resetCount := setup_resetCount _MCUSR stored in
  let stored' :=
    if truthy (Z.land _MCUSR (Z.shiftl 1 EXTRF)) then resetCount (* EEPROM.put *)
    else stored in
  let channel := u8 (Z.rem resetCount 3 + 1) in (* i.e. 1, 2, or 3 *)
  DHTWrapper_begin ;;
  begin channel (u8 (random256 resetCount)) ;;
  ret (mkNvram 0 stored').
End Setup.

(** [P] holds for the [n] integers from [lo] on. *)
Fixpoint forall_from (P : Z -> bool) (lo : Z) (n : nat) : bool :=
  match n with
  | O => true
  | S n' => P lo && forall_from P (lo + 1) n'
  end.

(** * Proofs *)

(** ** Bit-level facts *)

Lemma mask_bit_test (mask i : Z) :
  0 <= i -> (Z.land (Z.shiftr mask i) 0x1 =? 0) = negb (Z.testbit mask i).
Proof.
  intros Hi. change 1 with (Z.ones 1). rewrite Z.land_ones by lia.
  change (2 ^ 1) with 2. rewrite Z.shiftr_div_pow2 by lia.
  destruct (Z.testbit mask i) eqn:E.
  - apply Z.testbit_true in E; [|lia]. rewrite E. reflexivity.
  - apply Z.testbit_false in E; [|lia]. rewrite E. reflexivity.
Qed.

Lemma upto_nonneg n i : In i (upto n) -> 0 <= i < Z.of_nat n.
Proof.
  unfold upto. rewrite in_map_iff. intros (k & <- & Hk). apply in_seq in Hk. lia.
Qed.

Lemma nibble_extract (b i : Z) :
  0 <= i ->
  Z.land (Z.shiftr b (Z.rem i 2 * 4)) 0xf = (b / 2 ^ (4 * (i mod 2))) mod 16.
Proof.
  intros Hi. rewrite Z.rem_mod_nonneg by lia.
  change 15 with (Z.ones 4). rewrite Z.land_ones by lia.
  rewrite Z.shiftr_div_pow2 by (pose proof (Z.mod_pos_bound i 2); lia).
  rewrite (Z.mul_comm _ 4). reflexivity.
Qed.

Lemma index_quot data i : 0 <= i -> index data (Z.quot i 2) = index data (i / 2).
Proof. intros. rewrite Z.quot_div_nonneg by lia. reflexivity. Qed.

Lemma sum_step (s n : Z) :
  Z.land (u16 (u16 (s + n) + Z.land (Z.shiftr (u16 (s + n)) 8) 0x1)) 0xff
  = Spec.add_fold s n.
Proof.
  unfold Spec.add_fold, u16. cbv zeta.
  change 255 with (Z.ones 8). rewrite Z.land_ones by lia.
  change 1 with (Z.ones 1) at 1. rewrite Z.land_ones by lia.
  rewrite <- Z.bit0_mod, Z.shiftr_spec by lia. change (0 + 8) with 8.
  rewrite Z.mod_pow2_bits_low by lia.
  set (c := Z.b2z (Z.testbit (s + n) 8)).
  assert (D : (2 ^ 8 | 2 ^ 16)) by (exists (2 ^ 8); reflexivity).
  rewrite Z.mod_mod_divide by exact D.
  rewrite Zplus_mod, Z.mod_mod_divide by exact D.
  rewrite <- Zplus_mod. reflexivity.
Qed.

Lemma add_fold_range s n : 0 <= Spec.add_fold s n < 256.
Proof. unfold Spec.add_fold. apply Z.mod_pos_bound. lia. Qed.

Lemma u8_small z : 0 <= z < 256 -> u8 z = z.
Proof. intros. unfold u8. apply Z.mod_small. lia. Qed.

Section SumRefinement.
Variable data : list Z.
Variable mask : Z.

Lemma sum_loop_refines idxs s :
  (forall i, In i idxs -> 0 <= i) ->
  for_each idxs (checksumSimple_body data mask) s
  = Spec.sum_nibbles data (List.filter (fun i => Z.testbit mask i) idxs) s.
Proof.
  revert s. induction idxs as [|i idxs IH]; intros s Hpos; [reflexivity|].
  assert (Hi : 0 <= i) by (apply Hpos; left; reflexivity).
  assert (Hrest : forall j, In j idxs -> 0 <= j) by (intros; apply Hpos; right; assumption).
  cbn [for_each List.filter]. unfold checksumSimple_body at 1.
  rewrite mask_bit_test by exact Hi.
  destruct (Z.testbit mask i); cbn [negb rbind].
  - cbn [Spec.sum_nibbles]. unfold Spec.nibble_at.
    rewrite index_quot by exact Hi.
    destruct (index data (i / 2)) as [b|j]; cbn [rbind]; [|reflexivity].
    cbv zeta. rewrite nibble_extract by exact Hi. rewrite sum_step. apply IH, Hrest.
  - apply IH, Hrest.
Qed.

Lemma sum_nibbles_range ps s r :
  0 <= s < 256 -> Spec.sum_nibbles data ps s = Ok r -> 0 <= r < 256.
Proof.
  revert s. induction ps as [|p ps IH]; intros s Hs; cbn [Spec.sum_nibbles].
  - intros [= <-]. exact Hs.
  - destruct (Spec.nibble_at data p); cbn [rbind]; [|discriminate].
    apply IH, add_fold_range.
Qed.
End SumRefinement.

(** C3: [checksumSimple] is the masked nibble sum of the specification:
    it visits nibble positions 0-63, takes nibble [i] as the 4 bits at
    offset [4*(i mod 2)] of byte [i/2], and for every position whose mask
    bit is set adds the nibble, folds bit 8 back into the sum and keeps
    8 bits (an access outside the buffer fails identically on both
    sides). *)
Theorem checksumSimple_refines (data : list Z) (mask : Z) :
  checksumSimple data mask = Spec.masked_nibble_sum data mask.
Proof.
  unfold checksumSimple, Spec.masked_nibble_sum, Spec.selected.
  rewrite (sum_loop_refines data mask (upto 64) 0)
    by (intros i Hi; apply upto_nonneg in Hi; lia).
  destruct (Spec.sum_nibbles data _ 0) as [r|j] eqn:E; cbn [rbind]; [|reflexivity].
  apply sum_nibbles_range in E; [|lia]. rewrite u8_small by exact E. reflexivity.
Qed.

Lemma land_pow2_test (x k : Z) :
  0 <= k -> (Z.land x (2 ^ k) =? 0) = negb (Z.testbit x k).
Proof.
  intros Hk.
  assert (E : Z.land x (2 ^ k) = if Z.testbit x k then 2 ^ k else 0).
  { apply Z.bits_inj'. intros n Hn. rewrite Z.land_spec, Z.pow2_bits_eqb by lia.
    destruct (Z.eqb_spec k n) as [->|Hne].
    - destruct (Z.testbit x n); rewrite ?Z.pow2_bits_eqb, ?Z.eqb_refl, ?Z.bits_0 by lia;
        reflexivity.
    - rewrite andb_false_r.
      destruct (Z.testbit x k); rewrite ?Z.pow2_bits_eqb, ?Z.bits_0 by lia;
        [symmetry; apply Z.eqb_neq; exact Hne | reflexivity]. }
  rewrite E. destruct (Z.testbit x k); [|reflexivity].
  apply Z.eqb_neq. pose proof (Z.pow_pos_nonneg 2 k). lia.
Qed.

Lemma land_1_bit (x : Z) : Z.land x 1 = Z.b2z (Z.testbit x 0).
Proof. change 1 with (Z.ones 1). rewrite Z.land_ones by lia. symmetry. apply Z.bit0_mod. Qed.

Lemma testbit_b2z (c : bool) (n : Z) : Z.testbit (Z.b2z c) n = (n =? 0) && c.
Proof.
  destruct c; cbn [Z.b2z].
  - change 1 with (2 ^ 0). rewrite Z.pow2_bits_eqb by lia.
    rewrite andb_true_r, Z.eqb_sym. reflexivity.
  - rewrite Z.bits_0, andb_false_r. reflexivity.
Qed.

Lemma testbit_double_b2z (a : Z) (c : bool) (n : Z) :
  0 <= n -> Z.testbit (2 * a + Z.b2z c) n = if n =? 0 then c else Z.testbit a (n - 1).
Proof.
  intros Hn. destruct (Z.eqb_spec n 0) as [->|Hne].
  - apply Z.testbit_0_r.
  - replace n with (Z.succ (n - 1)) at 1 by lia. apply Z.testbit_succ_r. lia.
Qed.

Lemma testbit_poly (n : Z) : 0 <= n -> Z.testbit CRC_POLY n = (n <? 3).
Proof. intros. change CRC_POLY with (Z.ones 3). apply Z.testbit_ones_nonneg; lia. Qed.

Lemma u8_bits (s r : Z) :
  u8 s = u8 r -> forall k, 0 <= k < 8 -> Z.testbit s k = Z.testbit r k.
Proof.
  unfold u8. intros E k Hk.
  rewrite <- (Z.mod_pow2_bits_low s 8 k), <- (Z.mod_pow2_bits_low r 8 k) by lia.
  rewrite E. reflexivity.
Qed.

Lemma crc_shift_bits (s r : Z) (c : bool) :
  u8 s = u8 r ->
  let s2 := Z.lor (u16 (Z.shiftl s 1)) (Z.b2z c) in
  u8 (if Z.land s2 0x100 =? 0 then s2 else Z.lxor s2 CRC_POLY) = Spec.crc8_step 7 r c.
Proof.
  intros E s2. pose proof (u8_bits s r E) as Hbits.
  assert (Hs2 : forall n, 0 <= n ->
            Z.testbit s2 n = (n <? 16) && Z.testbit s (n - 1) || (n =? 0) && c).
  { intros n Hn. unfold s2, u16.
    rewrite Z.lor_spec, Z.testbit_mod_pow2, Z.shiftl_spec, testbit_b2z by lia.
    reflexivity. }
  change 0x100 with (2 ^ 8). rewrite land_pow2_test by lia.
  rewrite (Hs2 8) by lia. cbn [Z.ltb Z.eqb Z.compare Pos.compare Pos.compare_cont andb orb].
  change (8 - 1) with 7. rewrite orb_false_r, (Hbits 7) by lia.
  unfold Spec.crc8_step. cbv zeta. change 256 with (2 ^ 8).
  apply Z.bits_inj'. intros n Hn. unfold u8.
  rewrite Z.testbit_mod_pow2 by lia.
  destruct (Z.testbit r 7); cbn [negb];
    rewrite ?Z.lxor_spec, ?Z.testbit_mod_pow2, ?testbit_double_b2z, ?Hs2 by lia;
    change 7 with CRC_POLY; rewrite ?testbit_poly by lia.
  all: destruct (Z.ltb_spec n 8), (Z.ltb_spec n 16), (Z.eqb_spec n 0), (Z.ltb_spec n 3);
    try lia; cbn [andb orb xorb];
    rewrite ?Hbits, ?(Z.testbit_neg_r s (n - 1)) by lia;
    destruct (Z.testbit r (n - 1)), c; reflexivity.
Qed.

Lemma u8_idem z : u8 (u8 z) = u8 z.
Proof. unfold u8. apply Z.mod_mod. lia. Qed.

Lemma crc8_step_u8 (r : Z) (c : bool) : u8 (Spec.crc8_step 7 r c) = Spec.crc8_step 7 r c.
Proof. rewrite <- (crc_shift_bits r r c eq_refl). apply u8_idem. Qed.

Lemma crc_shift_in_sim (nib s r j : Z) :
  0 <= j -> u8 s = u8 r ->
  u8 (crc_shift_in nib s j) = u8 (Spec.crc8_step 7 r (Z.testbit nib j)).
Proof.
  intros Hj E. rewrite crc8_step_u8, <- (crc_shift_bits s r _ E).
  unfold crc_shift_in. cbv zeta.
  rewrite land_1_bit, Z.shiftr_spec, Z.add_0_l by lia.
  rewrite (u8_small (Z.b2z _)) by (destruct (Z.testbit nib j); cbn; lia).
  reflexivity.
Qed.

Lemma crc_flush_sim (s r i : Z) :
  u8 s = u8 r -> u8 (crc_flush s i) = u8 (Spec.crc8_step 7 r false).
Proof.
  intros E. rewrite crc8_step_u8, <- (crc_shift_bits s r _ E).
  unfold crc_flush. cbv zeta. cbn [Z.b2z]. rewrite Z.lor_0_r. reflexivity.
Qed.

Lemma crc_nibble_sim (nib s r : Z) :
  u8 s = u8 r ->
  u8 (fold_left (crc_shift_in nib) (downfrom 4) s)
  = u8 (fold_left (Spec.crc8_step 7) (Spec.nibble_bits nib) r).
Proof.
  intros E. change (downfrom 4) with [3; 2; 1; 0]. unfold Spec.nibble_bits.
  cbn [fold_left]. repeat (apply crc_shift_in_sim; [lia|]). exact E.
Qed.

Lemma crc_flush_all_sim (s r : Z) :
  u8 s = u8 r ->
  u8 (fold_left crc_flush (upto 8) s) = fold_left (Spec.crc8_step 7) (repeat false 8) r.
Proof.
  intros E. change (upto 8) with [0; 1; 2; 3; 4; 5; 6; 7].
  cbn [fold_left repeat]. rewrite <- crc8_step_u8.
  repeat apply crc_flush_sim. exact E.
Qed.

Lemma crc_loop_refines (data : list Z) (mask : Z) idxs s r :
  (forall i, In i idxs -> 0 <= i) ->
  u8 s = u8 r ->
  crc_agree (for_each idxs (checksumCRC_body data mask) s)
            (Spec.crc_nibbles 7 data (List.filter (fun i => Z.testbit mask i) idxs) r).
Proof.
  revert s r. induction idxs as [|i idxs IH]; intros s r Hpos E; [exact E|].
  assert (Hi : 0 <= i) by (apply Hpos; left; reflexivity).
  assert (Hrest : forall j, In j idxs -> 0 <= j) by (intros; apply Hpos; right; assumption).
  cbn [for_each List.filter]. unfold checksumCRC_body at 1.
  rewrite mask_bit_test by exact Hi.
  destruct (Z.testbit mask i); cbn [negb rbind].
  - cbn [Spec.crc_nibbles]. unfold Spec.nibble_at.
    rewrite index_quot by exact Hi.
    destruct (index data (i / 2)) as [b|j]; cbn [rbind]; [|reflexivity].
    cbv zeta. rewrite nibble_extract by exact Hi.
    rewrite u8_small by (pose proof (Z.mod_pos_bound (b / 2 ^ (4 * (i mod 2))) 16); lia).
    apply IH; [exact Hrest|]. apply crc_nibble_sim, E.
  - apply IH; assumption.
Qed.

(** C4: [checksumCRC] is the masked CRC-8 of the specification with
    polynomial 7: the register starts at [iv], the 4 bits of every
    mask-selected nibble are shifted in most significant first, the
    polynomial is XOR-ed in whenever the bit shifted out of the 8-bit
    register is 1, and 8 zero bits are flushed at the end. *)
Theorem checksumCRC_refines (data : list Z) (mask iv : Z) :
  checksumCRC data mask iv = Spec.masked_crc8 data mask iv.
Proof.
  unfold checksumCRC, Spec.masked_crc8, Spec.selected.
  pose proof (crc_loop_refines data mask (upto 64) iv iv) as A.
  destruct (for_each _ _ iv) as [s|i], (Spec.crc_nibbles _ _ _ iv) as [r|j];
    cbn [rbind]; unfold crc_agree in A.
  - cbv zeta. f_equal. apply crc_flush_all_sim. apply A; [|reflexivity].
    intros i Hi. apply upto_nonneg in Hi. lia.
  - exfalso. apply A; [|reflexivity]. intros k Hk. apply upto_nonneg in Hk. lia.
  - exfalso. apply A; [|reflexivity]. intros k Hk. apply upto_nonneg in Hk. lia.
  - f_equal. apply A; [|reflexivity]. intros k Hk. apply upto_nonneg in Hk. lia.
Qed.

(** ** Bounds of the buffer reads *)

Lemma index_ok (data : list Z) (i : Z) :
  0 <= i < Z.of_nat (length data) -> exists b, index data i = Ok b.
Proof.
  intros Hi. unfold index.
  destruct (Z.ltb_spec i 0); [lia|].
  destruct (data !! Z.to_nat i) as [b|] eqn:E; [eexists; reflexivity|].
  apply lookup_ge_None in E. lia.
Qed.

Lemma for_each_ok {S : Type} (idxs : list Z) (body : Z -> S -> result S) :
  (forall i s, In i idxs -> exists s', body i s = Ok s') ->
  forall s, exists s', for_each idxs body s = Ok s'.
Proof.
  induction idxs as [|i idxs IH]; intros Hbody s; cbn [for_each].
  - eexists; reflexivity.
  - destruct (Hbody i s (or_introl eq_refl)) as [s1 ->]. cbn [rbind].
    apply IH. intros j s2 Hj. apply Hbody. right. exact Hj.
Qed.

Section InBounds.
Variable data : list Z.
Variable mask : Z.
Hypothesis Hlen : Z.of_nat (length data) = DATA_LEN.
Hypothesis Hmask : forall i, 24 <= i -> Z.testbit mask i = false.

Lemma selected_index_ok i :
  0 <= i -> (Z.land (Z.shiftr mask i) 0x1 =? 0) = false ->
  exists b, index data (Z.quot i 2) = Ok b.
Proof.
  intros Hi Hbit. rewrite mask_bit_test in Hbit by exact Hi.
  apply negb_false_iff in Hbit.
  assert (i < 24).
  { destruct (Z.lt_ge_cases i 24) as [|Hge]; [assumption|].
    rewrite Hmask in Hbit by exact Hge. discriminate. }
  apply index_ok. rewrite Hlen. unfold DATA_LEN.
  rewrite Z.quot_div_nonneg by lia.
  split; [apply Z.div_pos; lia | apply Z.div_lt_upper_bound; lia].
Qed.

Lemma checksumSimple_in_bounds : exists r, checksumSimple data mask = Ok r.
Proof.
  unfold checksumSimple.
  destruct (for_each_ok (upto 64) (checksumSimple_body data mask)) with (s := 0)
    as [s ->]; [|eexists; reflexivity].
  intros i s Hi. apply upto_nonneg in Hi. unfold checksumSimple_body.
  destruct (Z.land (Z.shiftr mask i) 1 =? 0) eqn:Hbit; [eexists; reflexivity|].
  destruct (selected_index_ok i ltac:(lia) Hbit) as [b ->]. eexists; reflexivity.
Qed.

Lemma checksumCRC_in_bounds iv : exists r, checksumCRC data mask iv = Ok r.
Proof.
  unfold checksumCRC.
  destruct (for_each_ok (upto 64) (checksumCRC_body data mask)) with (s := iv)
    as [s ->]; [|eexists; reflexivity].
  intros i s Hi. apply upto_nonneg in Hi. unfold checksumCRC_body.
  destruct (Z.land (Z.shiftr mask i) 1 =? 0) eqn:Hbit; [eexists; reflexivity|].
  destruct (selected_index_ok i ltac:(lia) Hbit) as [b ->]. eexists; reflexivity.
Qed.
End InBounds.

Lemma upto_forallb (P : Z -> bool) (n : nat) :
  forallb P (upto n) = true -> forall i, 0 <= i < Z.of_nat n -> P i = true.
Proof.
  intros F i Hi. rewrite forallb_forall in F. apply F.
  unfold upto. apply in_map_iff. exists (Z.to_nat i). split; [lia|].
  apply in_seq. lia.
Qed.

Lemma mask_bits_bounded (mask : Z) :
  0 <= mask < 2 ^ 24 -> forall i, 24 <= i -> Z.testbit mask i = false.
Proof.
  intros Hm i Hi. destruct (Z.eq_dec mask 0) as [->|Hne]; [apply Z.bits_0|].
  apply Z.bits_above_log2; [lia|].
  assert (Z.log2 mask < 24) by (apply Z.log2_lt_pow2; lia). lia.
Qed.

Lemma used_masks_positions (i : Z) :
  Z.testbit SUM_MASK i = true \/ Z.testbit CRC_MASK i = true -> 5 <= i <= 19.
Proof.
  intros Hbit.
  destruct (Z.lt_ge_cases i 0) as [Hneg|Hpos].
  { rewrite !Z.testbit_neg_r in Hbit by exact Hneg. destruct Hbit; discriminate. }
  destruct (Z.lt_ge_cases i 24) as [Hlt|Hge].
  - pose proof (upto_forallb
      (fun i => implb (Z.testbit SUM_MASK i || Z.testbit CRC_MASK i)
                      ((5 <=? i) && (i <=? 19))) 24 eq_refl i ltac:(lia)) as F.
    cbv beta in F.
    destruct Hbit as [E | E]; rewrite E, ?orb_true_r in F; cbn [orb implb] in F; lia.
  - rewrite !mask_bits_bounded in Hbit by (unfold SUM_MASK, CRC_MASK; lia).
    destruct Hbit; discriminate.
Qed.

(** Expose the 12 bytes of a frame of length [DATA_LEN]. *)
Ltac frame12 d H :=
  let L := fresh "L" in
  assert (L : length d = 12%nat) by (unfold DATA_LEN in H; lia);
  do 12 (destruct d as [|? d]; [discriminate L|]);
  destruct d; [clear L|discriminate L].

(** C10: for a 12-byte frame and every mask whose set bits all lie below
    position 24, every read [data[i/2]] of [checksumSimple] and
    [checksumCRC] is inside the frame (both return a digest); the two
    masks in use, [SUM_MASK] and [CRC_MASK], select only nibble positions
    5 to 19; for arbitrary 64-bit masks the guarantee fails: the full
    mask reads byte 12 and a mask with bit 63 set reads byte 31. *)
Theorem checksum_reads_in_bounds (data : list Z) (iv : Z) :
  Z.of_nat (length data) = DATA_LEN ->
  (forall mask, (forall i, 24 <= i -> Z.testbit mask i = false) ->
     (exists r, checksumSimple data mask = Ok r)
     /\ (exists r, checksumCRC data mask iv = Ok r))
  /\ (forall i, Z.testbit SUM_MASK i = true \/ Z.testbit CRC_MASK i = true -> 5 <= i <= 19)
  /\ checksumSimple data (2 ^ 64 - 1) = OutOfBounds 12
  /\ checksumCRC data (2 ^ 64 - 1) iv = OutOfBounds 12
  /\ checksumSimple data (2 ^ 63) = OutOfBounds 31
  /\ checksumCRC data (2 ^ 63) iv = OutOfBounds 31.
Proof.
  intros Hlen. split; [|split; [exact used_masks_positions|]].
  - intros mask Hmask. split.
    + apply checksumSimple_in_bounds; assumption.
    + apply checksumCRC_in_bounds; assumption.
  - frame12 data Hlen. repeat split; vm_compute; reflexivity.
Qed.

Lemma checksum_reads_in_bounds_witness :
  (exists r, checksumSimple initial_data SUM_MASK = Ok r)
  /\ (exists r, checksumCRC initial_data CRC_MASK CRC_IV = Ok r).
Proof.
  split.
  - apply (proj1 (checksum_reads_in_bounds initial_data CRC_IV eq_refl) SUM_MASK).
    apply mask_bits_bounded. unfold SUM_MASK. lia.
  - apply (proj1 (checksum_reads_in_bounds initial_data CRC_IV eq_refl) CRC_MASK).
    apply mask_bits_bounded. unfold CRC_MASK. lia.
Defined.

(** ** The frame encoder *)

Lemma index_inv (data : list Z) (i b : Z) :
  index data i = Ok b -> 0 <= i /\ data !! Z.to_nat i = Some b.
Proof.
  unfold index. destruct (Z.ltb_spec i 0); [discriminate|].
  destruct (data !! Z.to_nat i); [|discriminate]. intros [= ->]. split; [lia|reflexivity].
Qed.

Lemma index_insert_eq (data : list Z) (i b v : Z) :
  index data i = Ok b -> index (<[Z.to_nat i := v]> data) i = Ok v.
Proof.
  intros Hb. apply index_inv in Hb as [Hi Hb]. unfold index.
  destruct (Z.ltb_spec i 0); [lia|].
  rewrite list_lookup_insert_eq by (eapply lookup_lt_Some; exact Hb). reflexivity.
Qed.

Lemma data_and_run (st : state) (i m b : Z) :
  index (data st) i = Ok b ->
  data_and i m st = Ok (tt, with_data (<[Z.to_nat i := u8 (Z.land b m)]> (data st)) st).
Proof.
  intros Hb. unfold data_and, bind, data_get, data_set, lift. rewrite Hb.
  cbn [data with_data]. rewrite Hb. reflexivity.
Qed.

Lemma data_or_run (st : state) (i v b : Z) :
  index (data st) i = Ok b ->
  data_or i v st = Ok (tt, with_data (<[Z.to_nat i := u8 (Z.lor b v)]> (data st)) st).
Proof.
  intros Hb. unfold data_or, bind, data_get, data_set, lift. rewrite Hb.
  cbn [data with_data]. rewrite Hb. reflexivity.
Qed.

(** The read-modify-write [data[i] &= keep; data[i] |= v] followed by
    the rest of the function. *)
Lemma field_write {A} (st : state) (i keep v b : Z) (rest : M A) :
  index (data st) i = Ok b ->
  bind (data_and i keep) (fun _ => bind (data_or i v) (fun _ => rest)) st
  = rest (with_data (<[Z.to_nat i := field b keep v]> (data st)) st).
Proof.
  intros Hb. unfold bind at 1. rewrite (data_and_run st i keep b Hb).
  unfold bind at 1.
  rewrite (data_or_run _ i v (u8 (Z.land b keep))) by (cbn [data with_data]; eapply index_insert_eq, Hb).
  cbn [data with_data]. rewrite list_insert_insert_eq. reflexivity.
Qed.

Lemma field_write_last (st : state) (i keep v b : Z) :
  index (data st) i = Ok b ->
  bind (data_and i keep) (fun _ => data_or i v) st
  = Ok (tt, with_data (<[Z.to_nat i := field b keep v]> (data st)) st).
Proof.
  intros Hb. unfold bind at 1. rewrite (data_and_run st i keep b Hb).
  rewrite (data_or_run _ i v (u8 (Z.land b keep))) by (cbn [data with_data]; eapply index_insert_eq, Hb).
  cbn [data with_data]. rewrite list_insert_insert_eq. reflexivity.
Qed.

Lemma range2 (P : Z -> Z -> bool) (n m : nat) :
  forallb (fun x => forallb (P x) (upto m)) (upto n) = true ->
  forall x y, 0 <= x < Z.of_nat n -> 0 <= y < Z.of_nat m -> P x y = true.
Proof.
  intros F x y Hx Hy.
  apply (upto_forallb (P x) m); [|exact Hy].
  apply (upto_forallb (fun x => forallb (P x) (upto m)) n F x Hx).
Qed.

Lemma u8_range (z : Z) : 0 <= u8 z < 256.
Proof. unfold u8. apply Z.mod_pos_bound. lia. Qed.

Lemma land_u8 (b m : Z) : 0 <= m < 256 -> Z.land b m = Z.land (u8 b) m.
Proof.
  intros Hm. unfold u8. rewrite <- Z.land_ones by lia.
  rewrite <- Z.land_assoc. rewrite (Z.land_comm (Z.ones 8) m).
  rewrite (Z.land_ones m) by lia. rewrite (Z.mod_small m) by lia. reflexivity.
Qed.

(** [data[i] &= 0x0f; data[i] |= (v << 4) & 0xf0]: the high nibble
    becomes [v], the low nibble stays. *)
Lemma field_high (b v : Z) :
  0 <= v < 16 ->
  let b' := field b 0x0f (Z.land (Z.shiftl v 4) 0xf0) in
  b' / 16 = v /\ Z.land b' 0xf0 = Z.shiftl v 4 /\ Z.land b' 0x0f = Z.land b 0x0f.
Proof.
  intros Hv b'. subst b'. unfold field. rewrite (land_u8 b 0x0f) by lia.
  pose proof (range2 (fun y v =>
    let b' := u8 (Z.lor (u8 (Z.land y 0x0f)) (Z.land (Z.shiftl v 4) 0xf0)) in
    (b' / 16 =? v) && (Z.land b' 0xf0 =? Z.shiftl v 4)
    && (Z.land b' 0x0f =? Z.land y 0x0f)) 256 16
    ltac:(vm_compute; reflexivity) (u8 b) v (u8_range b) Hv) as F.
  cbv beta zeta in F. rewrite !andb_true_iff, !Z.eqb_eq in F. tauto.
Qed.

(** [data[i] &= 0xf0; data[i] |= (v << 0) & 0x0f]: the low nibble
    becomes [v]. *)
Lemma field_low (b v : Z) :
  0 <= v < 16 ->
  let b' := field b 0xf0 (Z.land (Z.shiftl v 0) 0x0f) in
  b' mod 16 = v /\ Z.land b' 0x0f = v.
Proof.
  intros Hv b'. subst b'. unfold field. rewrite (land_u8 b 0xf0) by lia.
  pose proof (range2 (fun y v =>
    let b' := u8 (Z.lor (u8 (Z.land y 0xf0)) (Z.land (Z.shiftl v 0) 0x0f)) in
    (b' mod 16 =? v) && (Z.land b' 0x0f =? v)) 256 16
    ltac:(vm_compute; reflexivity) (u8 b) v (u8_range b) Hv) as F.
  cbv beta zeta in F. rewrite !andb_true_iff, !Z.eqb_eq in F. tauto.
Qed.

(** [data[8] &= 0xf3; data[8] |= (t_sign << 3) & 0x0c]: bit 3 becomes the
    sign. *)
Lemma field_sign (b sign : Z) :
  0 <= sign < 2 ->
  Z.testbit (Z.land (field b 0xf3 (Z.land (Z.shiftl sign 3) 0x0c)) 0x0f) 3 = (sign =? 1).
Proof.
  intros Hs. unfold field. rewrite (land_u8 b 0xf3) by lia.
  pose proof (range2 (fun y sign =>
    Bool.eqb (Z.testbit (Z.land (u8 (Z.lor (u8 (Z.land y 0xf3))
                                         (Z.land (Z.shiftl sign 3) 0x0c))) 0x0f) 3)
             (sign =? 1)) 256 2
    ltac:(vm_compute; reflexivity) (u8 b) sign (u8_range b) Hs) as F.
  cbv beta in F. apply eqb_prop in F. exact F.
Qed.

(** C8: for every channel in 1..3 [setChannel] writes the one-hot channel
    code into the high nibble of frame byte 4 (pattern 0x10, 0x20, 0x40
    for channels 1, 2, 3), leaves the low nibble of byte 4 unchanged and
    touches nothing else. *)
Theorem setChannel_one_hot (st : state) (channel : Z) :
  Z.of_nat (length (data st)) = DATA_LEN ->
  1 <= channel <= 3 ->
  exists b4 b4',
    index (data st) 4 = Ok b4
    /\ setChannel channel st = Ok (tt, with_data (<[4%nat := b4']> (data st)) st)
    /\ Z.land b4' 0xf0 = (if channel =? 1 then 0x10 else if channel =? 2 then 0x20 else 0x40)
    /\ Z.land b4' 0x0f = Z.land b4 0x0f.
Proof.
  intros Hlen Hch.
  destruct (index_ok (data st) 4) as [b4 Hb4]; [rewrite Hlen; unfold DATA_LEN; lia|].
  exists b4. eexists. split; [exact Hb4|]. split.
  { unfold setChannel. cbv zeta. rewrite (field_write_last st 4 _ _ b4 Hb4). reflexivity. }
  assert (Hv : 0 <= u8 (Z.shiftl 1 (channel - 1)) < 16
               /\ Z.shiftl (u8 (Z.shiftl 1 (channel - 1))) 4
                  = if channel =? 1 then 0x10 else if channel =? 2 then 0x20 else 0x40).
  { assert (C : channel = 1 \/ channel = 2 \/ channel = 3) by lia.
    destruct C as [-> | [-> | ->]]; vm_compute; repeat split; discriminate. }
  destruct Hv as [Hv <-].
  pose proof (field_high b4 _ Hv) as W. cbv zeta in W. tauto.
Qed.

(** The digits [setTemperature] extracts from the binary32 value nearest
    to [k/10], for every [k] from -199 to 999. *)
Lemma temperature_digits (k : Z) :
  -199 <= k <= 999 ->
  let t := Float32.decimal k 1 in
  let t_sign := u8 (Z.b2z (Float32.ltb t (Float32.of_int 0))) in
  t_sign = Z.b2z (k <? 0)
  /\ u8 (Z.rem (Z.quot (scaled_magnitude t t_sign) 1) 10) = Z.abs k mod 10
  /\ u8 (Z.rem (Z.quot (scaled_magnitude t t_sign) 10) 10) = (Z.abs k / 10) mod 10
  /\ u8 (Z.rem (Z.quot (scaled_magnitude t t_sign) 100) 10) = (Z.abs k / 100) mod 10
  /\ u8 (Z.rem (Z.quot (scaled_magnitude t t_sign) 1000) 10) = 0.
Proof.
  intros Hk.
  pose proof (upto_forallb (fun i =>
    let k := i - 199 in
    let t := Float32.decimal k 1 in
    let t_sign := u8 (Z.b2z (Float32.ltb t (Float32.of_int 0))) in
    (t_sign =? Z.b2z (k <? 0))
    && (u8 (Z.rem (Z.quot (scaled_magnitude t t_sign) 1) 10) =? Z.abs k mod 10)
    && (u8 (Z.rem (Z.quot (scaled_magnitude t t_sign) 10) 10) =? (Z.abs k / 10) mod 10)
    && (u8 (Z.rem (Z.quot (scaled_magnitude t t_sign) 100) 10) =? (Z.abs k / 100) mod 10)
    && (u8 (Z.rem (Z.quot (scaled_magnitude t t_sign) 1000) 10) =? 0)) 1199
    ltac:(vm_compute; reflexivity) (k + 199) ltac:(lia)) as F.
  cbv beta zeta in F. replace (k + 199 - 199) with k in F by lia.
  rewrite !andb_true_iff, !Z.eqb_eq in F. cbv zeta. tauto.
Qed.

(** The digits [setHumidity] extracts from the whole percentage [h]. *)
Lemma humidity_digits (h : Z) :
  0 <= h <= 99 ->
  let hf := Float32.add (Float32.of_int h) (Float32.decimal 5 1) in
  u8 (Z.rem (Z.quot (Float32.to_int (Float32.mul hf (Float32.of_int 10))) 10) 10) = h mod 10
  /\ u8 (Z.rem (Z.quot (Float32.to_int (Float32.mul hf (Float32.of_int 10))) 100) 10)
     = (h / 10) mod 10.
Proof.
  intros Hh.
  pose proof (upto_forallb (fun h =>
    let hf := Float32.add (Float32.of_int h) (Float32.decimal 5 1) in
    (u8 (Z.rem (Z.quot (Float32.to_int (Float32.mul hf (Float32.of_int 10))) 10) 10) =? h mod 10)
    && (u8 (Z.rem (Z.quot (Float32.to_int (Float32.mul hf (Float32.of_int 10))) 100) 10)
        =? (h / 10) mod 10)) 100
    ltac:(vm_compute; reflexivity) h ltac:(lia)) as F.
  cbv beta zeta in F. rewrite !andb_true_iff, !Z.eqb_eq in F. cbv zeta. tauto.
Qed.

(** Run a sequence of read-modify-write field updates on a frame whose
    12 bytes are known by [Hdata]. *)
Ltac run_fields Hdata :=
  repeat (erewrite field_write by (cbn [data with_data]; rewrite Hdata; reflexivity));
  erewrite field_write_last by (cbn [data with_data]; rewrite Hdata; reflexivity);
  cbn [data with_data]; rewrite Hdata; reflexivity.

Section FrameEffects.
Variables b0 b1 b2 b3 b4 b5 b6 b7 b8 b9 b10 b11 : Z.
Variable st : state.
Hypothesis Hdata : data st = [b0; b1; b2; b3; b4; b5; b6; b7; b8; b9; b10; b11].

Lemma setTemperature_run (t : Float32.float) :
  let t_sign := u8 (Z.b2z (Float32.ltb t (Float32.of_int 0))) in
  let t_deci := u8 (Z.rem (Z.quot (scaled_magnitude t t_sign) 1) 10) in
  let t_ones := u8 (Z.rem (Z.quot (scaled_magnitude t t_sign) 10) 10) in
  let t_tens := u8 (Z.rem (Z.quot (scaled_magnitude t t_sign) 100) 10) in
  let t_huns := u8 (Z.rem (Z.quot (scaled_magnitude t t_sign) 1000) 10) in
  setTemperature t st
  = Ok (tt, with_data
              [b0; b1; b2; b3; b4; b5;
               field b6 0x0f (Z.land (Z.shiftl t_deci 4) 0xf0);
               field (field b7 0xf0 (Z.land (Z.shiftl t_ones 0) 0x0f)) 0x0f
                     (Z.land (Z.shiftl t_tens 4) 0xf0);
               field (field b8 0xfc (Z.land (Z.shiftl t_huns 0) 0x03)) 0xf3
                     (Z.land (Z.shiftl t_sign 3) 0x0c);
               b9; b10; b11] st).
Proof.
  intros t_sign t_deci t_ones t_tens t_huns. unfold setTemperature.
  fold t_sign. fold t_deci. fold t_ones. fold t_tens. fold t_huns. cbv zeta.
  run_fields Hdata.
Qed.

Lemma setHumidity_run (h : Float32.float) :
  let h' := Float32.add h (Float32.decimal 5 1) in
  let h_ones := u8 (Z.rem (Z.quot (Float32.to_int (Float32.mul h' (Float32.of_int 10))) 10) 10) in
  let h_tens := u8 (Z.rem (Z.quot (Float32.to_int (Float32.mul h' (Float32.of_int 10))) 100) 10) in
  setHumidity h st
  = Ok (tt, with_data
              [b0; b1; b2; b3; b4; b5; b6; b7;
               field b8 0x0f (Z.land (Z.shiftl h_ones 4) 0xf0);
               field b9 0xf0 (Z.land (Z.shiftl h_tens 0) 0x0f);
               b10; b11] st).
Proof.
  intros h' h_ones h_tens. unfold setHumidity.
  fold h'. fold h_ones. fold h_tens. cbv zeta.
  run_fields Hdata.
Qed.

Lemma setLowBattery_run (b : bool) :
  setLowBattery b st
  = Ok (tt, with_data
              [b0; b1; b2; b3; b4; b5; field b6 0xf8 (if b then 0x4 else 0x0);
               b7; b8; b9; b10; b11] st).
Proof. unfold setLowBattery. run_fields Hdata. Qed.

Lemma setRollingId_run (rollingId : Z) :
  setRollingId rollingId st
  = Ok (tt, with_data
              [b0; b1; b2; b3; b4; field b5 0x00 (Z.land rollingId 0xff);
               b6; b7; b8; b9; b10; b11] st).
Proof. unfold setRollingId. run_fields Hdata. Qed.

Lemma setChannel_run (channel : Z) :
  setChannel channel st
  = Ok (tt, with_data
              [b0; b1; b2; b3;
               field b4 0x0f (Z.land (Z.shiftl (u8 (Z.shiftl 1 (channel - 1))) 4) 0xf0);
               b5; b6; b7; b8; b9; b10; b11] st).
Proof. unfold setChannel. cbv zeta. run_fields Hdata. Qed.

Lemma setChecksum_run :
  exists c, checksumSimple (data st) SUM_MASK = Ok c
    /\ setChecksum st
       = Ok (tt, with_data
                   [b0; b1; b2; b3; b4; b5; b6; b7; b8; b9;
                    field b10 0x00 (Z.land c 0xff); b11] st).
Proof.
  destruct (checksumSimple_in_bounds (data st) SUM_MASK) as [c Hc].
  { rewrite Hdata. reflexivity. }
  { apply mask_bits_bounded. unfold SUM_MASK. lia. }
  exists c. split; [exact Hc|].
  unfold setChecksum, bind at 1, gets. unfold bind at 1. rewrite Hc. cbn [lift].
  run_fields Hdata.
Qed.

Lemma setCRC_run :
  exists c, checksumCRC (data st) CRC_MASK CRC_IV = Ok c
    /\ setCRC st
       = Ok (tt, with_data
                   [b0; b1; b2; b3; b4; b5; b6; b7; b8; b9; b10;
                    field b11 0x00 (Z.land c 0xff)] st).
Proof.
  destruct (checksumCRC_in_bounds (data st) CRC_MASK) with (iv := CRC_IV) as [c Hc].
  { rewrite Hdata. reflexivity. }
  { apply mask_bits_bounded. unfold CRC_MASK. lia. }
  exists c. split; [exact Hc|].
  unfold setCRC, bind at 1, gets. unfold bind at 1. rewrite Hc. cbn [lift].
  run_fields Hdata.
Qed.
End FrameEffects.

Lemma decode_frame (c0 c1 c2 c3 c4 c5 c6 c7 c8 c9 c10 c11 : Z) :
  Spec.decode [c0; c1; c2; c3; c4; c5; c6; c7; c8; c9; c10; c11]
  = Ok (Spec.mkDigits (Z.testbit c8 3) (c6 / 16) (c7 mod 16) (c7 / 16) (c8 / 16) (c9 mod 16)).
Proof. reflexivity. Qed.

Lemma mod10_digit (z : Z) : 0 <= z mod 10 < 16.
Proof. pose proof (Z.mod_pos_bound z 10). lia. Qed.

Lemma testbit3_low_nibble (b : Z) : Z.testbit b 3 = Z.testbit (Z.land b 0x0f) 3.
Proof. rewrite Z.land_spec. change (Z.testbit 15 3) with true. rewrite andb_true_r. reflexivity. Qed.

(** C5: for every temperature [k/10] with [k] from -199 to 999 (given as
    the nearest binary32 value) and every whole humidity [h] from 0 to 99,
    [setTemperature] followed by [setHumidity] leaves a frame whose
    packed digits (sign bit, tenths, ones, tens; humidity ones, tens)
    decode to the decimal digits of [k/10] and [h]. *)
Theorem temperature_humidity_roundtrip (st : state) (k h : Z) :
  Z.of_nat (length (data st)) = DATA_LEN ->
  -199 <= k <= 999 ->
  0 <= h <= 99 ->
  rbind (frame_after (bind (setTemperature (Float32.decimal k 1))
                           (fun _ => setHumidity (Float32.of_int h))) st)
        Spec.decode
  = Ok (Spec.digits_of k h).
Proof.
  intros Hlen Hk Hh.
  remember (data st) as d eqn:Hd. frame12 d Hlen. symmetry in Hd.
  pose proof (setTemperature_run _ _ _ _ _ _ _ _ _ _ _ _ st Hd (Float32.decimal k 1)) as T.
  destruct (temperature_digits k Hk) as (Es & E1 & E2 & E3 & E4).
  cbv zeta in T, Es, E1, E2, E3, E4. rewrite E1, E2, E3, E4, Es in T. clear Es E1 E2 E3 E4.
  unfold frame_after, bind. rewrite T. clear T.
  match goal with
  | |- context [setHumidity _ (with_data ?d' st)] =>
      pose proof (setHumidity_run _ _ _ _ _ _ _ _ _ _ _ _ (with_data d' st) eq_refl
                    (Float32.of_int h)) as U
  end.
  destruct (humidity_digits h Hh) as (E1 & E2).
  cbv zeta in U, E1, E2. rewrite E1, E2 in U. clear E1 E2.
  rewrite U. clear U. cbn [rbind data with_data]. rewrite decode_frame.
  unfold Spec.digits_of. f_equal.
  pose proof (mod10_digit (Z.abs k)) as D1.
  pose proof (mod10_digit (Z.abs k / 10)) as D2.
  pose proof (mod10_digit (Z.abs k / 100)) as D3.
  pose proof (mod10_digit h) as D4.
  pose proof (mod10_digit (h / 10)) as D5.
  f_equal.
  - (* sign *)
    rewrite testbit3_low_nibble.
    match goal with |- context [field ?b 15 (Z.land (Z.shiftl ?v 4) 240)] =>
      destruct (field_high b v D4) as (_ & _ & ->) end.
    rewrite field_sign by (destruct (k <? 0); cbn; lia).
    destruct (k <? 0); reflexivity.
  - (* tenths *)
    match goal with |- context [field ?b 15 (Z.land (Z.shiftl ?v 4) 240)] =>
      destruct (field_high b v D1) as (-> & _) end. reflexivity.
  - (* ones *)
    change 16 with (2 ^ 4). rewrite <- Z.land_ones by lia. change (Z.ones 4) with 0x0f.
    match goal with |- context [field ?b 15 (Z.land (Z.shiftl ?v 4) 240)] =>
      destruct (field_high b v D3) as (_ & _ & ->) end.
    match goal with |- context [field ?b 240 (Z.land (Z.shiftl ?v 0) 15)] =>
      destruct (field_low b v D2) as (_ & ->) end. reflexivity.
  - (* tens *)
    match goal with |- context [field ?b 15 (Z.land (Z.shiftl ?v 4) 240)] =>
      destruct (field_high b v D3) as (-> & _) end. reflexivity.
  - (* humidity ones *)
    match goal with |- context [field ?b 15 (Z.land (Z.shiftl ?v 4) 240)] =>
      destruct (field_high b v D4) as (-> & _) end. reflexivity.
  - (* humidity tens *)
    match goal with |- context [field ?b 240 (Z.land (Z.shiftl ?v 0) 15)] =>
      destruct (field_low b v D5) as (-> & _) end. reflexivity.
Qed.

(** ** The bit-level transmitter *)

Lemma with_trace_id (st : state) : with_trace (trace st) st = st.
Proof. destruct st; reflexivity. Qed.

Lemma sync_events_app (p : Z) (l1 l2 : list bool) :
  sync_events p (l1 ++ l2) = sync_events p l1 ++ sync_events p l2.
Proof. unfold sync_events. apply flat_map_app. Qed.

Lemma writes_on_app (p : Z) (t1 t2 : list event) :
  writes_on p (t1 ++ t2) = writes_on p t1 ++ writes_on p t2.
Proof. unfold writes_on. apply flat_map_app. Qed.

Lemma writes_on_sync (p : Z) (l : list bool) : writes_on p (sync_events p l) = l.
Proof.
  induction l as [|v l IH]; [reflexivity|].
  cbn [sync_events flat_map app writes_on write_on]. rewrite Z.eqb_refl. cbn [app].
  f_equal. exact IH.
Qed.

Lemma writeSyncBit_run (st : state) (v : bool) :
  writeSyncBit v st = Ok (tt, with_trace (trace st ++ sync_events (pin st) [v]) st).
Proof.
  unfold writeSyncBit, bind, sleep_cpu, gets, digitalWrite, emit, modify.
  cbn [trace pin with_trace sync_events flat_map].
  rewrite <- app_assoc. reflexivity.
Qed.

Lemma sendBit_run (st : state) (b : bool) :
  sendBit b st = Ok (tt, with_trace (trace st ++ sync_events (pin st) (Spec.quad_of b)) st).
Proof.
  destruct b; unfold sendBit, sendOne, sendZero, bind; rewrite !writeSyncBit_run;
    cbn [trace pin with_trace]; rewrite <- !app_assoc; reflexivity.
Qed.

Lemma send_bits_run (bits : list bool) (st : state) :
  send_bits bits st
  = Ok (tt, with_trace (trace st ++ sync_events (pin st) (flat_map Spec.quad_of bits)) st).
Proof.
  revert st. induction bits as [|b bits IH]; intros st; cbn [send_bits flat_map].
  - cbn [sync_events flat_map]. rewrite app_nil_r, with_trace_id. reflexivity.
  - unfold bind. rewrite sendBit_run, IH. cbn [trace pin with_trace].
    rewrite sync_events_app, app_assoc. reflexivity.
Qed.

Lemma emitted_send_bits (bits : list bool) (st : state) :
  emitted (send_bits bits) st = Ok (flat_map Spec.quad_of bits).
Proof.
  unfold emitted. rewrite send_bits_run. cbn [trace pin with_trace app].
  rewrite writes_on_sync. reflexivity.
Qed.

(** C2 fails as stated: for the bit sequence [1,0,1,1] the transmitter
    does not emit the eight half-symbols (hi,lo),(lo,hi),(hi,lo),(hi,lo). *)
Lemma single_pair_per_bit_refuted :
  emitted (send_bits [true; false; true; true]) (boot_state (fun _ => 0))
  = Ok [LOW; HIGH; HIGH; LOW;  HIGH; LOW; LOW; HIGH;
        LOW; HIGH; HIGH; LOW;  LOW; HIGH; HIGH; LOW]
  /\ emitted (send_bits [true; false; true; true]) (boot_state (fun _ => 0))
     <> Ok [HIGH; LOW;  LOW; HIGH;  HIGH; LOW;  HIGH; LOW]
  /\ emitted (sendBit true) (boot_state (fun _ => 0)) <> Ok [HIGH; LOW]
  /\ emitted (sendBit false) (boot_state (fun _ => 0)) <> Ok [LOW; HIGH].
Proof. repeat split; vm_compute; (reflexivity || discriminate). Qed.

(** C2 (amended): [sendOne] emits the pair (high, low) and [sendZero] the
    pair (low, high), each holding one high and one low pulse; a logical
    bit is emitted by [sendBit] as two such pairs, the pair of the
    inverted bit first: a 1 as (low, high, high, low) and a 0 as (high,
    low, low, high), so every logical bit contributes two high and two
    low pulses; the sequence [1,0,1,1] is emitted as (lo,hi),(hi,lo),
    (hi,lo),(lo,hi), (lo,hi),(hi,lo), (lo,hi),(hi,lo). *)
Theorem sendBit_doubles_manchester_pairs (st : state) (bits : list bool) :
  emitted sendOne st = Ok [HIGH; LOW]
  /\ emitted sendZero st = Ok [LOW; HIGH]
  /\ (forall b, emitted (sendBit b) st
                = Ok (if b then [LOW; HIGH; HIGH; LOW] else [HIGH; LOW; LOW; HIGH]))
  /\ emitted (send_bits bits) st
     = Ok (flat_map (fun b => Spec.pair_of (negb b) ++ Spec.pair_of b) bits)
  /\ (forall b, count_occ bool_dec (Spec.pair_of b) HIGH = 1%nat
                /\ count_occ bool_dec (Spec.pair_of b) LOW = 1%nat)
  /\ (forall b, count_occ bool_dec (Spec.pair_of (negb b) ++ Spec.pair_of b) HIGH = 2%nat
                /\ count_occ bool_dec (Spec.pair_of (negb b) ++ Spec.pair_of b) LOW = 2%nat)
  /\ emitted (send_bits [true; false; true; true]) st
     = Ok [LOW; HIGH; HIGH; LOW;  HIGH; LOW; LOW; HIGH;
           LOW; HIGH; HIGH; LOW;  LOW; HIGH; HIGH; LOW].
Proof.
  repeat split.
  - unfold emitted, sendOne, bind. rewrite !writeSyncBit_run. cbn [trace pin with_trace app].
    rewrite <- sync_events_app, writes_on_sync. reflexivity.
  - unfold emitted, sendZero, bind. rewrite !writeSyncBit_run. cbn [trace pin with_trace app].
    rewrite <- sync_events_app, writes_on_sync. reflexivity.
  - intros b. unfold emitted. rewrite sendBit_run. cbn [trace pin with_trace app].
    rewrite writes_on_sync. destruct b; reflexivity.
  - apply emitted_send_bits.
  - destruct b; reflexivity.
  - destruct b; reflexivity.
  - destruct b; reflexivity.
  - destruct b; reflexivity.
  - rewrite emitted_send_bits. reflexivity.
Qed.

Lemma truthy_bit (b j : Z) : 0 <= j -> truthy (Z.land (Z.shiftr b j) 0x1) = Z.testbit b j.
Proof. intros Hj. unfold truthy. rewrite mask_bit_test by exact Hj. apply negb_involutive. Qed.

Lemma frame_bits_upto (d : list Z) :
  Z.of_nat (length d) = DATA_LEN -> map (Spec.bit_at d) (upto 96) = Spec.frame_bits d.
Proof. intros Hlen. frame12 d Hlen. reflexivity. Qed.

Section Transmitter.
Context `{AvrIo}.

Lemma sendData_body_run (st : state) (i : Z) :
  0 <= i < 8 * Z.of_nat (length (data st)) ->
  sendData_body i st
  = Ok (tt, with_trace (trace st ++ sync_events (pin st)
                                      (Spec.quad_of (Spec.bit_at (data st) i))) st).
Proof.
  intros Hi. unfold sendData_body, bind, data_get, lift, Spec.bit_at.
  rewrite Z.quot_div_nonneg, Z.rem_mod_nonneg by lia.
  destruct (index_ok (data st) (i / 8)) as [b ->].
  { split; [apply Z.div_pos; lia | apply Z.div_lt_upper_bound; lia]. }
  rewrite truthy_bit by (pose proof (Z.mod_pos_bound i 8); lia).
  apply sendBit_run.
Qed.

Lemma send_loop_run (idxs : list Z) (st : state) :
  (forall i, In i idxs -> 0 <= i < 8 * Z.of_nat (length (data st))) ->
  for_loop idxs sendData_body st
  = Ok (tt, with_trace
              (trace st ++ sync_events (pin st)
                             (flat_map Spec.quad_of (map (Spec.bit_at (data st)) idxs))) st).
Proof.
  revert st. induction idxs as [|i idxs IH]; intros st Hidx; cbn [for_loop map flat_map].
  - cbn [sync_events flat_map]. rewrite app_nil_r, with_trace_id. reflexivity.
  - unfold bind. rewrite sendData_body_run by (apply Hidx; left; reflexivity).
    rewrite IH by (intros j Hj; apply Hidx; right; exact Hj).
    cbn [trace pin data with_trace]. rewrite sync_events_app, app_assoc. reflexivity.
Qed.

Lemma sendData_run (st : state) :
  Z.of_nat (length (data st)) = DATA_LEN ->
  exists st', sendData st = Ok (tt, st') /\ sendData_post st st'.
Proof.
  intros Hlen. unfold sendData.
  assert (C : exists st1, configureTimer st = Ok (tt, st1)
              /\ trace st1 = trace st /\ data st1 = data st /\ pin st1 = pin st
              /\ dataPin st1 = dataPin st /\ powerPin st1 = powerPin st
              /\ old_TCCR0A st1 = regs st TCCR0A /\ old_TCCR0B st1 = regs st TCCR0B
              /\ old_OCR0A st1 = regs st OCR0A /\ old_TIMSK st1 = regs st TIMSK
              /\ forall r, match r with
                           | TCCR0A | TCCR0B | OCR0A | TIMSK => True
                           | _ => regs st1 r = regs st r
                           end).
  { eexists. split; [reflexivity|]. cbn. repeat split. intros []; cbn; trivial. }
  destruct C as (st1 & E & Ht1 & Hd1 & Hp1 & Hdp1 & Hpp1 & Ha & Hb & Hc & Hd & Hr1).
  unfold bind at 1. rewrite E. clear E.
  unfold bind at 1. rewrite send_loop_run.
  2:{ intros i Hi. apply upto_nonneg in Hi. rewrite Hd1, Hlen.
      unfold DATA_LEN in *. cbn in Hi. lia. }
  unfold bind at 1. rewrite writeSyncBit_run. cbn [trace pin with_trace].
  rewrite <- app_assoc, <- sync_events_app.
  change (Z.to_nat (DATA_LEN * 8)) with 96%nat.
  rewrite frame_bits_upto by (rewrite Hd1; exact Hlen).
  fold (Spec.frame_wave (data st1)).
  eexists. split; [reflexivity|].
  unfold sendData_post. cbn. rewrite Ht1, Hd1, Hp1, Hdp1, Hpp1, Ha, Hb, Hc, Hd.
  repeat split. intros r. specialize (Hr1 r). destruct r; cbn; auto.
Qed.
End Transmitter.

Ltac frame_step_by lem :=
  let st := fresh "st" in
  let Hlen := fresh "Hlen" in
  let d := fresh "d" in
  let Hd := fresh "Hd" in
  intros st Hlen; remember (data st) as d eqn:Hd; frame12 d Hlen; symmetry in Hd;
  eexists; split; [apply (lem _ _ _ _ _ _ _ _ _ _ _ _ st Hd) | reflexivity].

Lemma setTemperature_step t : frame_step (setTemperature t).
Proof. frame_step_by setTemperature_run. Qed.

Lemma setHumidity_step h : frame_step (setHumidity h).
Proof. frame_step_by setHumidity_run. Qed.

Lemma setLowBattery_step b : frame_step (setLowBattery b).
Proof. frame_step_by setLowBattery_run. Qed.

Lemma setChecksum_step : frame_step setChecksum.
Proof.
  intros st Hlen. remember (data st) as d eqn:Hd. frame12 d Hlen. symmetry in Hd.
  destruct (setChecksum_run _ _ _ _ _ _ _ _ _ _ _ _ st Hd) as (c & _ & ->).
  eexists; split; reflexivity.
Qed.

Lemma setCRC_step : frame_step setCRC.
Proof.
  intros st Hlen. remember (data st) as d eqn:Hd. frame12 d Hlen. symmetry in Hd.
  destruct (setCRC_run _ _ _ _ _ _ _ _ _ _ _ _ st Hd) as (c & _ & ->).
  eexists; split; reflexivity.
Qed.

(** Sequencing a frame step with the rest of a function. *)
Lemma frame_step_bind {A} (c : M unit) (k : unit -> M A) (st : state) :
  frame_step c -> Z.of_nat (length (data st)) = DATA_LEN ->
  exists d', Z.of_nat (length d') = DATA_LEN
             /\ bind c k st = k tt (with_data d' st).
Proof.
  intros Hc Hlen. destruct (Hc st Hlen) as (d' & E & Hlen').
  exists d'. split; [exact Hlen'|]. unfold bind. rewrite E. reflexivity.
Qed.

Ltac frame_seq c lem Hlen d L :=
  lazymatch goal with
  | |- context [bind c ?k ?s] =>
      let E := fresh "E" in
      destruct (frame_step_bind c k s lem Hlen) as (d & L & E);
      rewrite E; clear E; cbv beta
  end.

Section Transmit.
Context `{AvrIo}.

Lemma transmit_run (st : state) (t h : Float32.float) (b : bool) :
  Z.of_nat (length (data st)) = DATA_LEN ->
  exists d' s2 s4,
    Z.of_nat (length d') = DATA_LEN
    /\ sendData (with_data d' st) = Ok (tt, s2)
    /\ sendData_post (with_data d' st) s2
    /\ sendData (with_trace (trace s2 ++ [EvDelay 55]) s2) = Ok (tt, s4)
    /\ sendData_post (with_trace (trace s2 ++ [EvDelay 55]) s2) s4
    /\ transmit t h b st = Ok (tt, s4).
Proof.
  intros Hlen. unfold transmit.
  frame_seq (setTemperature t) (setTemperature_step t) Hlen d1 L1.
  frame_seq (setHumidity h) (setHumidity_step h) L1 d2 L2.
  frame_seq (setLowBattery b) (setLowBattery_step b) L2 d3 L3.
  frame_seq setChecksum setChecksum_step L3 d4 L4.
  frame_seq setCRC setCRC_step L4 d5 L5.
  change (with_data d5 (with_data d4 (with_data d3 (with_data d2 (with_data d1 st)))))
    with (with_data d5 st) in *.
  destruct (sendData_run (with_data d5 st) L5) as (s2 & E2 & P2).
  assert (L6 : Z.of_nat (length (data (with_trace (trace s2 ++ [EvDelay 55]) s2))) = DATA_LEN).
  { cbn [data with_trace]. destruct P2 as (_ & -> & _). exact L5. }
  destruct (sendData_run _ L6) as (s4 & E4 & P4).
  exists d5, s2, s4. repeat (split; [assumption|]).
  unfold bind at 1. rewrite E2. unfold bind at 1. unfold delay, emit, modify.
  exact E4.
Qed.
End Transmit.

Lemma frame_bits_length (d : list Z) :
  Z.of_nat (length d) = DATA_LEN -> length (Spec.frame_bits d) = 96%nat.
Proof. intros Hlen. frame12 d Hlen. reflexivity. Qed.

Lemma quad_of_cases (b : bool) :
  Spec.quad_of b = if b then [LOW; HIGH; HIGH; LOW] else [HIGH; LOW; LOW; HIGH].
Proof. destruct b; reflexivity. Qed.

Lemma frame_wave_length (d : list Z) :
  Z.of_nat (length d) = DATA_LEN -> length (Spec.frame_wave d) = 385%nat.
Proof.
  intros Hlen. unfold Spec.frame_wave. rewrite length_app.
  rewrite (flat_map_constant_length (c := 4%nat)) by (intros [] _; reflexivity).
  rewrite frame_bits_length by exact Hlen. reflexivity.
Qed.

Section Claims.
Context `{AvrIo}.

(** C9: [sendData] writes the pin four times for each of the 96 frame
    bits (bytes in order, least significant bit first): the pair of the
    inverted bit, then the pair of the bit, i.e. (low, high, high, low)
    for a 1 and (high, low, low, high) for a 0, two HIGH and two LOW
    writes per bit; one more LOW write follows the last bit, so the
    final write of the call is LOW. *)
Theorem sendData_emits_four_writes_per_bit (st : state) :
  Z.of_nat (length (data st)) = DATA_LEN ->
  exists st' new,
    sendData st = Ok (tt, st')
    /\ trace st' = trace st ++ new
    /\ writes_on (pin st) new
       = flat_map (fun b : bool => if b then [LOW; HIGH; HIGH; LOW]
                                   else [HIGH; LOW; LOW; HIGH])
                  (Spec.frame_bits (data st)) ++ [LOW]
    /\ length (Spec.frame_bits (data st)) = 96%nat
    /\ (forall b, Spec.pair_of (negb b) ++ Spec.pair_of b
                  = if b then [LOW; HIGH; HIGH; LOW] else [HIGH; LOW; LOW; HIGH])
    /\ (forall b, count_occ bool_dec (Spec.pair_of (negb b) ++ Spec.pair_of b) HIGH = 2%nat
                  /\ count_occ bool_dec (Spec.pair_of (negb b) ++ Spec.pair_of b) LOW = 2%nat)
    /\ length (writes_on (pin st) new) = (4 * 96 + 1)%nat
    /\ List.last (writes_on (pin st) new) HIGH = LOW.
Proof.
  intros Hlen. destruct (sendData_run st Hlen) as (st' & E & Ht & _).
  exists st', (sync_events (pin st) (Spec.frame_wave (data st))).
  rewrite writes_on_sync.
  split; [exact E|]. split; [exact Ht|]. split.
  { unfold Spec.frame_wave. f_equal. apply flat_map_ext. intros b. apply quad_of_cases. }
  split; [apply frame_bits_length, Hlen|].
  split; [intros []; reflexivity|].
  split; [intros []; split; reflexivity|].
  split; [apply frame_wave_length, Hlen|].
  unfold Spec.frame_wave. apply last_last.
Qed.

(** C6: on a state whose registers hold 8-bit values, [sendData] returns
    with TCCR0A, TCCR0B, OCR0A and TIMSK holding the values they held on
    entry; [transmit] is its field updates followed by two such calls
    around [delay(55)], each call restoring the four registers. *)
Theorem timer_configuration_restored (st : state) (t h : Float32.float) (b : bool) :
  wf_state st ->
  (exists st', sendData st = Ok (tt, st')
     /\ regs st' TCCR0A = regs st TCCR0A /\ regs st' TCCR0B = regs st TCCR0B
     /\ regs st' OCR0A = regs st OCR0A /\ regs st' TIMSK = regs st TIMSK)
  /\ (exists s1 s2 s3 s4,
        transmit t h b st = Ok (tt, s4)
        /\ sendData s1 = Ok (tt, s2) /\ delay 55 s2 = Ok (tt, s3) /\ sendData s3 = Ok (tt, s4)
        /\ (forall r, regs s1 r = regs st r)
        /\ (forall r, In r [TCCR0A; TCCR0B; OCR0A; TIMSK] -> regs s2 r = regs s1 r)
        /\ (forall r, In r [TCCR0A; TCCR0B; OCR0A; TIMSK] -> regs s4 r = regs s3 r)
        /\ (forall r, In r [TCCR0A; TCCR0B; OCR0A; TIMSK] -> regs s4 r = regs st r)).
Proof.
  intros [Hlen Hregs]. split.
  - destruct (sendData_run st Hlen) as (st' & E & _ & _ & _ & _ & _ & Hr).
    exists st'. split; [exact E|].
    rewrite (Hr TCCR0A), (Hr TCCR0B), (Hr OCR0A), (Hr TIMSK).
    rewrite !u8_small by apply Hregs. repeat split.
  - destruct (transmit_run st t h b Hlen) as (d' & s2 & s4 & _ & E2 & P2 & E4 & P4 & ET).
    exists (with_data d' st), s2, (with_trace (trace s2 ++ [EvDelay 55]) s2), s4.
    destruct P2 as (_ & _ & _ & _ & _ & Hr2). destruct P4 as (_ & _ & _ & _ & _ & Hr4).
    cbn [regs with_data with_trace] in Hr2, Hr4.
    assert (R2 : forall r, regs s2 r = regs st r).
    { intros r. rewrite Hr2. destruct r; try reflexivity; apply u8_small, Hregs. }
    assert (R4 : forall r, regs s4 r = regs s2 r).
    { intros r. rewrite Hr4, R2. destruct r; try reflexivity; apply u8_small, Hregs. }
    repeat split; try assumption; try reflexivity.
    + intros r _. apply R2.
    + intros r _. apply R4.
    + intros r _. rewrite R4. apply R2.
Qed.
End Claims.

Lemma writes_on_cons (p : Z) (e : event) (tr : list event) :
  writes_on p (e :: tr) = write_on p e ++ writes_on p tr.
Proof. reflexivity. Qed.

Section Loop.
Context `{AvrIo}.

(** C7: when [irrationalReading t h] holds, the call of [loop] returns
    after the read: the frame is unchanged and the only events are the
    two power-up writes, the watchdog reset, the sleep and the sensor
    read, so nothing is written to the transmitter pin; when it does not
    hold, [transmit t h] is run (on the unchanged frame) and the
    transmitter pin receives the frame twice. *)
Theorem loop_discards_irrational_reading (st : state) (t h : Float32.float) (adcl adch : Z) :
  Z.of_nat (length (data st)) = DATA_LEN ->
  (irrationalReading t h = true ->
     exists st',
       loop (t, h) adcl adch st = Ok (tt, st')
       /\ data st' = data st
       /\ trace st' = trace st ++ [EvDigitalWrite T0_XO_POWER_PIN HIGH;
                                   EvDigitalWrite (powerPin st) HIGH;
                                   EvWdtReset; EvSleepCpu; EvDhtRead]
       /\ (pin st = TX_PIN -> powerPin st = DHT_POWER_PIN ->
           writes_on TX_PIN (trace st') = writes_on TX_PIN (trace st)))
  /\ (irrationalReading t h = false ->
      exists s_pre s_tx st' new,
        data s_pre = data st
        /\ transmit t h
             (Z.quot 1125300 (u16 (Z.lor (Z.shiftl (u8 adch) 8) (Z.shiftl (u8 adcl) 0)))
              <? LOW_BATTERY) s_pre
           = Ok (tt, s_tx)
        /\ loop (t, h) adcl adch st = Ok (tt, st')
        /\ data st' = data s_tx
        /\ trace st' = trace st ++ new
        /\ (pin st = TX_PIN -> powerPin st = DHT_POWER_PIN -> dataPin st = DHT_DATA_PIN ->
            writes_on TX_PIN new
            = Spec.frame_wave (data st') ++ Spec.frame_wave (data st'))).
Proof.
  intros Hlen. split; intros Hirr.
  - unfold loop.
    cbv [bind digitalWrite emit modify powerOn gets set_sleep_mode sleep_enable
         write_reg sleep_cpu sleep_disable read ret].
    rewrite Hirr. eexists. split; [reflexivity|].
    cbn [data trace powerPin with_trace with_sleep_mode with_sleep_enabled with_regs].
    rewrite <- !app_assoc. cbn [app].
    split; [reflexivity|]. split; [reflexivity|].
    intros Hpin Hpp. rewrite Hpp, writes_on_app. cbn. apply app_nil_r.
  - unfold loop.
    cbv [bind digitalWrite emit modify powerOn powerOff pinMode gets set_sleep_mode
         sleep_enable write_reg sleep_cpu sleep_disable read ret getVcc read_reg delay].
    rewrite Hirr.
    cbn [trace pin powerPin dataPin regs with_trace with_sleep_mode with_sleep_enabled
         with_regs].
    match goal with |- context [transmit _ _ _ ?s] => remember s as s_pre eqn:Hpre end.
    assert (F : data s_pre = data st /\ pin s_pre = pin st
                /\ trace s_pre
                   = trace st ++ [EvDigitalWrite T0_XO_POWER_PIN HIGH;
                                  EvDigitalWrite (powerPin st) HIGH;
                                  EvWdtReset; EvSleepCpu; EvDhtRead;
                                  EvDigitalWrite (powerPin st) LOW;
                                  EvPinMode (dataPin st) OUTPUT;
                                  EvDigitalWrite (dataPin st) LOW;
                                  EvDelay 2]).
    { subst s_pre. cbn [data pin trace with_regs with_trace].
      rewrite <- !app_assoc. repeat split. }
    clear Hpre. destruct F as (Fd & Fp & Ft).
    assert (Hlen' : Z.of_nat (length (data s_pre)) = DATA_LEN) by (rewrite Fd; exact Hlen).
    match goal with
    | |- context [transmit t h ?lb s_pre] =>
        destruct (transmit_run s_pre t h lb Hlen')
          as (d' & s2 & s4 & L & E2 & P2 & E4 & P4 & ET)
    end.
    exists s_pre, s4. rewrite ET. clear E2 E4 ET.
    destruct P2 as (T2 & D2 & Pin2 & _). destruct P4 as (T4 & D4 & Pin4 & _).
    cbn [data trace pin with_data with_trace] in T2, D2, Pin2, T4, D4, Pin4.
    rewrite Pin2, D2 in T4. rewrite T2, Ft, Fp in T4.
    eexists. eexists.
    split; [exact Fd|]. split; [reflexivity|]. split; [reflexivity|].
    cbn [data trace with_trace with_sleep_mode with_sleep_enabled with_regs].
    split; [reflexivity|].
    rewrite T4, D4, D2. rewrite <- !app_assoc. cbn [app].
    split; [reflexivity|].
    intros Hpin Hpp Hdp. rewrite Hpin, Hpp, Hdp.
    repeat (rewrite writes_on_cons || rewrite writes_on_app || rewrite writes_on_sync).
    cbn [write_on writes_on flat_map app TX_PIN T0_XO_POWER_PIN DHT_POWER_PIN DHT_DATA_PIN
         Z.eqb].
    rewrite app_nil_r. reflexivity.
Qed.
End Loop.

(** ** End to end *)

(** C1 fails as stated: with channel 1 the finalized frame is not the
    documented reference frame (whose channel nibble is 0x2). *)
Lemma reference_frame_needs_channel_2 :
  frame_after (bind (begin 1 0xbb)
                    (fun _ => transmit (H := attiny85) (Float32.decimal 227 1)
                                       (Float32.decimal 300 1) true))
              (boot_state (fun _ => 0))
  = Ok [0xff; 0xff; 0x1a; 0x2d; 0x10; 0xbb; 0x7c; 0x22; 0x00; 0x83; 0x49; 0xf3]
  /\ frame_after (bind (begin 1 0xbb)
                       (fun _ => transmit (H := attiny85) (Float32.decimal 227 1)
                                          (Float32.decimal 300 1) true))
                 (boot_state (fun _ => 0))
     <> Ok [0xff; 0xff; 0x1a; 0x2d; 0x20; 0xbb; 0x7c; 0x22; 0x00; 0x83; 0x4a; 0x55].
Proof. split; vm_compute; [reflexivity | discriminate]. Qed.

Section EndToEnd.
Context `{AvrIo}.

(** C1 (amended): [begin(1, 0xbb)] followed by [transmit(22.7, 30.0,
    true)] leaves the frame ff ff 1a 2d 10 bb 7c 22 00 83 49 f3; the
    documented reference frame ff ff 1a 2d 20 bb 7c 22 00 83 4a 55 is
    the one produced for channel 2 with the same other inputs, and its
    checksum and CRC are 0x4a and 0x55. *)
Theorem end_to_end_frame (st : state) :
  data st = initial_data ->
  frame_after (bind (begin 1 0xbb)
                    (fun _ => transmit (Float32.decimal 227 1) (Float32.decimal 300 1) true))
              st
  = Ok [0xff; 0xff; 0x1a; 0x2d; 0x10; 0xbb; 0x7c; 0x22; 0x00; 0x83; 0x49; 0xf3]
  /\ frame_after (bind (begin 2 0xbb)
                       (fun _ => transmit (Float32.decimal 227 1) (Float32.decimal 300 1) true))
                 st
     = Ok Spec.reference_frame
  /\ checksumSimple Spec.reference_frame SUM_MASK = Ok 0x4a
  /\ checksumCRC Spec.reference_frame CRC_MASK CRC_IV = Ok 0x55.
Proof.
  intros Hd. destruct st as [rs i sm se tr p a b c d dat dp pp]. cbn [data] in Hd. subst dat.
  repeat split; vm_compute; reflexivity.
Qed.
End EndToEnd.

Lemma end_to_end_frame_witness :
  data (boot_state (fun _ => 0)) = initial_data
  /\ frame_after (bind (begin 2 0xbb)
                       (fun _ => transmit (H := attiny85) (Float32.decimal 227 1)
                                          (Float32.decimal 300 1) true))
                 (boot_state (fun _ => 0))
     = Ok Spec.reference_frame.
Proof.
  split; [reflexivity|].
  exact (proj1 (proj2 (@end_to_end_frame attiny85 (boot_state (fun _ => 0)) eq_refl))).
Defined.

Lemma temperature_humidity_roundtrip_witness :
  rbind (frame_after (bind (setTemperature (Float32.decimal (-199) 1))
                           (fun _ => setHumidity (Float32.of_int 99)))
                     (boot_state (fun _ => 0)))
        Spec.decode
  = Ok (Spec.digits_of (-199) 99).
Proof.
  apply (temperature_humidity_roundtrip (boot_state (fun _ => 0)) (-199) 99);
    [reflexivity | lia | lia].
Defined.

Lemma setChannel_one_hot_witness :
  exists b4 b4',
    index (data (boot_state (fun _ => 0))) 4 = Ok b4
    /\ setChannel 3 (boot_state (fun _ => 0))
       = Ok (tt, with_data (<[4%nat := b4']> (data (boot_state (fun _ => 0))))
                           (boot_state (fun _ => 0)))
    /\ Z.land b4' 0xf0 = 0x40
    /\ Z.land b4' 0x0f = Z.land b4 0x0f.
Proof.
  apply (setChannel_one_hot (boot_state (fun _ => 0)) 3); [reflexivity | lia].
Defined.

Lemma sendData_emits_four_writes_per_bit_witness :
  exists st' new,
    sendData (H := attiny85) (boot_state (fun _ => 0)) = Ok (tt, st')
    /\ trace st' = new
    /\ length (writes_on TX_PIN new) = 385%nat
    /\ List.last (writes_on TX_PIN new) HIGH = LOW.
Proof.
  destruct (@sendData_emits_four_writes_per_bit attiny85 (boot_state (fun _ => 0)) eq_refl)
    as (st' & new & E & T & _ & _ & _ & _ & L & Z).
  exists st', new. repeat split; assumption.
Defined.

Lemma timer_configuration_restored_witness :
  exists st',
    sendData (H := attiny85) (boot_state (fun _ => 0)) = Ok (tt, st')
    /\ regs st' TCCR0A = 0 /\ regs st' TCCR0B = 0
    /\ regs st' OCR0A = 0 /\ regs st' TIMSK = 0.
Proof.
  exact (proj1 (@timer_configuration_restored attiny85 (boot_state (fun _ => 0))
                  (Float32.decimal 227 1) (Float32.decimal 300 1) true
                ltac:(split; [reflexivity | intros r; cbn; lia]))).
Defined.

Lemma loop_discards_irrational_reading_witness :
  (exists st',
     loop (H := attiny85) (Float32.decimal 500 1, Float32.decimal 0 1) 0x6b 0x01
          (boot_state (fun _ => 0)) = Ok (tt, st')
     /\ data st' = initial_data
     /\ trace st' = [EvDigitalWrite T0_XO_POWER_PIN HIGH; EvDigitalWrite DHT_POWER_PIN HIGH;
                     EvWdtReset; EvSleepCpu; EvDhtRead]
     /\ writes_on TX_PIN (trace st') = [])
  /\ (exists st',
        loop (H := attiny85) (Float32.decimal 227 1, Float32.decimal 300 1) 0x6b 0x01
             (boot_state (fun _ => 0)) = Ok (tt, st')
        /\ writes_on TX_PIN (trace st')
           = Spec.frame_wave (data st') ++ Spec.frame_wave (data st')).
Proof.
  split.
  - destruct (proj1 (@loop_discards_irrational_reading attiny85 (boot_state (fun _ => 0))
                       (Float32.decimal 500 1) (Float32.decimal 0 1) 0x6b 0x01 eq_refl)
                eq_refl) as (st' & E & D & T & W).
    exists st'. repeat split; try assumption. exact (W eq_refl eq_refl).
  - destruct (proj2 (@loop_discards_irrational_reading attiny85 (boot_state (fun _ => 0))
                       (Float32.decimal 227 1) (Float32.decimal 300 1) 0x6b 0x01 eq_refl)
                eq_refl) as (s_pre & s_tx & st' & new & _ & _ & E & _ & T & W).
    exists st'. split; [exact E|]. rewrite T. exact (W eq_refl eq_refl eq_refl).
Defined.

(** * Further properties *)

(** ** The checksum engine *)

Lemma for_each_ext {S : Type} (idxs : list Z) (f g : Z -> S -> result S) (s : S) :
  (forall i s, In i idxs -> f i s = g i s) -> for_each idxs f s = for_each idxs g s.
Proof.
  revert s. induction idxs as [|i idxs IH]; intros s Hfg; [reflexivity|].
  cbn [for_each]. rewrite Hfg by (left; reflexivity).
  destruct (g i s) as [s'|j]; cbn [rbind]; [|reflexivity].
  apply IH. intros j s2 Hj. apply Hfg. right. exact Hj.
Qed.

Lemma nibble_at_inv (d : list Z) (i n : Z) :
  0 <= i -> Spec.nibble_at d i = Ok n ->
  exists b, index d (Z.quot i 2) = Ok b /\ Z.land (Z.shiftr b (Z.rem i 2 * 4)) 0xf = n.
Proof.
  intros Hi. unfold Spec.nibble_at. rewrite index_quot by exact Hi.
  destruct (index d (i / 2)) as [b|j]; cbn [rbind]; [|discriminate].
  intros [= <-]. exists b. split; [reflexivity|]. apply nibble_extract, Hi.
Qed.

Lemma nibble_at_out (d : list Z) (i j : Z) :
  0 <= i -> Spec.nibble_at d i = OutOfBounds j -> index d (Z.quot i 2) = OutOfBounds j.
Proof.
  intros Hi. unfold Spec.nibble_at. rewrite index_quot by exact Hi.
  destruct (index d (i / 2)) as [b|j']; cbn [rbind]; [discriminate|]. intros [= <-]. reflexivity.
Qed.

Section Locality.
Variables d d' : list Z.
Variable mask : Z.
Hypothesis Hsame : forall i, 0 <= i < 64 -> Z.testbit mask i = true ->
                             Spec.nibble_at d i = Spec.nibble_at d' i.

Lemma selected_read_same (i : Z) :
  0 <= i < 64 -> (Z.land (Z.shiftr mask i) 0x1 =? 0) = false ->
  (exists b b', index d (Z.quot i 2) = Ok b /\ index d' (Z.quot i 2) = Ok b'
                /\ Z.land (Z.shiftr b (Z.rem i 2 * 4)) 0xf
                   = Z.land (Z.shiftr b' (Z.rem i 2 * 4)) 0xf)
  \/ (exists j, index d (Z.quot i 2) = OutOfBounds j /\ index d' (Z.quot i 2) = OutOfBounds j).
Proof.
  intros Hi Hbit. rewrite mask_bit_test in Hbit by lia. apply negb_false_iff in Hbit.
  specialize (Hsame i Hi Hbit).
  destruct (Spec.nibble_at d i) as [n|j] eqn:E.
  - left. symmetry in Hsame.
    apply nibble_at_inv in E as (b & Eb & En); [|lia].
    apply nibble_at_inv in Hsame as (b' & Eb' & En'); [|lia].
    exists b, b'. split; [exact Eb|]. split; [exact Eb'|]. rewrite En, En'. reflexivity.
  - right. symmetry in Hsame. exists j. split; apply nibble_at_out; (lia || assumption).
Qed.

Lemma checksumSimple_local : checksumSimple d mask = checksumSimple d' mask.
Proof.
  unfold checksumSimple.
  rewrite (for_each_ext (upto 64) (checksumSimple_body d mask) (checksumSimple_body d' mask));
    [reflexivity|].
  intros i s Hi. apply upto_nonneg in Hi. unfold checksumSimple_body.
  destruct (Z.land (Z.shiftr mask i) 1 =? 0) eqn:Hbit; [reflexivity|].
  destruct (selected_read_same i ltac:(lia) Hbit)
    as [(b & b' & -> & -> & E) | (j & -> & ->)]; cbn [rbind]; [|reflexivity].
  cbv zeta. rewrite E. reflexivity.
Qed.

Lemma checksumCRC_local (iv : Z) : checksumCRC d mask iv = checksumCRC d' mask iv.
Proof.
  unfold checksumCRC.
  rewrite (for_each_ext (upto 64) (checksumCRC_body d mask) (checksumCRC_body d' mask));
    [reflexivity|].
  intros i s Hi. apply upto_nonneg in Hi. unfold checksumCRC_body.
  destruct (Z.land (Z.shiftr mask i) 1 =? 0) eqn:Hbit; [reflexivity|].
  destruct (selected_read_same i ltac:(lia) Hbit)
    as [(b & b' & -> & -> & E) | (j & -> & ->)]; cbn [rbind]; [|reflexivity].
  cbv zeta. rewrite E. reflexivity.
Qed.
End Locality.

(** X1: the two digests depend on the buffer only through the nibbles the
    mask selects: two buffers whose selected nibbles agree (or fail alike)
    have the same [checksumSimple] and the same [checksumCRC]. *)
Theorem digests_depend_on_selected_nibbles_only (d d' : list Z) (mask iv : Z) :
  (forall i, 0 <= i < 64 -> Z.testbit mask i = true ->
             Spec.nibble_at d i = Spec.nibble_at d' i) ->
  checksumSimple d mask = checksumSimple d' mask
  /\ checksumCRC d mask iv = checksumCRC d' mask iv.
Proof.
  intros Hsame. split.
  - apply checksumSimple_local, Hsame.
  - apply checksumCRC_local, Hsame.
Qed.

Lemma index_insert_other (d : list Z) (i : nat) (x j : Z) :
  0 <= j -> Z.to_nat j <> i -> index (<[i := x]> d) j = index d j.
Proof.
  intros Hj Hne. unfold index. destruct (Z.ltb_spec j 0); [reflexivity|].
  rewrite list_lookup_insert_ne by congruence. reflexivity.
Qed.

Lemma nibble_at_insert_other (d : list Z) (i : nat) (x p : Z) :
  0 <= p -> Z.to_nat (p / 2) <> i ->
  Spec.nibble_at (<[i := x]> d) p = Spec.nibble_at d p.
Proof.
  intros Hp Hne. unfold Spec.nibble_at.
  rewrite index_insert_other by (try apply Z.div_pos; lia || assumption). reflexivity.
Qed.

(** The bytes the two masks in use select: 2 to 9 for [SUM_MASK], and
    the same without byte 5 for [CRC_MASK]. *)
Lemma used_masks_bytes (p : Z) :
  0 <= p < 64 ->
  (Z.testbit SUM_MASK p = true -> 2 <= p / 2 <= 9)
  /\ (Z.testbit CRC_MASK p = true -> 2 <= p / 2 <= 9 /\ p / 2 <> 5).
Proof.
  intros Hp.
  pose proof (upto_forallb
    (fun p => implb (Z.testbit SUM_MASK p) ((2 <=? p / 2) && (p / 2 <=? 9))
              && implb (Z.testbit CRC_MASK p)
                       ((2 <=? p / 2) && (p / 2 <=? 9) && negb (p / 2 =? 5))) 64
    ltac:(vm_compute; reflexivity) p Hp) as F.
  cbv beta in F. apply andb_true_iff in F as [F1 F2].
  split; intros E; rewrite E in *; cbn [implb] in *.
  - lia.
  - apply andb_true_iff in F2 as [F2 F3]. apply negb_true_iff, Z.eqb_neq in F3. lia.
Qed.

(** X2: with the masks in use, overwriting byte 0, 1, 10 or 11 of the
    buffer (preamble, checksum, CRC) changes neither digest, and
    overwriting byte 5 (the rolling ID) does not change the CRC. *)
Theorem digests_ignore_framing_and_rolling_id (d : list Z) (i : nat) (x iv : Z) :
  (i < 2 \/ 10 <= i)%nat ->
  checksumSimple (<[i := x]> d) SUM_MASK = checksumSimple d SUM_MASK
  /\ checksumCRC (<[i := x]> d) CRC_MASK iv = checksumCRC d CRC_MASK iv
  /\ checksumCRC (<[5%nat := x]> d) CRC_MASK iv = checksumCRC d CRC_MASK iv.
Proof.
  intros Hi. repeat split.
  - apply checksumSimple_local. intros p Hp E.
    destruct (used_masks_bytes p Hp) as [B _]. specialize (B E).
    apply nibble_at_insert_other; lia.
  - apply checksumCRC_local. intros p Hp E.
    destruct (used_masks_bytes p Hp) as [_ B]. specialize (B E).
    apply nibble_at_insert_other; lia.
  - apply checksumCRC_local. intros p Hp E.
    destruct (used_masks_bytes p Hp) as [_ B]. specialize (B E).
    apply nibble_at_insert_other; lia.
Qed.

Lemma digests_ignore_framing_and_rolling_id_witness :
  checksumSimple (<[10%nat := 0x77]> Spec.reference_frame) SUM_MASK
  = checksumSimple Spec.reference_frame SUM_MASK
  /\ checksumCRC (<[10%nat := 0x77]> Spec.reference_frame) CRC_MASK CRC_IV
     = checksumCRC Spec.reference_frame CRC_MASK CRC_IV
  /\ checksumCRC (<[5%nat := 0x77]> Spec.reference_frame) CRC_MASK CRC_IV
     = checksumCRC Spec.reference_frame CRC_MASK CRC_IV.
Proof.
  apply (digests_ignore_framing_and_rolling_id Spec.reference_frame 10 0x77 CRC_IV).
  right. lia.
Defined.

Lemma add_fold_cases (s n : Z) :
  0 <= s < 256 -> 0 <= n < 16 ->
  Spec.add_fold s n = if s + n <? 256 then s + n else s + n - 255.
Proof.
  intros Hs Hn. unfold Spec.add_fold. cbv zeta.
  destruct (Z.ltb_spec (s + n) 256) as [Hlt|Hge].
  - rewrite (proj2 (Z.testbit_false (s + n) 8 ltac:(lia))).
    + cbn [Z.b2z]. rewrite Z.add_0_r. apply Z.mod_small. lia.
    + change (2 ^ 8) with 256. rewrite Z.div_small by lia. reflexivity.
  - rewrite (proj2 (Z.testbit_true (s + n) 8 ltac:(lia))).
    + cbn [Z.b2z]. replace (s + n + 1) with (s + n - 255 + 1 * 256) by lia.
      rewrite Z.mod_add by lia. apply Z.mod_small. lia.
    + change (2 ^ 8) with 256. replace (s + n) with (s + n - 256 + 1 * 256) by lia.
      rewrite Z.div_add by lia. rewrite Z.div_small by lia. reflexivity.
Qed.

Lemma nibble_at_range (d : list Z) (p n : Z) : Spec.nibble_at d p = Ok n -> 0 <= n < 16.
Proof.
  unfold Spec.nibble_at. destruct (index d (p / 2)) as [b|j]; cbn [rbind]; [|discriminate].
  intros [= <-]. apply Z.mod_pos_bound. lia.
Qed.

Lemma sum_nibbles_total (d : list Z) (ps : list Z) (s r : Z) :
  0 <= s < 256 ->
  Spec.sum_nibbles d ps s = Ok r ->
  exists ns, nibbles_at d ps = Ok ns
    /\ Forall (fun n => 0 <= n < 16) ns
    /\ length ns = length ps
    /\ 0 <= r < 256
    /\ r mod 255 = (s + Zsum ns) mod 255
    /\ (s + Zsum ns < 256 -> r = s + Zsum ns).
Proof.
  revert s. induction ps as [|p ps IH]; intros s Hs; cbn [Spec.sum_nibbles nibbles_at].
  - intros [= <-]. exists []. cbn [Zsum fold_right]. rewrite Z.add_0_r.
    repeat split; try constructor; lia.
  - destruct (Spec.nibble_at d p) as [n|j] eqn:En; cbn [rbind]; [|discriminate].
    pose proof (nibble_at_range d p n En) as Hn.
    intros Hr. apply IH in Hr; [|apply add_fold_range].
    destruct Hr as (ns & -> & Hns & Hlen & Hr & Hmod & Hsmall). cbn [rbind].
    exists (n :: ns). cbn [Zsum fold_right length]. fold (Zsum ns).
    assert (Hpos : 0 <= Zsum ns).
    { clear -Hns. induction Hns; cbn [Zsum fold_right]; [lia|]. fold (Zsum l). lia. }
    rewrite add_fold_cases in Hmod, Hsmall by assumption.
    repeat split; try assumption; try (constructor; assumption); try lia.
    + rewrite Hmod. destruct (Z.ltb_spec (s + n) 256).
      * f_equal. lia.
      * replace (s + n - 255 + Zsum ns) with (s + (n + Zsum ns) + (-1) * 255) by lia.
        apply Z.mod_add. lia.
    + intros Hlt. destruct (Z.ltb_spec (s + n) 256); lia.
Qed.

(** X3: whenever [checksumSimple] returns, its result is an 8-bit value
    congruent modulo 255 to the sum of the selected nibbles, and equal to
    that sum when the sum is below 256. *)
Theorem checksumSimple_is_sum_modulo_255 (d : list Z) (mask r : Z) :
  checksumSimple d mask = Ok r ->
  exists ns, nibbles_at d (Spec.selected mask) = Ok ns
    /\ 0 <= r < 256
    /\ r mod 255 = Zsum ns mod 255
    /\ (Zsum ns < 256 -> r = Zsum ns).
Proof.
  unfold checksumSimple. unfold Spec.selected.
  rewrite (sum_loop_refines d mask (upto 64) 0)
    by (intros i Hi; apply upto_nonneg in Hi; lia).
  destruct (Spec.sum_nibbles d _ 0) as [s|j] eqn:E; cbn [rbind]; [|discriminate].
  apply sum_nibbles_total in E as (ns & E & _ & _ & Hs & Hmod & Hsmall); [|lia].
  rewrite u8_small by exact Hs. intros [= <-]. exists ns. repeat split; (assumption || lia).
Qed.

Lemma checksumSimple_is_sum_modulo_255_witness :
  exists ns, nibbles_at Spec.reference_frame (Spec.selected SUM_MASK) = Ok ns
    /\ 0 <= 0x4a < 256
    /\ 0x4a mod 255 = Zsum ns mod 255
    /\ (Zsum ns < 256 -> 0x4a = Zsum ns).
Proof.
  apply (checksumSimple_is_sum_modulo_255 Spec.reference_frame SUM_MASK 0x4a). reflexivity.
Defined.

(** X4: on a 12-byte frame [checksumSimple] with [SUM_MASK] is the plain
    sum of the 15 nibbles at positions 5 to 19, which is at most 225: the
    overflow folding never triggers for the mask in use. *)
Theorem checksum_in_use_is_plain_sum (d : list Z) :
  Z.of_nat (length d) = DATA_LEN ->
  exists ns, nibbles_at d [5; 6; 7; 8; 9; 10; 11; 12; 13; 14; 15; 16; 17; 18; 19] = Ok ns
    /\ checksumSimple d SUM_MASK = Ok (Zsum ns)
    /\ 0 <= Zsum ns <= 225.
Proof.
  intros Hlen.
  destruct (checksumSimple_in_bounds d SUM_MASK Hlen) as [r Hr].
  { apply mask_bits_bounded. unfold SUM_MASK. lia. }
  pose proof Hr as Hr'. unfold checksumSimple in Hr'.
  rewrite (sum_loop_refines d SUM_MASK (upto 64) 0) in Hr'
    by (intros i Hi; apply upto_nonneg in Hi; lia).
  change (List.filter (fun i => Z.testbit SUM_MASK i) (upto 64))
    with [5; 6; 7; 8; 9; 10; 11; 12; 13; 14; 15; 16; 17; 18; 19] in Hr'.
  destruct (Spec.sum_nibbles d _ 0) as [s|j] eqn:E; cbn [rbind] in Hr'; [|discriminate].
  apply sum_nibbles_total in E as (ns & E & Hns & Hlen' & Hs & _ & Hsmall); [|lia].
  exists ns. split; [exact E|].
  assert (B : 0 <= Zsum ns <= 15 * Z.of_nat (length ns)).
  { clear -Hns. induction Hns; cbn [Zsum fold_right length]; [lia|]. fold (Zsum l). lia. }
  rewrite Hlen' in B. cbn [length] in B.
  rewrite u8_small in Hr' by exact Hs. injection Hr' as <-.
  rewrite Hr. split; [f_equal; apply Hsmall; lia | lia].
Qed.

Lemma checksum_in_use_is_plain_sum_witness :
  exists ns, nibbles_at Spec.reference_frame
               [5; 6; 7; 8; 9; 10; 11; 12; 13; 14; 15; 16; 17; 18; 19] = Ok ns
    /\ checksumSimple Spec.reference_frame SUM_MASK = Ok (Zsum ns)
    /\ 0 <= Zsum ns <= 225.
Proof. apply (checksum_in_use_is_plain_sum Spec.reference_frame). reflexivity. Defined.

(** ** The frame encoder: how the setters compose *)

Lemma testbit_field (b keep v n : Z) :
  0 <= n ->
  Z.testbit (field b keep v) n
  = (n <? 8) && ((n <? 8) && (Z.testbit b n && Z.testbit keep n) || Z.testbit v n).
Proof.
  intros Hn. unfold field, u8.
  rewrite Z.testbit_mod_pow2, Z.lor_spec, Z.testbit_mod_pow2, Z.land_spec by lia.
  reflexivity.
Qed.

Lemma land_sub_bits (v k : Z) (n : Z) :
  Z.land v k = v -> Z.testbit v n = Z.testbit v n && Z.testbit k n.
Proof. intros E. rewrite <- E at 1. apply Z.land_spec. Qed.

(** Two read-modify-write updates of one byte commute when each keeps
    the bits the other writes. *)
Lemma field_comm (b k1 v1 k2 v2 : Z) :
  Z.land v1 k2 = v1 -> Z.land v2 k1 = v2 ->
  field (field b k1 v1) k2 v2 = field (field b k2 v2) k1 v1.
Proof.
  intros H1 H2. apply Z.bits_inj'. intros n Hn.
  rewrite !testbit_field by exact Hn.
  rewrite (land_sub_bits v1 k2 n H1), (land_sub_bits v2 k1 n H2).
  destruct (n <? 8), (Z.testbit b n), (Z.testbit k1 n), (Z.testbit k2 n),
    (Z.testbit v1 n), (Z.testbit v2 n); reflexivity.
Qed.

Lemma land_land_sub (x m k : Z) : Z.land m k = m -> Z.land (Z.land x m) k = Z.land x m.
Proof. intros E. rewrite <- Z.land_assoc, E. reflexivity. Qed.

(** Run a setter on a state whose frame is an explicit 12-byte list. *)
Ltac run_setter c lem :=
  match goal with
  | |- context [c ?s] =>
      let R := fresh "R" in
      pose proof (lem _ _ _ _ _ _ _ _ _ _ _ _ s eq_refl) as R;
      cbv zeta in R; rewrite R; clear R
  end.

(** X5: on a 12-byte frame the three measurement setters of [transmit]
    write disjoint bit fields, so any two of them give the same final
    state (or the same failure) in either order: [setTemperature] and
    [setHumidity] although both write byte 8, [setTemperature] and
    [setLowBattery] although both write byte 6. *)
Theorem measurement_setters_commute (st : state) (t h : Float32.float) (b : bool) :
  Z.of_nat (length (data st)) = DATA_LEN ->
  bind (setTemperature t) (fun _ => setHumidity h) st
  = bind (setHumidity h) (fun _ => setTemperature t) st
  /\ bind (setTemperature t) (fun _ => setLowBattery b) st
     = bind (setLowBattery b) (fun _ => setTemperature t) st
  /\ bind (setHumidity h) (fun _ => setLowBattery b) st
     = bind (setLowBattery b) (fun _ => setHumidity h) st.
Proof.
  intros Hlen. remember (data st) as d eqn:Hd. frame12 d Hlen. symmetry in Hd.
  pose proof (setTemperature_run _ _ _ _ _ _ _ _ _ _ _ _ st Hd t) as T.
  pose proof (setHumidity_run _ _ _ _ _ _ _ _ _ _ _ _ st Hd h) as U.
  pose proof (setLowBattery_run _ _ _ _ _ _ _ _ _ _ _ _ st Hd b) as V.
  cbv zeta in T, U. unfold bind. rewrite T, U, V.
  split; [|split].
  - run_setter (setHumidity h) (fun a b c d e f g i j k l m s H =>
                                   setHumidity_run a b c d e f g i j k l m s H h).
    run_setter (setTemperature t) (fun a b c d e f g i j k l m s H =>
                                      setTemperature_run a b c d e f g i j k l m s H t).
    cbn [with_data data].
    match goal with
    | |- context [field (field (field ?x 252 ?v1) 243 ?v2) 15 ?v3] =>
        rewrite (field_comm (field x 252 v1) 243 v2 15 v3)
          by (apply land_land_sub; reflexivity);
        rewrite (field_comm x 252 v1 15 v3) by (apply land_land_sub; reflexivity)
    end.
    reflexivity.
  - run_setter (setLowBattery b) (fun a b' c d e f g i j k l m s H =>
                                     setLowBattery_run a b' c d e f g i j k l m s H b).
    run_setter (setTemperature t) (fun a b c d e f g i j k l m s H =>
                                      setTemperature_run a b c d e f g i j k l m s H t).
    cbn [with_data data].
    match goal with
    | |- context [field (field ?x 15 ?v1) 248 ?v2] =>
        rewrite (field_comm x 15 v1 248 v2)
          by (first [apply land_land_sub; reflexivity | destruct b; reflexivity])
    end.
    reflexivity.
  - run_setter (setLowBattery b) (fun a b' c d e f g i j k l m s H =>
                                     setLowBattery_run a b' c d e f g i j k l m s H b).
    run_setter (setHumidity h) (fun a b c d e f g i j k l m s H =>
                                   setHumidity_run a b c d e f g i j k l m s H h).
    reflexivity.
Qed.

Lemma field_u8 (b keep v : Z) : 0 <= keep < 256 -> field b keep v = field (u8 b) keep v.
Proof. intros Hk. unfold field. rewrite (land_u8 b keep) by exact Hk. reflexivity. Qed.

(** X6: [setLowBattery] rewrites only byte 6 of a 12-byte frame: bit 2
    becomes the flag, bits 0 and 1 are always cleared, and bits 3 to 7
    (the constant bit 3 and the tenths digit) are kept. *)
Theorem setLowBattery_writes_bit_2_only (st : state) (b : bool) :
  Z.of_nat (length (data st)) = DATA_LEN ->
  exists b6 b6',
    index (data st) 6 = Ok b6
    /\ setLowBattery b st = Ok (tt, with_data (<[6%nat := b6']> (data st)) st)
    /\ Z.testbit b6' 2 = b
    /\ Z.land b6' 0x03 = 0
    /\ Z.land b6' 0xf8 = Z.land b6 0xf8.
Proof.
  intros Hlen.
  destruct (index_ok (data st) 6) as [b6 Hb6]; [rewrite Hlen; unfold DATA_LEN; lia|].
  exists b6. eexists. split; [exact Hb6|]. split.
  { unfold setLowBattery. rewrite (field_write_last st 6 _ _ b6 Hb6). reflexivity. }
  rewrite (field_u8 b6) by lia. rewrite (land_u8 b6 0xf8) by lia.
  pose proof (upto_forallb (fun y =>
    forallb (fun b : bool =>
      let b' := field y 0xf8 (if b then 0x4 else 0x0) in
      Bool.eqb (Z.testbit b' 2) b && (Z.land b' 0x03 =? 0)
      && (Z.land b' 0xf8 =? Z.land y 0xf8)) [true; false]) 256
    ltac:(vm_compute; reflexivity) (u8 b6) (u8_range b6)) as F.
  cbv beta in F. rewrite forallb_forall in F.
  specialize (F b ltac:(destruct b; cbn; tauto)). cbv zeta in F.
  rewrite !andb_true_iff, !Z.eqb_eq in F. destruct F as [[F1 F2] F3].
  apply eqb_prop in F1. tauto.
Qed.

Lemma setLowBattery_writes_bit_2_only_witness :
  exists b6 b6',
    index initial_data 6 = Ok b6
    /\ setLowBattery true (boot_state (fun _ => 0))
       = Ok (tt, with_data (<[6%nat := b6']> initial_data) (boot_state (fun _ => 0)))
    /\ Z.testbit b6' 2 = true
    /\ Z.land b6' 0x03 = 0
    /\ Z.land b6' 0xf8 = Z.land b6 0xf8.
Proof. apply (setLowBattery_writes_bit_2_only (boot_state (fun _ => 0)) true). reflexivity. Defined.

Lemma forall_from_spec (P : Z -> bool) (n : nat) (lo : Z) :
  forall_from P lo n = true -> forall i, lo <= i < lo + Z.of_nat n -> P i = true.
Proof.
  revert lo. induction n as [|n IH]; intros lo F i Hi; [lia|].
  cbn [forall_from] in F. apply andb_true_iff in F as [F0 F].
  destruct (Z.eq_dec i lo) as [->|Hne]; [exact F0|].
  apply (IH (lo + 1) F). lia.
Qed.

(** [(int)(t * (t_sign ? -10 : 10))] is [|k|] for the binary32 value
    nearest to [k/10], for every [k] from -9999 to 9999. *)
Lemma scaled_magnitude_wide (k : Z) :
  -9999 <= k <= 9999 ->
  let t := Float32.decimal k 1 in
  let t_sign := u8 (Z.b2z (Float32.ltb t (Float32.of_int 0))) in
  t_sign = Z.b2z (k <? 0) /\ scaled_magnitude t t_sign = Z.abs k.
Proof.
  intros Hk.
  pose proof (forall_from_spec (fun k =>
    let t := Float32.decimal k 1 in
    let t_sign := u8 (Z.b2z (Float32.ltb t (Float32.of_int 0))) in
    (t_sign =? Z.b2z (k <? 0)) && (scaled_magnitude t t_sign =? Z.abs k))
    (Z.to_nat 19999) (-9999) ltac:(vm_compute; reflexivity) k ltac:(lia)) as F.
  cbv beta zeta in F. rewrite andb_true_iff, !Z.eqb_eq in F. exact F.
Qed.

Lemma digit_of_magnitude (m d : Z) :
  0 <= m -> 0 < d -> u8 (Z.rem (Z.quot m d) 10) = (m / d) mod 10.
Proof.
  intros Hm Hd. rewrite Z.quot_div_nonneg by lia.
  rewrite Z.rem_mod_nonneg by (try apply Z.div_pos; lia).
  apply u8_small. pose proof (Z.mod_pos_bound (m / d) 10). lia.
Qed.

(** The digits [setTemperature] extracts for every [k] from -9999 to
    9999, hundreds included. *)
Lemma temperature_digits_wide (k : Z) :
  -9999 <= k <= 9999 ->
  let t := Float32.decimal k 1 in
  let t_sign := u8 (Z.b2z (Float32.ltb t (Float32.of_int 0))) in
  t_sign = Z.b2z (k <? 0)
  /\ u8 (Z.rem (Z.quot (scaled_magnitude t t_sign) 1) 10) = Z.abs k mod 10
  /\ u8 (Z.rem (Z.quot (scaled_magnitude t t_sign) 10) 10) = (Z.abs k / 10) mod 10
  /\ u8 (Z.rem (Z.quot (scaled_magnitude t t_sign) 100) 10) = (Z.abs k / 100) mod 10
  /\ u8 (Z.rem (Z.quot (scaled_magnitude t t_sign) 1000) 10) = (Z.abs k / 1000) mod 10.
Proof.
  intros Hk. destruct (scaled_magnitude_wide k Hk) as [Es Em]. cbv zeta in Es, Em |- *.
  rewrite Em. split; [exact Es|].
  rewrite !digit_of_magnitude by lia. rewrite Z.div_1_r. repeat split.
Qed.

(** The digits [setHumidity] extracts from the binary32 value nearest to
    [k/10], for every [k] from 0 to 1999: those of [k/10] rounded half up. *)
Lemma humidity_digits_rounded (k : Z) :
  0 <= k <= 1999 ->
  let hf := Float32.add (Float32.decimal k 1) (Float32.decimal 5 1) in
  u8 (Z.rem (Z.quot (Float32.to_int (Float32.mul hf (Float32.of_int 10))) 10) 10)
  = ((k + 5) / 10) mod 10
  /\ u8 (Z.rem (Z.quot (Float32.to_int (Float32.mul hf (Float32.of_int 10))) 100) 10)
     = ((k + 5) / 100) mod 10.
Proof.
  intros Hk.
  pose proof (upto_forallb (fun k =>
    let hf := Float32.add (Float32.decimal k 1) (Float32.decimal 5 1) in
    (u8 (Z.rem (Z.quot (Float32.to_int (Float32.mul hf (Float32.of_int 10))) 10) 10)
     =? ((k + 5) / 10) mod 10)
    && (u8 (Z.rem (Z.quot (Float32.to_int (Float32.mul hf (Float32.of_int 10))) 100) 10)
        =? ((k + 5) / 100) mod 10)) 2000
    ltac:(vm_compute; reflexivity) k ltac:(lia)) as F.
  cbv beta zeta in F. rewrite !andb_true_iff, !Z.eqb_eq in F. cbv zeta. tauto.
Qed.

(** The two writes of [setTemperature] into byte 8: bits 0-1 take the
    hundreds digit modulo 4, bit 3 the sign, bit 2 is cleared. *)
Lemma field_hundreds_sign (b huns sign : Z) :
  0 <= huns < 10 -> 0 <= sign < 2 ->
  let b' := field (field b 0xfc (Z.land (Z.shiftl huns 0) 0x03)) 0xf3
                  (Z.land (Z.shiftl sign 3) 0x0c) in
  Z.land b' 0x03 = huns mod 4 /\ Z.testbit b' 3 = (sign =? 1) /\ Z.testbit b' 2 = false.
Proof.
  intros Hh Hs b'. subst b'. rewrite (field_u8 b) by lia.
  pose proof (range2 (fun y huns =>
    forallb (fun sign =>
      let b' := field (field y 0xfc (Z.land (Z.shiftl huns 0) 0x03)) 0xf3
                      (Z.land (Z.shiftl sign 3) 0x0c) in
      (Z.land b' 0x03 =? huns mod 4) && Bool.eqb (Z.testbit b' 3) (sign =? 1)
      && negb (Z.testbit b' 2)) [0; 1]) 256 10
    ltac:(vm_compute; reflexivity) (u8 b) huns (u8_range b) Hh) as F.
  cbv beta in F. rewrite forallb_forall in F.
  specialize (F sign ltac:(cbn; lia)). cbv zeta in F.
  rewrite !andb_true_iff, Z.eqb_eq, negb_true_iff in F. destruct F as [[F1 F2] F3].
  apply eqb_prop in F2. tauto.
Qed.

(** X7: for every temperature of [k] tenths of a degree with
    [-9999 <= k <= 9999], given as the nearest binary32 value,
    [setTemperature] succeeds on a 12-byte frame and stores the tenths,
    ones and tens digits of [|k|] exactly; of the hundreds digit only
    the value modulo 4 fits in bits 0-1 of byte 8 (so 400.0 is encoded
    like 0.0), bit 3 of byte 8 is the sign and bit 2 is cleared. *)
Theorem setTemperature_keeps_hundreds_modulo_4 (st : state) (k : Z) :
  Z.of_nat (length (data st)) = DATA_LEN ->
  -9999 <= k <= 9999 ->
  exists d' b6 b7 b8,
    frame_after (setTemperature (Float32.decimal k 1)) st = Ok d'
    /\ index d' 6 = Ok b6 /\ index d' 7 = Ok b7 /\ index d' 8 = Ok b8
    /\ b6 / 16 = Z.abs k mod 10
    /\ b7 mod 16 = (Z.abs k / 10) mod 10
    /\ b7 / 16 = (Z.abs k / 100) mod 10
    /\ Z.land b8 0x03 = (Z.abs k / 1000) mod 4
    /\ Z.testbit b8 3 = (k <? 0)
    /\ Z.testbit b8 2 = false.
Proof.
  intros Hlen Hk. remember (data st) as d eqn:Hd. frame12 d Hlen. symmetry in Hd.
  pose proof (setTemperature_run _ _ _ _ _ _ _ _ _ _ _ _ st Hd (Float32.decimal k 1)) as T.
  destruct (temperature_digits_wide k Hk) as (Es & E1 & E2 & E3 & E4).
  cbv zeta in T, Es, E1, E2, E3, E4. rewrite E1, E2, E3, E4, Es in T. clear Es E1 E2 E3 E4.
  unfold frame_after. rewrite T. cbn [data with_data].
  do 4 eexists. split; [reflexivity|]. split; [reflexivity|]. split; [reflexivity|].
  split; [reflexivity|].
  pose proof (mod10_digit (Z.abs k)) as D1.
  pose proof (mod10_digit (Z.abs k / 10)) as D2.
  pose proof (mod10_digit (Z.abs k / 100)) as D3.
  assert (D4 : 0 <= (Z.abs k / 1000) mod 10 < 10) by (apply Z.mod_pos_bound; lia).
  assert (E4 : (Z.abs k / 1000) mod 10 = Z.abs k / 1000).
  { apply Z.mod_small. split; [apply Z.div_pos; lia | apply Z.div_lt_upper_bound; lia]. }
  split; [|split; [|split]].
  - match goal with |- context [field ?b 15 (Z.land (Z.shiftl ?v 4) 240)] =>
      destruct (field_high b v D1) as (-> & _) end. reflexivity.
  - change 16 with (2 ^ 4). rewrite <- Z.land_ones by lia. change (Z.ones 4) with 0x0f.
    match goal with |- context [field ?b 15 (Z.land (Z.shiftl ?v 4) 240)] =>
      destruct (field_high b v D3) as (_ & _ & ->) end.
    match goal with |- context [field ?b 240 (Z.land (Z.shiftl ?v 0) 15)] =>
      destruct (field_low b v D2) as (_ & ->) end. reflexivity.
  - match goal with |- context [field ?b 15 (Z.land (Z.shiftl ?v 4) 240)] =>
      destruct (field_high b v D3) as (-> & _) end. reflexivity.
  - match goal with
    | |- context [field (field ?b 252 (Z.land (Z.shiftl ?hu 0) 3)) 243
                        (Z.land (Z.shiftl ?sg 3) 12)] =>
        destruct (field_hundreds_sign b hu sg D4 ltac:(destruct (k <? 0); cbn; lia))
          as (F1 & F2 & F3)
    end.
    rewrite F1, F2, F3, E4. repeat split. destruct (k <? 0); reflexivity.
Qed.

Lemma setTemperature_keeps_hundreds_modulo_4_witness :
  exists d' b6 b7 b8,
    frame_after (setTemperature (Float32.decimal 4567 1)) (boot_state (fun _ => 0)) = Ok d'
    /\ index d' 6 = Ok b6 /\ index d' 7 = Ok b7 /\ index d' 8 = Ok b8
    /\ b6 / 16 = 7 /\ b7 mod 16 = 6 /\ b7 / 16 = 5
    /\ Z.land b8 0x03 = 0 /\ Z.testbit b8 3 = false /\ Z.testbit b8 2 = false.
Proof.
  apply (setTemperature_keeps_hundreds_modulo_4 (boot_state (fun _ => 0)) 4567);
    [reflexivity | lia].
Defined.

(** X8: for every humidity of [k] tenths of a percent with
    [0 <= k <= 1999], given as the nearest binary32 value, [setHumidity]
    succeeds on a 12-byte frame and stores the two low decimal digits of
    the humidity rounded half up to a whole percent, [(k + 5) / 10]: the
    hundreds digit is dropped, so 99.5 % and above are sent as 00. *)
Theorem setHumidity_rounds_half_up (st : state) (k : Z) :
  Z.of_nat (length (data st)) = DATA_LEN ->
  0 <= k <= 1999 ->
  exists d' b8 b9,
    frame_after (setHumidity (Float32.decimal k 1)) st = Ok d'
    /\ index d' 8 = Ok b8 /\ index d' 9 = Ok b9
    /\ b8 / 16 = ((k + 5) / 10) mod 10
    /\ b9 mod 16 = ((k + 5) / 100) mod 10.
Proof.
  intros Hlen Hk. remember (data st) as d eqn:Hd. frame12 d Hlen. symmetry in Hd.
  pose proof (setHumidity_run _ _ _ _ _ _ _ _ _ _ _ _ st Hd (Float32.decimal k 1)) as U.
  destruct (humidity_digits_rounded k Hk) as (E1 & E2).
  cbv zeta in U, E1, E2. rewrite E1, E2 in U. clear E1 E2.
  unfold frame_after. rewrite U. cbn [data with_data].
  do 3 eexists. split; [reflexivity|]. split; [reflexivity|]. split; [reflexivity|].
  pose proof (mod10_digit ((k + 5) / 10)) as D1.
  pose proof (mod10_digit ((k + 5) / 100)) as D2.
  split.
  - match goal with |- context [field ?b 15 (Z.land (Z.shiftl ?v 4) 240)] =>
      destruct (field_high b v D1) as (-> & _) end. reflexivity.
  - match goal with |- context [field ?b 240 (Z.land (Z.shiftl ?v 0) 15)] =>
      destruct (field_low b v D2) as (-> & _) end. reflexivity.
Qed.

Lemma setHumidity_rounds_half_up_witness :
  exists d' b8 b9,
    frame_after (setHumidity (Float32.decimal 995 1)) (boot_state (fun _ => 0)) = Ok d'
    /\ index d' 8 = Ok b8 /\ index d' 9 = Ok b9
    /\ b8 / 16 = 0 /\ b9 mod 16 = 0.
Proof.
  apply (setHumidity_rounds_half_up (boot_state (fun _ => 0)) 995); [reflexivity | lia].
Defined.

Lemma measurement_setters_commute_witness :
  bind (setTemperature (Float32.decimal (-55) 1))
       (fun _ => setHumidity (Float32.decimal 300 1)) (boot_state (fun _ => 0))
  = bind (setHumidity (Float32.decimal 300 1))
         (fun _ => setTemperature (Float32.decimal (-55) 1)) (boot_state (fun _ => 0)).
Proof.
  exact (proj1 (measurement_setters_commute (boot_state (fun _ => 0))
                  (Float32.decimal (-55) 1) (Float32.decimal 300 1) true eq_refl)).
Defined.

Lemma digests_depend_on_selected_nibbles_only_witness :
  checksumSimple (<[0%nat := 0x12]> Spec.reference_frame) SUM_MASK
  = checksumSimple Spec.reference_frame SUM_MASK
  /\ checksumCRC (<[0%nat := 0x12]> Spec.reference_frame) SUM_MASK CRC_IV
     = checksumCRC Spec.reference_frame SUM_MASK CRC_IV.
Proof.
  apply (digests_depend_on_selected_nibbles_only
           (<[0%nat := 0x12]> Spec.reference_frame) Spec.reference_frame SUM_MASK CRC_IV).
  intros i Hi E. destruct (used_masks_bytes i Hi) as [B _]. specialize (B E).
  apply nibble_at_insert_other; lia.
Defined.

(** ** Frames assembled by [transmit] *)

Lemma checksumSimple_range (d : list Z) (mask c : Z) :
  checksumSimple d mask = Ok c -> 0 <= c < 256.
Proof.
  unfold checksumSimple. destruct (for_each _ _ _); cbn [rbind]; [|discriminate].
  intros [= <-]. apply u8_range.
Qed.

Lemma checksumCRC_range (d : list Z) (mask iv c : Z) :
  checksumCRC d mask iv = Ok c -> 0 <= c < 256.
Proof.
  unfold checksumCRC. destruct (for_each _ _ _) as [s0|]; cbn [rbind]; [|discriminate].
  cbv zeta. generalize (fold_left crc_flush (upto 8) s0). intros s [= <-]. apply u8_range.
Qed.

(** [data[i] &= 0x00; data[i] |= (c & 0xff)] stores [c]. *)
Lemma field_replace (b c : Z) : 0 <= c < 256 -> field b 0x00 (Z.land c 0xff) = c.
Proof.
  intros Hc. unfold field. rewrite Z.land_0_r. change (u8 0) with 0. rewrite Z.lor_0_l.
  change 0xff with (Z.ones 8). rewrite Z.land_ones by lia.
  change (2 ^ 8) with 256. rewrite Z.mod_small by lia. apply u8_small. exact Hc.
Qed.

Lemma checksumSimple_trailer (d : list Z) (x y : Z) :
  checksumSimple (<[11%nat := y]> (<[10%nat := x]> d)) SUM_MASK = checksumSimple d SUM_MASK.
Proof.
  apply checksumSimple_local. intros p Hp E.
  destruct (used_masks_bytes p Hp) as [B _]. specialize (B E).
  rewrite !nibble_at_insert_other by lia. reflexivity.
Qed.

Lemma checksumCRC_trailer (d : list Z) (y iv : Z) :
  checksumCRC (<[11%nat := y]> d) CRC_MASK iv = checksumCRC d CRC_MASK iv.
Proof.
  apply checksumCRC_local. intros p Hp E.
  destruct (used_masks_bytes p Hp) as [_ B]. specialize (B E).
  rewrite !nibble_at_insert_other by lia. reflexivity.
Qed.

(** The two read-modify-writes of byte 6 in [transmit]: bit 2 becomes
    the flag and bit 3 is kept. *)
Lemma field_byte6 (b6 v : Z) (b : bool) :
  let x6 := field (field b6 0x0f (Z.land (Z.shiftl v 4) 0xf0)) 0xf8 (if b then 0x4 else 0x0) in
  Z.testbit x6 2 = b /\ Z.testbit x6 3 = Z.testbit b6 3.
Proof.
  cbv zeta. rewrite !testbit_field by lia.
  rewrite !Z.land_spec, !Z.shiftl_spec by lia.
  rewrite (Z.testbit_neg_r v (2 - 4)), (Z.testbit_neg_r v (3 - 4)) by lia.
  destruct b, (Z.testbit b6 2), (Z.testbit b6 3); split; reflexivity.
Qed.

(** A read-modify-write [data[i] &= keep; data[i] |= v] leaves the bits
    of a mask [m] alone when it keeps them and [v] has none of them. *)
Lemma field_keeps (b keep v m : Z) :
  0 <= m < 256 -> Z.land m keep = m -> Z.land v m = 0 ->
  Z.land (field b keep v) m = Z.land b m.
Proof.
  intros Hm Hk Hv. apply Z.bits_inj'. intros n Hn.
  rewrite !Z.land_spec, testbit_field by exact Hn.
  rewrite (land_sub_bits m keep n Hk).
  assert (V : Z.testbit v n && Z.testbit m n = false).
  { rewrite <- Z.land_spec, Hv. apply Z.bits_0. }
  destruct (Z.ltb_spec n 8) as [Hlt|Hge].
  - destruct (Z.testbit b n), (Z.testbit keep n), (Z.testbit v n), (Z.testbit m n);
      try reflexivity; discriminate V.
  - assert (M : Z.testbit m n = false).
    { destruct (Z.eq_dec m 0) as [->|Hne]; [apply Z.bits_0|].
      apply Z.bits_above_log2; [lia|].
      apply Z.lt_le_trans with 8; [|exact Hge]. apply Z.log2_lt_pow2; lia. }
    rewrite M, !andb_false_r. reflexivity.
Qed.

Lemma land_land_disjoint (x m k : Z) : Z.land m k = 0 -> Z.land (Z.land x m) k = 0.
Proof. intros E. rewrite <- Z.land_assoc, E. apply Z.land_0_r. Qed.

Section TransmitFrame.
Context `{AvrIo}.

(** [transmit] on an explicit 12-byte frame: bytes 0 to 5 are kept,
    bytes 6 to 9 take the measurement, bytes 10 and 11 the two digests
    of the frame they end up in, and the frame is then sent twice. *)
Lemma transmit_run_explicit (b0 b1 b2 b3 b4 b5 b6 b7 b8 b9 b10 b11 : Z)
  (st : state) (t h : Float32.float) (b : bool) :
  data st = [b0; b1; b2; b3; b4; b5; b6; b7; b8; b9; b10; b11] ->
  exists x6 x7 x8 x9 c k s2 s4,
    let d' := [b0; b1; b2; b3; b4; b5; x6; x7; x8; x9; c; k] in
    Z.testbit x6 2 = b /\ Z.testbit x6 3 = Z.testbit b6 3
    /\ Z.land x9 0xf0 = Z.land b9 0xf0
    /\ checksumSimple d' SUM_MASK = Ok c
    /\ checksumCRC d' CRC_MASK CRC_IV = Ok k
    /\ sendData (with_data d' st) = Ok (tt, s2)
    /\ sendData_post (with_data d' st) s2
    /\ sendData (with_trace (trace s2 ++ [EvDelay 55]) s2) = Ok (tt, s4)
    /\ sendData_post (with_trace (trace s2 ++ [EvDelay 55]) s2) s4
    /\ transmit t h b st = Ok (tt, s4).
Proof.
  intros Hd.
  pose proof (setTemperature_run _ _ _ _ _ _ _ _ _ _ _ _ st Hd t) as T. cbv zeta in T.
  unfold transmit. unfold bind at 1. rewrite T. clear T.
  unfold bind at 1.
  run_setter (setHumidity h) (fun a b c d e f g i j k l m s H =>
                                 setHumidity_run a b c d e f g i j k l m s H h).
  unfold bind at 1.
  run_setter (setLowBattery b) (fun a b' c d e f g i j k l m s H =>
                                   setLowBattery_run a b' c d e f g i j k l m s H b).
  cbn [with_data data regs irq sleep_mode sleep_enabled trace pin old_TCCR0A old_TCCR0B
       old_OCR0A old_TIMSK dataPin powerPin].
  fold (with_data).
  match goal with
  | |- context [bind setChecksum _ ?s] =>
      destruct (setChecksum_run _ _ _ _ _ _ _ _ _ _ _ _ s eq_refl) as (c & Hc & E)
  end.
  unfold bind at 1. rewrite E. clear E.
  pose proof (checksumSimple_range _ _ _ Hc) as Rc.
  rewrite (field_replace b10 c Rc).
  match goal with
  | |- context [bind setCRC _ ?s] =>
      destruct (setCRC_run _ _ _ _ _ _ _ _ _ _ _ _ s eq_refl) as (k & Hk & E)
  end.
  unfold bind at 1. rewrite E. clear E.
  pose proof (checksumCRC_range _ _ _ _ Hk) as Rk.
  rewrite (field_replace b11 k Rk).
  cbn [data with_data] in Hc, Hk.
  match goal with
  | |- context [with_data [b0; b1; b2; b3; b4; b5; ?x6; ?x7; ?x8; ?x9; c; k] _] =>
      exists x6, x7, x8, x9, c, k;
      set (d' := [b0; b1; b2; b3; b4; b5; x6; x7; x8; x9; c; k]) in *
  end.
  match goal with
  | |- context [bind sendData _ ?s] => change s with (with_data d' st)
  end.
  assert (L : Z.of_nat (length (data (with_data d' st))) = DATA_LEN) by reflexivity.
  destruct (sendData_run (with_data d' st) L) as (s2 & E2 & P2).
  assert (L6 : Z.of_nat (length (data (with_trace (trace s2 ++ [EvDelay 55]) s2))) = DATA_LEN).
  { cbn [data with_trace]. destruct P2 as (_ & -> & _). exact L. }
  destruct (sendData_run _ L6) as (s4 & E4 & P4).
  exists s2, s4. cbv zeta.
  split; [apply field_byte6|]. split; [apply field_byte6|].
  split; [apply field_keeps; [lia | reflexivity | apply land_land_disjoint; reflexivity]|].
  split.
  { rewrite <- Hc. subst d'.
    match goal with
    | |- _ = checksumSimple ?d3 _ =>
        change (checksumSimple (<[11%nat := k]> (<[10%nat := c]> d3)) SUM_MASK
                = checksumSimple d3 SUM_MASK)
    end.
    apply checksumSimple_trailer. }
  split.
  { rewrite <- Hk. subst d'.
    match goal with
    | |- _ = checksumCRC ?d4 _ _ =>
        change (checksumCRC (<[11%nat := k]> d4) CRC_MASK CRC_IV
                = checksumCRC d4 CRC_MASK CRC_IV)
    end.
    apply checksumCRC_trailer. }
  repeat (split; [assumption|]).
  unfold bind at 1. rewrite E2. unfold bind at 1. unfold delay, emit, modify.
  exact E4.
Qed.
(** X9: on a 12-byte frame [transmit] always succeeds; the frame it
    leaves carries its own digests (byte 10 is [checksumSimple] and byte
    11 is [checksumCRC] of that very frame, so a receiver recomputing
    them finds them right), bytes 0 to 5 (preamble, sensor ID, channel,
    rolling ID) are the ones it found, and the events it adds are two
    emissions of that finished frame with a 55 ms delay between them. *)
Theorem transmit_sends_verified_frame_twice (st : state) (t h : Float32.float) (b : bool) :
  Z.of_nat (length (data st)) = DATA_LEN ->
  exists s c k,
    transmit t h b st = Ok (tt, s)
    /\ checksumSimple (data s) SUM_MASK = Ok c /\ index (data s) 10 = Ok c
    /\ checksumCRC (data s) CRC_MASK CRC_IV = Ok k /\ index (data s) 11 = Ok k
    /\ (forall i, 0 <= i < 6 -> index (data s) i = index (data st) i)
    /\ trace s = trace st ++ sync_events (pin st) (Spec.frame_wave (data s))
                          ++ [EvDelay 55]
                          ++ sync_events (pin st) (Spec.frame_wave (data s)).
Proof.
  intros Hlen. remember (data st) as d eqn:Hd. frame12 d Hlen. symmetry in Hd.
  destruct (transmit_run_explicit _ _ _ _ _ _ _ _ _ _ _ _ st t h b Hd)
    as (x6 & x7 & x8 & x9 & c & k & s2 & s4 & _ & _ & _ & Hc & Hk & _ & P2 & _ & P4 & E).
  cbv zeta in Hc, Hk, P2, P4.
  destruct P2 as (T2 & D2 & Q2 & _). destruct P4 as (T4 & D4 & Q4 & _).
  cbn [trace data pin with_data with_trace] in T2, D2, Q2, T4, D4, Q4.
  exists s4, c, k. rewrite D4, D2, T4, Q2, D2, T2.
  split; [exact E|]. split; [exact Hc|]. split; [reflexivity|].
  split; [exact Hk|]. split; [reflexivity|]. split.
  - intros i Hi. assert (C : i = 0 \/ i = 1 \/ i = 2 \/ i = 3 \/ i = 4 \/ i = 5) by lia.
    destruct C as [->|[->|[->|[->|[->| ->]]]]]; reflexivity.
  - rewrite <- !app_assoc. reflexivity.
Qed.

(** X10: the parts of the frame that the source initialises once and
    calls "the parts that never change" (preamble ff ff, bytes 1a 2d with
    the low nibble of byte 4, bit 3 of byte 6, high nibble 8 of byte 9)
    are an invariant: [begin] with any arguments and [transmit] with any
    reading succeed on a frame that has them and leave a frame that has
    them. *)
Theorem fixed_parts_invariant (st : state) :
  fixed_parts (data st) ->
  (forall channel rollingId,
     exists s, begin channel rollingId st = Ok (tt, s) /\ fixed_parts (data s))
  /\ (forall t h b,
        exists s, transmit t h b st = Ok (tt, s) /\ fixed_parts (data s)).
Proof.
  intros (b4 & b5 & b6 & b7 & b8 & b9 & b10 & b11 & Hd & F4 & F6 & F9). split.
  - intros channel rollingId. unfold begin.
    unfold bind at 1. unfold bind at 1. unfold gets, pinMode, emit, modify.
    unfold bind at 1.
    match goal with
    | |- context [setRollingId rollingId ?s] =>
        rewrite (setRollingId_run _ _ _ _ _ _ _ _ _ _ _ _ s Hd rollingId)
    end.
    match goal with
    | |- context [setChannel channel ?s] =>
        rewrite (setChannel_run _ _ _ _ _ _ _ _ _ _ _ _ s eq_refl channel)
    end.
    eexists. split; [reflexivity|]. cbn [data with_data].
    do 8 eexists. split; [reflexivity|]. split; [|split; assumption].
    rewrite field_keeps; [exact F4 | lia | reflexivity | apply land_land_disjoint; reflexivity].
  - intros t h b.
    destruct (transmit_run_explicit _ _ _ _ _ _ _ _ _ _ _ _ st t h b Hd)
      as (x6 & x7 & x8 & x9 & c & k & s2 & s4 & _ & H6 & H9 & _ & _ & _ & P2 & _ & P4 & E).
    cbv zeta in P2, P4.
    destruct P2 as (_ & D2 & _). destruct P4 as (_ & D4 & _).
    cbn [data with_data with_trace] in D2, D4.
    exists s4. split; [exact E|]. rewrite D4, D2.
    do 8 eexists. split; [reflexivity|]. split; [exact F4|]. split; congruence.
Qed.
End TransmitFrame.

Lemma transmit_sends_verified_frame_twice_witness :
  exists s c k,
    transmit (H := attiny85) (Float32.decimal 227 1) (Float32.decimal 300 1) true
             (boot_state (fun _ => 0)) = Ok (tt, s)
    /\ checksumSimple (data s) SUM_MASK = Ok c /\ index (data s) 10 = Ok c
    /\ checksumCRC (data s) CRC_MASK CRC_IV = Ok k /\ index (data s) 11 = Ok k
    /\ (forall i, 0 <= i < 6 -> index (data s) i = index initial_data i)
    /\ trace s = [] ++ sync_events TX_PIN (Spec.frame_wave (data s))
                     ++ [EvDelay 55]
                     ++ sync_events TX_PIN (Spec.frame_wave (data s)).
Proof.
  exact (@transmit_sends_verified_frame_twice attiny85 (boot_state (fun _ => 0))
           (Float32.decimal 227 1) (Float32.decimal 300 1) true eq_refl).
Defined.

Lemma fixed_parts_invariant_witness :
  (forall channel rollingId,
     exists s, begin channel rollingId (boot_state (fun _ => 0)) = Ok (tt, s)
               /\ fixed_parts (data s))
  /\ (forall t h b,
        exists s, transmit (H := attiny85) t h b (boot_state (fun _ => 0)) = Ok (tt, s)
                  /\ fixed_parts (data s)).
Proof.
  apply (@fixed_parts_invariant attiny85 (boot_state (fun _ => 0))).
  do 8 eexists. split; [reflexivity|]. repeat split.
Defined.

(** ** The waveform of [sendData] *)

Lemma wave_bits_quads (bits : list bool) (tail : list bool) :
  (length tail < 4)%nat -> wave_bits (flat_map Spec.quad_of bits ++ tail) = bits.
Proof.
  intros Ht. induction bits as [|b bits IH].
  - cbn [flat_map app]. destruct tail as [|? [|? [|? [|? ?]]]]; try reflexivity.
    cbn [length] in Ht. lia.
  - cbn [flat_map]. rewrite <- app_assoc.
    destruct b; cbn [Spec.quad_of Spec.pair_of negb app wave_bits]; rewrite IH; reflexivity.
Qed.

Lemma byte_bits_u8 (b : Z) : Spec.byte_bits b = Spec.byte_bits (u8 b).
Proof.
  unfold Spec.byte_bits. apply map_ext_in. intros i Hi.
  assert (R : 0 <= i < 8).
  { unfold upto in Hi. apply in_map_iff in Hi as (n & <- & Hn). apply in_seq in Hn. lia. }
  unfold u8. rewrite Z.mod_pow2_bits_low by lia. reflexivity.
Qed.

Lemma bits_value_byte (b : Z) : bits_value (Spec.byte_bits b) = u8 b.
Proof.
  rewrite byte_bits_u8.
  pose proof (upto_forallb (fun y => bits_value (Spec.byte_bits y) =? y) 256
                ltac:(vm_compute; reflexivity) (u8 b) (u8_range b)) as F.
  cbv beta in F. apply Z.eqb_eq in F. exact F.
Qed.

Lemma bytes_of_frame_bits (d : list Z) : bytes_of_bits (Spec.frame_bits d) = map u8 d.
Proof.
  induction d as [|b d IH]; [reflexivity|].
  change (Spec.frame_bits (b :: d)) with (Spec.byte_bits b ++ Spec.frame_bits d).
  cbn [map]. rewrite <- IH, <- bits_value_byte. reflexivity.
Qed.

Lemma no_triple_quads (bits : list bool) :
  let w := flat_map Spec.quad_of bits ++ [LOW] in
  no_triple w = true /\ forall x, no_triple (negb x :: x :: w) = true.
Proof.
  induction bits as [|b bits [IH1 IH2]]; cbv zeta.
  - split; [reflexivity | intros []; reflexivity].
  - cbn [flat_map]. rewrite <- app_assoc.
    set (w := flat_map Spec.quad_of bits ++ [LOW]) in *.
    split.
    + specialize (IH2 (negb b)). rewrite negb_involutive in IH2.
      destruct b; cbn [Spec.quad_of Spec.pair_of negb app no_triple Bool.eqb andb HIGH LOW] in *;
        exact IH2.
    + intros x. specialize (IH2 (negb b)). rewrite negb_involutive in IH2.
      destruct b, x;
        cbn [Spec.quad_of Spec.pair_of negb app no_triple Bool.eqb andb HIGH LOW] in *;
        exact IH2.
Qed.

Section Waveform.
Context `{AvrIo}.

Lemma emitted_sendData (st : state) :
  Z.of_nat (length (data st)) = DATA_LEN ->
  emitted sendData st = Ok (Spec.frame_wave (data st)).
Proof.
  intros Hlen. unfold emitted.
  destruct (sendData_run (with_trace [] st) Hlen) as (st' & -> & T & _).
  cbn [trace data pin with_trace app] in T. rewrite T, writes_on_sync. reflexivity.
Qed.

(** X11: the waveform [sendData] writes for a 12-byte frame determines
    the frame: reading the second of every four writes as a bit and
    packing the bits least significant first gives the 12 bytes back (as
    8-bit values), so different frames are sent as different waveforms. *)
Theorem sendData_waveform_decodes_to_frame (st : state) :
  Z.of_nat (length (data st)) = DATA_LEN ->
  exists w, emitted sendData st = Ok w
            /\ bytes_of_bits (wave_bits w) = map u8 (data st).
Proof.
  intros Hlen. exists (Spec.frame_wave (data st)). split; [apply emitted_sendData, Hlen|].
  unfold Spec.frame_wave. rewrite wave_bits_quads by (cbn; lia).
  apply bytes_of_frame_bits.
Qed.

(** X12: in the waveform [sendData] writes for a 12-byte frame the pin
    never receives the same level three times in a row, whatever the
    frame holds: the transmitter is keyed or idle for at most two timer
    ticks at a stretch. *)
Theorem sendData_never_holds_a_level_three_ticks (st : state) :
  Z.of_nat (length (data st)) = DATA_LEN ->
  exists w, emitted sendData st = Ok w /\ no_triple w = true.
Proof.
  intros Hlen. exists (Spec.frame_wave (data st)). split; [apply emitted_sendData, Hlen|].
  apply (no_triple_quads (Spec.frame_bits (data st))).
Qed.

Lemma sendData_flags (st : state) :
  Z.of_nat (length (data st)) = DATA_LEN ->
  exists st', sendData st = Ok (tt, st')
    /\ irq st' = true /\ sleep_enabled st' = false /\ sleep_mode st' = SLEEP_MODE_IDLE.
Proof.
  intros Hlen. unfold sendData.
  assert (C : exists st1, configureTimer st = Ok (tt, st1) /\ data st1 = data st).
  { eexists. split; reflexivity. }
  destruct C as (st1 & E & Hd1).
  assert (S1 : sleep_mode st1 = SLEEP_MODE_IDLE).
  { assert (Q : Ok (tt, st1) = configureTimer st) by (symmetry; exact E).
    clear E. unfold configureTimer in Q.
    cbv [bind read_reg gets modify cli sei write_reg set_sleep_mode sleep_enable] in Q.
    injection Q as ->. reflexivity. }
  unfold bind at 1. rewrite E. clear E.
  unfold bind at 1. rewrite send_loop_run.
  2:{ intros i Hi. apply upto_nonneg in Hi. rewrite Hd1, Hlen.
      unfold DATA_LEN in *. cbn in Hi. lia. }
  unfold bind at 1. rewrite writeSyncBit_run.
  eexists. split; [reflexivity|].
  cbn. rewrite S1. repeat split.
Qed.

(** X13: whatever the interrupt flag and the sleep settings were on
    entry, [sendData] returns with interrupts enabled, sleep disabled and
    the sleep mode left at [SLEEP_MODE_IDLE] (it is not restored), and
    each of its 385 pin writes directly follows a [sleep_cpu()] of its
    own: the added events are exactly sleep, write, sleep, write, ... *)
Theorem sendData_leaves_interrupts_on_and_idle_mode (st : state) :
  Z.of_nat (length (data st)) = DATA_LEN ->
  exists st' w,
    sendData st = Ok (tt, st')
    /\ irq st' = true /\ sleep_enabled st' = false /\ sleep_mode st' = SLEEP_MODE_IDLE
    /\ trace st' = trace st ++ flat_map (fun v => [EvSleepCpu; EvDigitalWrite (pin st) v]) w
    /\ length w = 385%nat.
Proof.
  intros Hlen.
  destruct (sendData_flags st Hlen) as (st' & E & F1 & F2 & F3).
  destruct (sendData_run st Hlen) as (st2 & E2 & T & _).
  rewrite E in E2. injection E2 as <-.
  exists st', (Spec.frame_wave (data st)).
  split; [exact E|]. split; [exact F1|]. split; [exact F2|]. split; [exact F3|].
  split; [exact T|]. apply frame_wave_length, Hlen.
Qed.
End Waveform.

Lemma sendData_waveform_decodes_to_frame_witness :
  exists w, emitted (sendData (H := attiny85)) (boot_state (fun _ => 0)) = Ok w
            /\ bytes_of_bits (wave_bits w) = map u8 initial_data.
Proof.
  exact (@sendData_waveform_decodes_to_frame attiny85 (boot_state (fun _ => 0)) eq_refl).
Defined.

Lemma sendData_never_holds_a_level_three_ticks_witness :
  exists w, emitted (sendData (H := attiny85)) (boot_state (fun _ => 0)) = Ok w
            /\ no_triple w = true.
Proof.
  exact (@sendData_never_holds_a_level_three_ticks attiny85 (boot_state (fun _ => 0)) eq_refl).
Defined.

Lemma sendData_leaves_interrupts_on_and_idle_mode_witness :
  exists st' w,
    sendData (H := attiny85)
      (with_sleep_mode SLEEP_MODE_PWR_DOWN (with_irq false (boot_state (fun _ => 0))))
    = Ok (tt, st')
    /\ irq st' = true /\ sleep_enabled st' = false /\ sleep_mode st' = SLEEP_MODE_IDLE
    /\ trace st' = [] ++ flat_map (fun v => [EvSleepCpu; EvDigitalWrite TX_PIN v]) w
    /\ length w = 385%nat.
Proof.
  exact (@sendData_leaves_interrupts_on_and_idle_mode attiny85
           (with_sleep_mode SLEEP_MODE_PWR_DOWN (with_irq false (boot_state (fun _ => 0))))
           eq_refl).
Defined.

(** ** The sensor wrapper and the main loop *)

Lemma eqb_zero (x : Float32.float) : Float32.eqb x (Float32.decimal 0 1) = is_zero x.
Proof. destruct x as [[]|[]| |[] m e]; reflexivity. Qed.

Lemma eqb_finite_pos (x : Float32.float) (m : positive) (e : Z) :
  Float32.eqb x (SpecFloat.S754_finite false m e) = true
  <-> x = SpecFloat.S754_finite false m e.
Proof.
  split; [|intros ->; unfold Float32.eqb, SpecFloat.SFeqb, SpecFloat.SFcompare;
           rewrite Z.compare_refl; fold (Pos.compare m m); rewrite Pos.compare_refl;
           reflexivity].
  destruct x as [s|s| |s m' e']; try discriminate; try (destruct s; discriminate).
  unfold Float32.eqb, SpecFloat.SFeqb, SpecFloat.SFcompare.
  destruct s; [discriminate|].
  destruct (Z.compare_spec e' e) as [->| |]; try discriminate.
  fold (Pos.compare m' m). destruct (Pos.compare_spec m' m) as [->| |]; try discriminate.
  reflexivity.
Qed.

(** X14: [irrationalReading] is true exactly for the three listed pairs,
    compared as floating-point values: a zero of either sign counts as
    0.0, 150.0 and 100.0 and 50.0 have to be hit exactly, and a NaN in
    either place (a failed read reported as such) is never flagged. *)
Theorem irrationalReading_flags_exactly_three_pairs (t h : Float32.float) :
  (irrationalReading t h = true
   <-> (is_zero t = true /\ is_zero h = true)
       \/ (t = Float32.decimal 1500 1 /\ h = Float32.decimal 1000 1)
       \/ (t = Float32.decimal 500 1 /\ is_zero h = true))
  /\ irrationalReading SpecFloat.S754_nan h = false
  /\ irrationalReading t SpecFloat.S754_nan = false.
Proof.
  assert (E150 : Float32.decimal 1500 1 = SpecFloat.S754_finite false 9830400 (-16))
    by (vm_compute; reflexivity).
  assert (E100 : Float32.decimal 1000 1 = SpecFloat.S754_finite false 13107200 (-17))
    by (vm_compute; reflexivity).
  assert (E50 : Float32.decimal 500 1 = SpecFloat.S754_finite false 13107200 (-18))
    by (vm_compute; reflexivity).
  split; [|split].
  - unfold irrationalReading. rewrite !orb_true_iff, !andb_true_iff, !eqb_zero.
    rewrite E150, E100, E50, !eqb_finite_pos. tauto.
  - reflexivity.
  - unfold irrationalReading. rewrite !eqb_zero.
    change (Float32.eqb SpecFloat.S754_nan (Float32.decimal 1000 1)) with false.
    change (is_zero SpecFloat.S754_nan) with false.
    rewrite !andb_false_r. reflexivity.
Qed.

Lemma adc_result (adcl adch : Z) :
  0 <= adcl < 256 -> 0 <= adch < 256 ->
  u16 (Z.lor (Z.shiftl (u8 adch) 8) (Z.shiftl (u8 adcl) 0)) = 256 * adch + adcl.
Proof.
  intros Hl Hh.
  pose proof (range2 (fun h l =>
    u16 (Z.lor (Z.shiftl (u8 h) 8) (Z.shiftl (u8 l) 0)) =? 256 * h + l) 256 256
    ltac:(vm_compute; reflexivity) adch adcl Hh Hl) as F.
  cbv beta in F. apply Z.eqb_eq in F. exact F.
Qed.

Lemma low_battery_threshold (r : Z) :
  0 < r -> (Z.quot 1125300 r <? LOW_BATTERY) = (563 <=? r).
Proof.
  intros Hr. rewrite Z.quot_div_nonneg by lia. unfold LOW_BATTERY.
  destruct (Z.leb_spec 563 r) as [Hge|Hlt].
  - apply Z.ltb_lt. apply Z.div_lt_upper_bound; lia.
  - apply Z.ltb_ge. apply Z.div_le_lower_bound; lia.
Qed.

Section MainLoop.
Context `{AvrIo}.

(** X15: for ADC data registers holding a nonzero conversion result
    [256 * adch + adcl], [getVcc] returns 1125300 divided by it, which is
    below [LOW_BATTERY] exactly when the result is 563 or more; it leaves
    ADCSRA as it found it (the ADC is switched off again), leaves ADMUX
    set to the band-gap channel, touches no other register and no pin,
    and waits 2 ms. *)
Theorem getVcc_is_low_from_result_563 (st : state) (adcl adch : Z) :
  0 <= adcl < 256 -> 0 <= adch < 256 -> 0 < 256 * adch + adcl ->
  exists st',
    getVcc adcl adch st = Ok (1125300 / (256 * adch + adcl), st')
    /\ (1125300 / (256 * adch + adcl) <? LOW_BATTERY) = (563 <=? 256 * adch + adcl)
    /\ regs st' ADCSRA = u8 (regs st ADCSRA)
    /\ regs st' ADMUX = u8 (Z.lor (Z.shiftl 1 MUX3) (Z.shiftl 1 MUX2))
    /\ (forall r, r <> ADCSRA -> r <> ADMUX -> regs st' r = regs st r)
    /\ trace st' = trace st ++ [EvDelay 2]
    /\ data st' = data st.
Proof.
  intros Hl Hh Hr.
  pose proof (low_battery_threshold _ Hr) as L. rewrite Z.quot_div_nonneg in L by lia.
  unfold getVcc. cbv zeta. rewrite (adc_result adcl adch Hl Hh).
  rewrite Z.quot_div_nonneg by lia.
  cbv [bind read_reg write_reg gets modify delay emit ret].
  eexists. split; [reflexivity|]. split; [exact L|].
  cbn [regs trace data with_regs with_trace reg_eqb].
  repeat split. intros r H1 H2. destruct r; cbn [reg_eqb]; congruence.
Qed.

(** X16: a call of [loop] with a reading that is not flagged and a
    nonzero ADC result runs to its end.  Its events are, in this order:
    oscillator and sensor powered, watchdog reset and one sleep, the
    sensor read, the sensor powered off with its data pin driven low, the
    2 ms ADC wait, the finished frame sent twice 55 ms apart, the
    oscillator powered off, and the watchdog re-armed followed by five
    sleeps.  The frame sent carries the low-battery bit (bit 2 of byte 6)
    exactly when the ADC result is 563 or more, and the call returns in
    power-down mode with sleep disabled, interrupts enabled, WDTCR holding
    the 8 s interrupt-only setting and ADCSRA as found. *)
Theorem loop_runs_measurement_cycle (st : state) (t h : Float32.float) (adcl adch : Z) :
  Z.of_nat (length (data st)) = DATA_LEN ->
  irrationalReading t h = false ->
  0 <= adcl < 256 -> 0 <= adch < 256 -> 0 < 256 * adch + adcl ->
  exists st' b6,
    loop (t, h) adcl adch st = Ok (tt, st')
    /\ trace st'
       = trace st
         ++ [EvDigitalWrite T0_XO_POWER_PIN HIGH; EvDigitalWrite (powerPin st) HIGH;
             EvWdtReset; EvSleepCpu; EvDhtRead;
             EvDigitalWrite (powerPin st) LOW; EvPinMode (dataPin st) OUTPUT;
             EvDigitalWrite (dataPin st) LOW; EvDelay 2]
         ++ sync_events (pin st) (Spec.frame_wave (data st'))
         ++ [EvDelay 55]
         ++ sync_events (pin st) (Spec.frame_wave (data st'))
         ++ [EvDigitalWrite T0_XO_POWER_PIN LOW; EvWdtDisable; EvWdtReset;
             EvSleepCpu; EvSleepCpu; EvSleepCpu; EvSleepCpu; EvSleepCpu]
    /\ index (data st') 6 = Ok b6
    /\ Z.testbit b6 2 = (563 <=? 256 * adch + adcl)
    /\ sleep_mode st' = SLEEP_MODE_PWR_DOWN
    /\ sleep_enabled st' = false
    /\ irq st' = true
    /\ regs st' WDTCR
       = u8 (Z.lor (Z.lor (Z.lor (Z.shiftl 1 WDIE) (Z.shiftl 1 WDCE)) (Z.shiftl 1 WDP3))
                   (Z.shiftl 1 WDP0))
    /\ regs st' ADCSRA = u8 (regs st ADCSRA).
Proof.
  intros Hlen Hirr Hl Hh Hr.
  remember (data st) as d eqn:Hd. frame12 d Hlen. symmetry in Hd.
  unfold loop.
  cbv [bind digitalWrite emit modify powerOn powerOff pinMode gets set_sleep_mode
       sleep_enable write_reg sleep_cpu sleep_disable read ret getVcc read_reg delay].
  rewrite Hirr.
  cbn [trace pin powerPin dataPin regs with_trace with_sleep_mode with_sleep_enabled
       with_regs].
  rewrite (adc_result adcl adch Hl Hh), (low_battery_threshold _ Hr).
  match goal with |- context [transmit _ _ _ ?s] => remember s as s_pre eqn:Hpre end.
  assert (F : data s_pre = data st /\ pin s_pre = pin st
              /\ regs s_pre ADCSRA = u8 (regs st ADCSRA)
              /\ trace s_pre
                 = trace st ++ [EvDigitalWrite T0_XO_POWER_PIN HIGH;
                                EvDigitalWrite (powerPin st) HIGH;
                                EvWdtReset; EvSleepCpu; EvDhtRead;
                                EvDigitalWrite (powerPin st) LOW;
                                EvPinMode (dataPin st) OUTPUT;
                                EvDigitalWrite (dataPin st) LOW;
                                EvDelay 2]).
  { subst s_pre. cbn [data pin trace regs with_regs with_trace reg_eqb].
    rewrite <- !app_assoc. repeat split. }
  clear Hpre. destruct F as (Fd & Fp & Fr & Ft). rewrite Hd in Fd.
  destruct (transmit_run_explicit _ _ _ _ _ _ _ _ _ _ _ _ s_pre t h
              (563 <=? 256 * adch + adcl) Fd)
    as (x6 & x7 & x8 & x9 & c & k & s2 & s4 & B & _ & _ & _ & _ & _ & P2 & E4 & P4 & ET).
  cbv zeta in P2, E4, P4. rewrite ET. clear ET.
  assert (L4 : Z.of_nat (length (data (with_trace (trace s2 ++ [EvDelay 55]) s2))) = DATA_LEN).
  { cbn [data with_trace]. destruct P2 as (_ & -> & _). reflexivity. }
  destruct (sendData_flags _ L4) as (s4' & E4' & I4 & _).
  rewrite E4 in E4'. injection E4' as <-. clear E4 L4.
  destruct P2 as (T2 & D2 & Pin2 & _ & _ & R2).
  destruct P4 as (T4 & D4 & Pin4 & _ & _ & R4).
  cbn [data trace pin regs with_data with_trace] in T2, D2, Pin2, R2, T4, D4, Pin4, R4.
  rewrite Pin2, D2 in T4. rewrite T2, Ft, Fp in T4. rewrite D2 in D4.
  eexists. exists x6. split; [reflexivity|].
  cbn [data trace regs irq sleep_mode sleep_enabled with_trace with_sleep_mode
       with_sleep_enabled with_regs reg_eqb].
  rewrite T4, D4, I4, (R4 ADCSRA), (R2 ADCSRA), Fr. rewrite <- !app_assoc. cbn [app].
  repeat split. exact B.
Qed.
End MainLoop.

Lemma getVcc_is_low_from_result_563_witness :
  exists st',
    getVcc (H := attiny85) 0x33 0x02 (boot_state (fun _ => 0))
    = Ok (1125300 / (256 * 0x02 + 0x33), st')
    /\ (1125300 / (256 * 0x02 + 0x33) <? LOW_BATTERY) = (563 <=? 256 * 0x02 + 0x33)
    /\ regs st' ADCSRA = u8 0
    /\ regs st' ADMUX = u8 (Z.lor (Z.shiftl 1 3) (Z.shiftl 1 2))
    /\ (forall r, r <> ADCSRA -> r <> ADMUX -> regs st' r = 0)
    /\ trace st' = [] ++ [EvDelay 2]
    /\ data st' = initial_data.
Proof.
  apply (@getVcc_is_low_from_result_563 attiny85 (boot_state (fun _ => 0)) 0x33 0x02); lia.
Defined.

Lemma loop_runs_measurement_cycle_witness :
  exists st' b6,
    loop (H := attiny85) (Float32.decimal 227 1, Float32.decimal 300 1) 0x33 0x02
         (boot_state (fun _ => 0)) = Ok (tt, st')
    /\ trace st'
       = []
         ++ [EvDigitalWrite T0_XO_POWER_PIN HIGH; EvDigitalWrite DHT_POWER_PIN HIGH;
             EvWdtReset; EvSleepCpu; EvDhtRead;
             EvDigitalWrite DHT_POWER_PIN LOW; EvPinMode DHT_DATA_PIN OUTPUT;
             EvDigitalWrite DHT_DATA_PIN LOW; EvDelay 2]
         ++ sync_events TX_PIN (Spec.frame_wave (data st'))
         ++ [EvDelay 55]
         ++ sync_events TX_PIN (Spec.frame_wave (data st'))
         ++ [EvDigitalWrite T0_XO_POWER_PIN LOW; EvWdtDisable; EvWdtReset;
             EvSleepCpu; EvSleepCpu; EvSleepCpu; EvSleepCpu; EvSleepCpu]
    /\ index (data st') 6 = Ok b6
    /\ Z.testbit b6 2 = (563 <=? 256 * 0x02 + 0x33)
    /\ sleep_mode st' = SLEEP_MODE_PWR_DOWN
    /\ sleep_enabled st' = false
    /\ irq st' = true
    /\ regs st' WDTCR = u8 (Z.lor (Z.lor (Z.lor (Z.shiftl 1 6) (Z.shiftl 1 4)) (Z.shiftl 1 5))
                                  (Z.shiftl 1 0))
    /\ regs st' ADCSRA = u8 0.
Proof.
  apply (@loop_runs_measurement_cycle attiny85 (boot_state (fun _ => 0))
           (Float32.decimal 227 1) (Float32.decimal 300 1) 0x33 0x02);
    [reflexivity | vm_compute; reflexivity | lia | lia | lia].
Defined.

(** ** [setup] *)

Lemma begin_run (b0 b1 b2 b3 b4 b5 b6 b7 b8 b9 b10 b11 : Z) (st : state)
  (channel rollingId : Z) :
  data st = [b0; b1; b2; b3; b4; b5; b6; b7; b8; b9; b10; b11] ->
  begin channel rollingId st
  = Ok (tt, with_data
              [b0; b1; b2; b3;
               field b4 0x0f (Z.land (Z.shiftl (u8 (Z.shiftl 1 (channel - 1))) 4) 0xf0);
               field b5 0x00 (Z.land rollingId 0xff);
               b6; b7; b8; b9; b10; b11]
              (with_trace (trace st ++ [EvPinMode (pin st) OUTPUT]) st)).
Proof.
  intros Hd. unfold begin.
  unfold bind at 1. unfold bind at 1. unfold gets, pinMode, emit, modify.
  unfold bind at 1.
  match goal with
  | |- context [setRollingId rollingId ?s] =>
      rewrite (setRollingId_run _ _ _ _ _ _ _ _ _ _ _ _ s Hd rollingId)
  end.
  match goal with
  | |- context [setChannel channel ?s] =>
      rewrite (setChannel_run _ _ _ _ _ _ _ _ _ _ _ _ s eq_refl channel)
  end.
  reflexivity.
Qed.

(** The channel code [setup] has [begin] write for a reset count [n]. *)
Lemma setup_channel_code (n : Z) :
  0 <= n ->
  field 0x00 0x0f (Z.land (Z.shiftl (u8 (Z.shiftl 1 (u8 (Z.rem n 3 + 1) - 1))) 4) 0xf0)
  = 16 * 2 ^ (n mod 3).
Proof.
  intros Hn. rewrite Z.rem_mod_nonneg by lia.
  pose proof (Z.mod_pos_bound n 3 ltac:(lia)) as R.
  assert (C : n mod 3 = 0 \/ n mod 3 = 1 \/ n mod 3 = 2) by lia.
  destruct C as [-> | [-> | ->]]; reflexivity.
Qed.

Lemma u32_range (z : Z) : 0 <= u32 z < 2 ^ 32.
Proof. unfold u32. apply Z.mod_pos_bound. lia. Qed.

Section SetupProps.
Variable EXTRF : Z.
Variable dht_begin : M unit.
Variable random256 : Z -> Z.
Variable dht_events : list event.
Hypothesis dht_begin_run :
  forall s, dht_begin s = Ok (tt, with_trace (trace s ++ dht_events) s).

Lemma setup_resetCount_nonneg (m stored : Z) : 0 <= setup_resetCount EXTRF m stored.
Proof.
  unfold setup_resetCount. cbv zeta.
  destruct (truthy _); [apply u32_range | apply u32_range].
Qed.

Lemma setup_run (st : state) (mcusr stored : Z) :
  data st = initial_data ->
  let n := setup_resetCount EXTRF (u8 mcusr) stored in
  setup EXTRF dht_begin random256 mcusr stored st
  = Ok (mkNvram 0 (if truthy (Z.land (u8 mcusr) (Z.shiftl 1 EXTRF)) then n else stored),
        with_data
          [0xff; 0xff; 0x1a; 0x2d; 16 * 2 ^ (n mod 3); u8 (random256 n);
           0x08; 0x00; 0x00; 0x80; 0x00; 0x00]
          (with_trace
             (trace st
              ++ [EvWdtDisable; EvPinMode RESET_PIN INPUT_PULLUP;
                  EvPinMode T0_XO_POWER_PIN OUTPUT; EvPinMode (powerPin st) OUTPUT]
              ++ dht_events
              ++ [EvPinMode (dataPin st) OUTPUT; EvDigitalWrite (dataPin st) LOW;
                  EvPinMode (pin st) OUTPUT])
             (with_regs (fun rs r' => if reg_eqb ADCSRA r' then u8 0 else rs r')
                        (with_irq true st)))).
Proof.
  intros Hd n. unfold setup. cbv zeta. fold n.
  cbv [bind cli sei emit modify write_reg pinMode DHTWrapper_begin gets digitalWrite ret].
  rewrite dht_begin_run.
  match goal with
  | |- context [begin ?c ?r ?s] =>
      rewrite (begin_run 0xff 0xff 0x1a 0x2d 0x00 0x00 0x08 0x00 0x00 0x80 0x00 0x00 s c r)
        by (cbn [data with_trace with_regs with_irq]; exact Hd)
  end.
  rewrite (setup_channel_code n) by apply setup_resetCount_nonneg.
  rewrite (field_replace 0 (u8 (random256 n)) (u8_range _)).
  cbn [trace pin dataPin powerPin with_trace with_regs with_irq].
  rewrite <- !app_assoc. cbn [app]. reflexivity.
Qed.

(** X17: on the freshly constructed objects [setup] always succeeds.
    It clears MCUSR, switches the ADC off (ADCSRA = 0) and returns with
    interrupts enabled; it writes the EEPROM counter only after an
    external reset (flag EXTRF of MCUSR), storing the count plus one
    modulo 2^32; the frame gets one of the three valid channel codes
    0x10, 0x20, 0x40 in byte 4, selected by the count modulo 3, and the
    rolling ID drawn for that count in byte 5, all else as initialised;
    and the pins are configured in the order reset pin, oscillator
    power, sensor power, the sensor library, sensor data (driven low),
    transmitter. *)
Theorem setup_configures_channel_and_pins (st : state) (mcusr stored : Z) :
  data st = initial_data ->
  exists st' nv n,
    setup EXTRF dht_begin random256 mcusr stored st = Ok (nv, st')
    /\ n = (if truthy (Z.land (u8 mcusr) (Z.shiftl 1 EXTRF))
            then u32 (u32 stored + 1) else u32 stored)
    /\ MCUSR nv = 0
    /\ eeprom_resetCount nv
       = (if truthy (Z.land (u8 mcusr) (Z.shiftl 1 EXTRF)) then n else stored)
    /\ data st' = [0xff; 0xff; 0x1a; 0x2d; 16 * 2 ^ (n mod 3); u8 (random256 n);
                   0x08; 0x00; 0x00; 0x80; 0x00; 0x00]
    /\ (16 * 2 ^ (n mod 3) = 0x10 \/ 16 * 2 ^ (n mod 3) = 0x20 \/ 16 * 2 ^ (n mod 3) = 0x40)
    /\ regs st' ADCSRA = 0
    /\ irq st' = true
    /\ trace st'
       = trace st
         ++ [EvWdtDisable; EvPinMode RESET_PIN INPUT_PULLUP;
             EvPinMode T0_XO_POWER_PIN OUTPUT; EvPinMode (powerPin st) OUTPUT]
         ++ dht_events
         ++ [EvPinMode (dataPin st) OUTPUT; EvDigitalWrite (dataPin st) LOW;
             EvPinMode (pin st) OUTPUT].
Proof.
  intros Hd. pose proof (setup_run st mcusr stored Hd) as R. cbv zeta in R.
  eexists. eexists. exists (setup_resetCount EXTRF (u8 mcusr) stored).
  split; [exact R|]. split; [reflexivity|]. split; [reflexivity|]. split; [reflexivity|].
  split; [reflexivity|]. split.
  { pose proof (Z.mod_pos_bound (setup_resetCount EXTRF (u8 mcusr) stored) 3 ltac:(lia)) as B.
    assert (C : setup_resetCount EXTRF (u8 mcusr) stored mod 3 = 0
                \/ setup_resetCount EXTRF (u8 mcusr) stored mod 3 = 1
                \/ setup_resetCount EXTRF (u8 mcusr) stored mod 3 = 2) by lia.
    destruct C as [-> | [-> | ->]]; [left | right; left | right; right]; reflexivity. }
  repeat split.
Qed.

(** X18: the reset button cycles the channel.  For a stored count [c]
    below 2^32 - 1, a start after an external reset selects the channel
    that follows (1 to 2, 2 to 3, 3 to 1) the one a power-on start
    selects from the same count.  At the last count, 2^32 - 1 (the
    value of a blank EEPROM), the counter wraps to 0 and both starts
    select channel 1: the button does not change the channel there. *)
Theorem external_reset_selects_next_channel (st : state) (mcusr_por mcusr_ext c : Z) :
  data st = initial_data ->
  Z.land (u8 mcusr_por) (Z.shiftl 1 EXTRF) = 0 ->
  Z.land (u8 mcusr_ext) (Z.shiftl 1 EXTRF) <> 0 ->
  0 <= c < 2 ^ 32 ->
  exists d0 d1 k0 k1,
    frame_after (setup EXTRF dht_begin random256 mcusr_por c) st = Ok d0
    /\ frame_after (setup EXTRF dht_begin random256 mcusr_ext c) st = Ok d1
    /\ index d0 4 = Ok (16 * k0) /\ index d1 4 = Ok (16 * k1)
    /\ (c < 2 ^ 32 - 1 ->
        (k0 = 1 /\ k1 = 2) \/ (k0 = 2 /\ k1 = 4) \/ (k0 = 4 /\ k1 = 1))
    /\ (c = 2 ^ 32 - 1 -> k0 = 1 /\ k1 = 1).
Proof.
  intros Hd Hpor Hext Hc.
  pose proof (setup_run st mcusr_por c Hd) as R0.
  pose proof (setup_run st mcusr_ext c Hd) as R1.
  cbv zeta in R0, R1. unfold frame_after. rewrite R0, R1. clear R0 R1.
  cbn [data with_data].
  unfold setup_resetCount. cbv zeta. unfold truthy.
  rewrite Hpor. apply Z.eqb_neq in Hext. rewrite Hext. cbn [negb Z.eqb].
  change (negb (0 =? 0)) with false. cbv iota.
  assert (U : u32 c = c) by (unfold u32; apply Z.mod_small; lia). rewrite U.
  do 2 eexists. exists (2 ^ (c mod 3)), (2 ^ (u32 (c + 1) mod 3)).
  split; [reflexivity|]. split; [reflexivity|]. split; [reflexivity|].
  split; [reflexivity|].
  pose proof (Z.mod_pos_bound c 3 ltac:(lia)) as B.
  split.
  - intros Hlt. assert (U1 : u32 (c + 1) = c + 1) by (unfold u32; apply Z.mod_small; lia).
    rewrite U1.
    assert (S : (c + 1) mod 3 = (c mod 3 + 1) mod 3).
    { rewrite Z.add_mod by lia. rewrite (Z.add_mod (c mod 3) 1) by lia.
      rewrite Z.mod_mod by lia. reflexivity. }
    rewrite S.
    assert (C : c mod 3 = 0 \/ c mod 3 = 1 \/ c mod 3 = 2) by lia.
    destruct C as [-> | [-> | ->]]; [left | right; left | right; right];
      split; reflexivity.
  - intros ->. split; reflexivity.
Qed.
End SetupProps.

Lemma setup_configures_channel_and_pins_witness :
  exists st' nv n,
    setup 1 (pinMode DHT_DATA_PIN INPUT_PULLUP) (fun seed => seed * 7 + 3) 0x02 41
          (boot_state (fun _ => 0x80))
    = Ok (nv, st')
    /\ n = (if truthy (Z.land (u8 0x02) (Z.shiftl 1 1)) then u32 (u32 41 + 1) else u32 41)
    /\ MCUSR nv = 0
    /\ eeprom_resetCount nv = (if truthy (Z.land (u8 0x02) (Z.shiftl 1 1)) then n else 41)
    /\ data st' = [0xff; 0xff; 0x1a; 0x2d; 16 * 2 ^ (n mod 3); u8 (n * 7 + 3);
                   0x08; 0x00; 0x00; 0x80; 0x00; 0x00]
    /\ (16 * 2 ^ (n mod 3) = 0x10 \/ 16 * 2 ^ (n mod 3) = 0x20 \/ 16 * 2 ^ (n mod 3) = 0x40)
    /\ regs st' ADCSRA = 0
    /\ irq st' = true
    /\ trace st'
       = []
         ++ [EvWdtDisable; EvPinMode RESET_PIN INPUT_PULLUP;
             EvPinMode T0_XO_POWER_PIN OUTPUT; EvPinMode DHT_POWER_PIN OUTPUT]
         ++ [EvPinMode DHT_DATA_PIN INPUT_PULLUP]
         ++ [EvPinMode DHT_DATA_PIN OUTPUT; EvDigitalWrite DHT_DATA_PIN LOW;
             EvPinMode TX_PIN OUTPUT].
Proof.
  apply (setup_configures_channel_and_pins 1 (pinMode DHT_DATA_PIN INPUT_PULLUP)
           (fun seed => seed * 7 + 3) [EvPinMode DHT_DATA_PIN INPUT_PULLUP]
           (fun s => eq_refl) (boot_state (fun _ => 0x80)) 0x02 41).
  reflexivity.
Defined.

Lemma external_reset_selects_next_channel_witness :
  exists d0 d1 k0 k1,
    frame_after (setup 1 (pinMode DHT_DATA_PIN INPUT_PULLUP) (fun seed => seed * 7 + 3) 0x01 41)
                (boot_state (fun _ => 0)) = Ok d0
    /\ frame_after (setup 1 (pinMode DHT_DATA_PIN INPUT_PULLUP) (fun seed => seed * 7 + 3)
                          0x02 41)
                   (boot_state (fun _ => 0)) = Ok d1
    /\ index d0 4 = Ok (16 * k0) /\ index d1 4 = Ok (16 * k1)
    /\ (41 < 2 ^ 32 - 1 ->
        (k0 = 1 /\ k1 = 2) \/ (k0 = 2 /\ k1 = 4) \/ (k0 = 4 /\ k1 = 1))
    /\ (41 = 2 ^ 32 - 1 -> k0 = 1 /\ k1 = 1).
Proof.
  apply (external_reset_selects_next_channel 1 (pinMode DHT_DATA_PIN INPUT_PULLUP)
           (fun seed => seed * 7 + 3) [EvPinMode DHT_DATA_PIN INPUT_PULLUP]
           (fun s => eq_refl) (boot_state (fun _ => 0)) 0x01 0x02 41);
    [reflexivity | reflexivity | vm_compute; discriminate | lia].
Defined.

(** ** The reading in the frame on the air *)

(** The tenths digit written by [setTemperature] survives the write of
    the low-battery flag into the same byte. *)
Lemma field_tenths_flag (b v : Z) (lb : bool) :
  0 <= v < 16 ->
  field (field b 0x0f (Z.land (Z.shiftl v 4) 0xf0)) 0xf8 (if lb then 0x4 else 0x0) / 16 = v.
Proof.
  intros Hv. rewrite (field_u8 b) by lia.
  pose proof (range2 (fun y v =>
    forallb (fun lb : bool =>
      field (field y 0x0f (Z.land (Z.shiftl v 4) 0xf0)) 0xf8 (if lb then 0x4 else 0x0) / 16
      =? v) [true; false]) 256 16
    ltac:(vm_compute; reflexivity) (u8 b) v (u8_range b) Hv) as F.
  cbv beta in F. rewrite forallb_forall in F.
  specialize (F lb ltac:(destruct lb; cbn; tauto)). apply Z.eqb_eq in F. exact F.
Qed.

Section Reading.
Context `{AvrIo}.

(** X19: the frame [transmit] puts on the air decodes to the reading.
    For a temperature of [k] tenths of a degree, [-999 <= k <= 999], and
    a humidity of [kh] tenths of a percent, [0 <= kh <= 994] (both given
    as the nearest binary32 values), and either battery flag, the frame
    left by [transmit] (the one sent) holds the sign and the three
    decimal digits of the temperature and the two digits of the humidity
    rounded half up to a whole percent: the later writes of the flag, the
    checksum and the CRC do not disturb them. *)
Theorem transmit_frame_decodes_to_reading (st : state) (k kh : Z) (b : bool) :
  Z.of_nat (length (data st)) = DATA_LEN ->
  -999 <= k <= 999 ->
  0 <= kh <= 994 ->
  exists s,
    transmit (Float32.decimal k 1) (Float32.decimal kh 1) b st = Ok (tt, s)
    /\ Spec.decode (data s) = Ok (Spec.digits_of k ((kh + 5) / 10)).
Proof.
  intros Hlen Hk Hkh.
  remember (data st) as d eqn:Hd. frame12 d Hlen. symmetry in Hd.
  pose proof (setTemperature_run _ _ _ _ _ _ _ _ _ _ _ _ st Hd (Float32.decimal k 1)) as T.
  destruct (temperature_digits_wide k ltac:(lia)) as (Es & E1 & E2 & E3 & E4).
  cbv zeta in T, Es, E1, E2, E3, E4. rewrite E1, E2, E3, E4, Es in T. clear Es E1 E2 E3 E4.
  unfold transmit. unfold bind at 1. rewrite T. clear T.
  unfold bind at 1.
  match goal with
  | |- context [setHumidity _ (with_data ?d' st)] =>
      pose proof (setHumidity_run _ _ _ _ _ _ _ _ _ _ _ _ (with_data d' st) eq_refl
                    (Float32.decimal kh 1)) as U
  end.
  destruct (humidity_digits_rounded kh ltac:(lia)) as (E1 & E2).
  cbv zeta in U, E1, E2. rewrite E1, E2 in U. clear E1 E2.
  rewrite U. clear U.
  unfold bind at 1.
  run_setter (setLowBattery b) (fun a b' c d e f g i j k l m s H =>
                                   setLowBattery_run a b' c d e f g i j k l m s H b).
  cbn [with_data data regs irq sleep_mode sleep_enabled trace pin old_TCCR0A old_TCCR0B
       old_OCR0A old_TIMSK dataPin powerPin].
  fold (with_data).
  match goal with
  | |- context [bind setChecksum _ ?s] =>
      destruct (setChecksum_run _ _ _ _ _ _ _ _ _ _ _ _ s eq_refl) as (c & _ & E)
  end.
  unfold bind at 1. rewrite E. clear E.
  match goal with
  | |- context [bind setCRC _ ?s] =>
      destruct (setCRC_run _ _ _ _ _ _ _ _ _ _ _ _ s eq_refl) as (c' & _ & E)
  end.
  unfold bind at 1. rewrite E. clear E.
  match goal with
  | |- context [bind sendData _ ?s] =>
      assert (L : Z.of_nat (length (data s)) = DATA_LEN) by reflexivity;
      destruct (sendData_run s L) as (s2 & E2 & P2)
  end.
  unfold bind at 1. rewrite E2. clear E2.
  unfold bind at 1. unfold delay, emit, modify.
  assert (L6 : Z.of_nat (length (data (with_trace (trace s2 ++ [EvDelay 55]) s2))) = DATA_LEN).
  { cbn [data with_trace]. destruct P2 as (_ & -> & _). exact L. }
  destruct (sendData_run _ L6) as (s4 & E4 & P4).
  exists s4. split; [exact E4|].
  destruct P2 as (_ & D2 & _). destruct P4 as (_ & D4 & _).
  cbn [data with_data with_trace] in D2, D4. rewrite D4, D2. clear D2 D4 L L6 E4.
  rewrite decode_frame. unfold Spec.digits_of. f_equal.
  pose proof (mod10_digit (Z.abs k)) as D1.
  pose proof (mod10_digit (Z.abs k / 10)) as D2.
  pose proof (mod10_digit (Z.abs k / 100)) as D3.
  pose proof (mod10_digit ((kh + 5) / 10)) as D4.
  pose proof (mod10_digit ((kh + 5) / 100)) as D5.
  f_equal.
  - (* sign *)
    rewrite testbit3_low_nibble.
    match goal with |- context [field ?b 15 (Z.land (Z.shiftl ?v 4) 240)] =>
      destruct (field_high b v D4) as (_ & _ & ->) end.
    rewrite field_sign by (destruct (k <? 0); cbn; lia).
    destruct (k <? 0); reflexivity.
  - (* tenths *)
    apply field_tenths_flag. exact D1.
  - (* ones *)
    change 16 with (2 ^ 4). rewrite <- Z.land_ones by lia. change (Z.ones 4) with 0x0f.
    match goal with |- context [field ?b 15 (Z.land (Z.shiftl ?v 4) 240)] =>
      destruct (field_high b v D3) as (_ & _ & ->) end.
    match goal with |- context [field ?b 240 (Z.land (Z.shiftl ?v 0) 15)] =>
      destruct (field_low b v D2) as (_ & ->) end. reflexivity.
  - (* tens *)
    match goal with |- context [field ?b 15 (Z.land (Z.shiftl ?v 4) 240)] =>
      destruct (field_high b v D3) as (-> & _) end. reflexivity.
  - (* humidity ones *)
    match goal with |- context [field ?b 15 (Z.land (Z.shiftl ?v 4) 240)] =>
      destruct (field_high b v D4) as (-> & _) end. reflexivity.
  - (* humidity tens *)
    match goal with |- context [field ?b 240 (Z.land (Z.shiftl ?v 0) 15)] =>
      destruct (field_low b v D5) as (-> & _) end.
    rewrite Z.div_div by lia. reflexivity.
Qed.
End Reading.

Lemma transmit_frame_decodes_to_reading_witness :
  exists s,
    transmit (H := attiny85) (Float32.decimal (-55) 1) (Float32.decimal 476 1) true
             (boot_state (fun _ => 0)) = Ok (tt, s)
    /\ Spec.decode (data s) = Ok (Spec.digits_of (-55) ((476 + 5) / 10)).
Proof.
  apply (@transmit_frame_decodes_to_reading attiny85 (boot_state (fun _ => 0)) (-55) 476 true);
    [reflexivity | lia | lia].
Defined.

(** ** Error detection *)

Lemma crc8_step_low_bits (r : Z) (c : bool) :
  Spec.crc8_step 7 r c = Spec.crc8_step 7 (u8 r) c.
Proof.
  rewrite <- (crc_shift_bits r r c eq_refl).
  apply (crc_shift_bits r (u8 r) c). symmetry. apply u8_idem.
Qed.

Lemma crc8_step_inj (r r' : Z) (c : bool) :
  Spec.crc8_step 7 r c = Spec.crc8_step 7 r' c -> u8 r = u8 r'.
Proof.
  rewrite (crc8_step_low_bits r), (crc8_step_low_bits r').
  pose proof (range2 (fun x y =>
    forallb (fun c => implb (Spec.crc8_step 7 x c =? Spec.crc8_step 7 y c) (x =? y))
            [true; false]) 256 256
    ltac:(vm_compute; reflexivity) (u8 r) (u8 r') (u8_range r) (u8_range r')) as F.
  cbv beta in F. rewrite forallb_forall in F.
  specialize (F c ltac:(destruct c; cbn; tauto)).
  intros E. rewrite E, Z.eqb_refl in F. cbn [implb] in F. apply Z.eqb_eq in F. exact F.
Qed.

Lemma crc8_step_flip (r : Z) (c : bool) :
  Spec.crc8_step 7 r c <> Spec.crc8_step 7 r (negb c).
Proof.
  rewrite (crc8_step_low_bits r c), (crc8_step_low_bits r (negb c)).
  pose proof (upto_forallb (fun x =>
    negb (Spec.crc8_step 7 x true =? Spec.crc8_step 7 x false)) 256
    ltac:(vm_compute; reflexivity) (u8 r) (u8_range r)) as F.
  cbv beta in F. apply negb_true_iff, Z.eqb_neq in F.
  destruct c; cbn [negb]; congruence.
Qed.

Lemma crc_fold_distinct (bits : list bool) (r r' : Z) :
  u8 r <> u8 r' ->
  u8 (fold_left (Spec.crc8_step 7) bits r) <> u8 (fold_left (Spec.crc8_step 7) bits r').
Proof.
  revert r r'. induction bits as [|c bits IH]; intros r r' Hne; cbn [fold_left].
  - exact Hne.
  - apply IH. rewrite !crc8_step_u8. intros E. apply Hne. eapply crc8_step_inj, E.
Qed.

(** Two bit streams that differ in exactly one bit leave different CRC
    registers. *)
Lemma crc_fold_single_flip (pre post : list bool) (c : bool) (r : Z) :
  fold_left (Spec.crc8_step 7) (pre ++ c :: post) r
  <> fold_left (Spec.crc8_step 7) (pre ++ negb c :: post) r.
Proof.
  rewrite !fold_left_app. cbn [fold_left]. intros E.
  apply (crc_fold_distinct post (Spec.crc8_step 7 (fold_left (Spec.crc8_step 7) pre r) c)
           (Spec.crc8_step 7 (fold_left (Spec.crc8_step 7) pre r) (negb c))).
  - rewrite !crc8_step_u8. apply crc8_step_flip.
  - rewrite E. reflexivity.
Qed.

Lemma nibble_bits_flip (n t : Z) :
  0 <= t < 4 ->
  exists pre post c,
    Spec.nibble_bits n = pre ++ c :: post
    /\ Spec.nibble_bits (Z.lxor n (2 ^ t)) = pre ++ negb c :: post.
Proof.
  intros Ht. unfold Spec.nibble_bits. rewrite !Z.lxor_spec, !Z.pow2_bits_eqb by lia.
  assert (C : t = 0 \/ t = 1 \/ t = 2 \/ t = 3) by lia.
  destruct C as [-> | [-> | [-> | ->]]]; cbn [Z.eqb Pos.eqb];
    rewrite ?xorb_false_r, ?xorb_true_r.
  - exists [Z.testbit n 3; Z.testbit n 2; Z.testbit n 1], [], (Z.testbit n 0).
    split; reflexivity.
  - exists [Z.testbit n 3; Z.testbit n 2], [Z.testbit n 0], (Z.testbit n 1).
    split; reflexivity.
  - exists [Z.testbit n 3], [Z.testbit n 1; Z.testbit n 0], (Z.testbit n 2).
    split; reflexivity.
  - exists [], [Z.testbit n 2; Z.testbit n 1; Z.testbit n 0], (Z.testbit n 3).
    split; reflexivity.
Qed.

Lemma crc_nibbles_stream (d : list Z) (ps ns : list Z) (r : Z) :
  nibbles_at d ps = Ok ns ->
  Spec.crc_nibbles 7 d ps r
  = Ok (fold_left (Spec.crc8_step 7) (flat_map Spec.nibble_bits ns) r).
Proof.
  revert ns r. induction ps as [|p ps IH]; intros ns r; cbn [nibbles_at Spec.crc_nibbles].
  - intros [= <-]. reflexivity.
  - destruct (Spec.nibble_at d p) as [n|j]; cbn [rbind]; [|discriminate].
    destruct (nibbles_at d ps) as [ns0|j]; cbn [rbind]; [|discriminate].
    intros [= <-]. rewrite (IH ns0) by reflexivity.
    cbn [flat_map]. rewrite fold_left_app. reflexivity.
Qed.

Lemma nibbles_at_same (d d' : list Z) (ps : list Z) :
  (forall q, In q ps -> Spec.nibble_at d' q = Spec.nibble_at d q) ->
  nibbles_at d' ps = nibbles_at d ps.
Proof.
  induction ps as [|p ps IH]; intros Hs; cbn [nibbles_at]; [reflexivity|].
  rewrite (Hs p) by (left; reflexivity).
  rewrite IH by (intros q Hq; apply Hs; right; exact Hq). reflexivity.
Qed.

(** Changing the nibble at one selected position changes one element of
    the list of selected nibbles. *)
Lemma nibbles_at_single_change (d d' : list Z) (ps : list Z) (p n n' : Z) :
  List.NoDup ps -> In p ps ->
  Spec.nibble_at d p = Ok n -> Spec.nibble_at d' p = Ok n' ->
  (forall q, In q ps -> q <> p -> Spec.nibble_at d' q = Spec.nibble_at d q) ->
  forall ns, nibbles_at d ps = Ok ns ->
  exists ns1 ns2, ns = ns1 ++ n :: ns2 /\ nibbles_at d' ps = Ok (ns1 ++ n' :: ns2).
Proof.
  intros Hnd. induction Hnd as [|x ps Hx Hnd IH]; intros Hin Hn Hn' Hs ns; [destruct Hin|].
  cbn [nibbles_at]. destruct Hin as [->|Hin].
  - rewrite Hn, Hn'. cbn [rbind].
    rewrite (nibbles_at_same d d' ps).
    2:{ intros q Hq. apply Hs; [right; exact Hq|]. intros ->. exact (Hx Hq). }
    destruct (nibbles_at d ps) as [ns0|j]; cbn [rbind]; [|discriminate].
    intros [= <-]. exists [], ns0. split; reflexivity.
  - assert (Hxp : x <> p) by (intros ->; exact (Hx Hin)).
    rewrite (Hs x) by (try (left; reflexivity); exact Hxp).
    destruct (Spec.nibble_at d x) as [m|j]; cbn [rbind]; [|discriminate].
    destruct (nibbles_at d ps) as [ns0|j] eqn:E0; cbn [rbind]; [|discriminate].
    intros [= <-].
    destruct (IH Hin Hn Hn' (fun q Hq => Hs q (or_intror Hq)) ns0 eq_refl)
      as (ns1 & ns2 & -> & ->).
    cbn [rbind]. exists (m :: ns1), ns2. split; reflexivity.
Qed.

Lemma selected_NoDup (mask : Z) : List.NoDup (Spec.selected mask).
Proof.
  unfold Spec.selected. apply List.NoDup_filter. unfold upto.
  apply Finite.Injective_map_NoDup; [|apply List.seq_NoDup].
  intros a b E. lia.
Qed.

Lemma selected_In (mask p : Z) :
  In p (Spec.selected mask) <-> (0 <= p < 64 /\ Z.testbit mask p = true).
Proof.
  unfold Spec.selected. rewrite List.filter_In. unfold upto. rewrite in_map_iff.
  split.
  - intros [(k & <- & Hk) Hb]. apply in_seq in Hk. split; [lia | exact Hb].
  - intros [Hp Hb]. split; [|exact Hb]. exists (Z.to_nat p). split; [lia|].
    apply in_seq. lia.
Qed.

Lemma checksumCRC_as_stream (d : list Z) (mask iv : Z) (ns : list Z) :
  nibbles_at d (Spec.selected mask) = Ok ns ->
  checksumCRC d mask iv
  = Ok (fold_left (Spec.crc8_step 7) (flat_map Spec.nibble_bits ns ++ repeat false 8) iv).
Proof.
  intros Hns. unfold checksumCRC.
  assert (A : crc_agree (for_each (upto 64) (checksumCRC_body d mask) iv)
                        (Spec.crc_nibbles 7 d (Spec.selected mask) iv)).
  { apply (crc_loop_refines d mask (upto 64) iv iv); [|reflexivity].
    intros i Hi. apply upto_nonneg in Hi. lia. }
  rewrite (crc_nibbles_stream d _ ns iv Hns) in A.
  destruct (for_each (upto 64) (checksumCRC_body d mask) iv) as [s|i];
    cbn [rbind]; unfold crc_agree in A.
  - cbv zeta. f_equal. rewrite fold_left_app. apply crc_flush_all_sim.
    exact A.
  - destruct A.
Qed.

Lemma sum_nibbles_ok (d : list Z) (ps ns : list Z) (s : Z) :
  nibbles_at d ps = Ok ns -> exists r, Spec.sum_nibbles d ps s = Ok r.
Proof.
  revert ns s. induction ps as [|p ps IH]; intros ns s; cbn [nibbles_at Spec.sum_nibbles].
  - eexists; reflexivity.
  - destruct (Spec.nibble_at d p) as [n|j]; cbn [rbind]; [|discriminate].
    destruct (nibbles_at d ps) as [ns0|j] eqn:E; cbn [rbind]; [|discriminate].
    intros _. apply (IH ns0). reflexivity.
Qed.

Lemma checksumSimple_as_sum (d : list Z) (mask : Z) (ns : list Z) :
  nibbles_at d (Spec.selected mask) = Ok ns ->
  exists r, checksumSimple d mask = Ok r /\ 0 <= r < 256 /\ r mod 255 = Zsum ns mod 255.
Proof.
  intros Hns.
  assert (R : for_each (upto 64) (checksumSimple_body d mask) 0
              = Spec.sum_nibbles d (Spec.selected mask) 0).
  { apply (sum_loop_refines d mask (upto 64) 0).
    intros i Hi. apply upto_nonneg in Hi. lia. }
  unfold checksumSimple. rewrite R. clear R.
  destruct (sum_nibbles_ok d _ ns 0 Hns) as [r E]. rewrite E. cbn [rbind].
  apply sum_nibbles_total in E as (ns0 & E0 & _ & _ & Hr & Hmod & _); [|lia].
  assert (E1 : Ok ns0 = Ok ns) by (rewrite <- E0; exact Hns).
  injection E1 as ->.
  exists r. rewrite u8_small by exact Hr.
  split; [reflexivity|]. split; [exact Hr|]. rewrite Hmod. f_equal.
Qed.

Lemma Zsum_app (l1 l2 : list Z) : Zsum (l1 ++ l2) = Zsum l1 + Zsum l2.
Proof.
  induction l1 as [|x l1 IH]; cbn [app Zsum fold_right]; [reflexivity|].
  fold (Zsum (l1 ++ l2)). fold (Zsum l1). rewrite IH. lia.
Qed.

Lemma lxor_bit_nibble (n t : Z) :
  0 <= n < 16 -> 0 <= t < 4 ->
  let n' := Z.lxor n (2 ^ t) in
  n' <> n /\ -8 <= n' - n <= 8.
Proof.
  intros Hn Ht.
  pose proof (range2 (fun n t =>
    let n' := Z.lxor n (2 ^ t) in
    negb (n' =? n) && (-8 <=? n' - n) && (n' - n <=? 8)) 16 4
    ltac:(vm_compute; reflexivity) n t Hn Ht) as F.
  cbv beta zeta in F. rewrite !andb_true_iff, negb_true_iff, Z.eqb_neq, !Z.leb_le in F.
  cbv zeta. tauto.
Qed.

(** X20: a single flipped bit in a covered nibble never goes unnoticed.
    If all the nibbles a mask selects can be read from [d], and [d']
    differs from [d] on the selected nibbles only by one flipped bit of
    the nibble at one selected position, then [checksumSimple] differs on
    the two buffers and so does [checksumCRC], for every mask and initial
    value. *)
Theorem digests_detect_single_bit_flip (d d' : list Z) (mask iv p t n : Z) (ns : list Z) :
  nibbles_at d (Spec.selected mask) = Ok ns ->
  0 <= p < 64 -> Z.testbit mask p = true -> 0 <= t < 4 ->
  Spec.nibble_at d p = Ok n ->
  Spec.nibble_at d' p = Ok (Z.lxor n (2 ^ t)) ->
  (forall q, 0 <= q < 64 -> Z.testbit mask q = true -> q <> p ->
             Spec.nibble_at d' q = Spec.nibble_at d q) ->
  checksumSimple d' mask <> checksumSimple d mask
  /\ checksumCRC d' mask iv <> checksumCRC d mask iv.
Proof.
  intros Hns Hp Hbit Ht Hn Hn' Hsame.
  destruct (nibbles_at_single_change d d' (Spec.selected mask) p n (Z.lxor n (2 ^ t))
              (selected_NoDup mask) (proj2 (selected_In mask p) (conj Hp Hbit)) Hn Hn'
              (fun q Hq => Hsame q (proj1 (proj1 (selected_In mask q) Hq))
                                 (proj2 (proj1 (selected_In mask q) Hq)))
              ns Hns) as (ns1 & ns2 & -> & Hns').
  split.
  - destruct (checksumSimple_as_sum d mask _ Hns) as (r & -> & Hr & Hmod).
    destruct (checksumSimple_as_sum d' mask _ Hns') as (r' & -> & Hr' & Hmod').
    intros [= ->]. rewrite Hmod in Hmod'. clear Hmod.
    rewrite !Zsum_app in Hmod'. cbn [Zsum fold_right] in Hmod'. fold (Zsum ns2) in Hmod'.
    destruct (lxor_bit_nibble n t (nibble_at_range d p n Hn) Ht) as [Hne Hd].
    cbv zeta in Hne, Hd.
    set (n' := Z.lxor n (2 ^ t)) in *.
    assert (D : (n' - n) mod 255 = 0).
    { replace (n' - n) with ((Zsum ns1 + (n' + Zsum ns2)) - (Zsum ns1 + (n + Zsum ns2)))
        by lia.
      rewrite Zminus_mod, Hmod', Z.sub_diag. reflexivity. }
    apply Z.mod_divide in D; [|lia]. destruct D as [k D]. lia.
  - rewrite (checksumCRC_as_stream d mask iv _ Hns),
            (checksumCRC_as_stream d' mask iv _ Hns').
    rewrite !flat_map_app. cbn [flat_map].
    destruct (nibble_bits_flip n t Ht) as (pre & post & c & -> & ->).
    rewrite <- !app_assoc. cbn [app].
    rewrite !(app_assoc (flat_map Spec.nibble_bits ns1) pre).
    intros [= E]. symmetry in E. exact (crc_fold_single_flip _ _ _ _ E).
Qed.

Lemma digests_detect_single_bit_flip_witness :
  checksumSimple (<[7%nat := 0x23]> Spec.reference_frame) SUM_MASK
  <> checksumSimple Spec.reference_frame SUM_MASK
  /\ checksumCRC (<[7%nat := 0x23]> Spec.reference_frame) SUM_MASK CRC_IV
     <> checksumCRC Spec.reference_frame SUM_MASK CRC_IV.
Proof.
  apply (digests_detect_single_bit_flip Spec.reference_frame
           (<[7%nat := 0x23]> Spec.reference_frame) SUM_MASK CRC_IV 14 0 2
           [1; 13; 2; 0; 2; 11; 11; 12; 7; 2; 2; 0; 0; 3; 8]);
    try reflexivity; try lia.
  intros q Hq Hb Hne. destruct (Z.eq_dec q 15) as [->|H15]; [reflexivity|].
  apply nibble_at_insert_other; [lia|].
  intros E. apply H15. apply (f_equal Z.of_nat) in E. rewrite Z2Nat.id in E.
  - change (Z.of_nat 7) with 7 in E.
    pose proof (Z.div_mod q 2 ltac:(lia)) as DM.
    pose proof (Z.mod_pos_bound q 2 ltac:(lia)) as MB. lia.
  - apply Z.div_pos; lia.
Defined.
